(** * n8n-python-sdk: the Workflow / Node core and the document checker

    A shallow embedding of [n8n_python_sdk/node.py], [n8n_python_sdk/workflow.py],
    [n8n_python_sdk/exceptions.py] and [n8n_python_sdk/utils/json_parser.py].

    Python values that can come out of a parsed document are kept dynamically
    typed ([json]); every operation that Python would reject at run time
    returns the exception it raises.  Methods that mutate [self], log or touch
    the file system are written in a small state-and-exception monad whose
    state survives a raised exception, as the mutated object does in Python. *)

From Stdlib Require Import String Ascii ZArith NArith List Bool Lia.
Import ListNotations.
Local Open Scope string_scope.
Local Open Scope Z_scope.
Local Open Scope list_scope.

Set Implicit Arguments.
Set Warnings "-register-all".

(** ** Python values *)

(** The values [json.load] produces and [json.dump] accepts.  A [dict] is an
    association list in insertion order (Python dicts are ordered, and the
    order decides which error a loop meets first); keys are strings.  A float
    is the dyadic rational [m * 2^e]; the non-standard literals NaN and
    Infinity are outside this universe. *)
Inductive json : Type :=
| JNull
| JBool (b : bool)
| JInt (z : Z)
| JFloat (m e : Z)
| JStr (s : string)
| JList (l : list json)
| JDict (d : list (string * json)).

Definition dict := list (string * json).

(** [d.get(k)] as an option, [k in d], and [d[k] = v] (in place when the key
    exists, appended otherwise). *)
Fixpoint dict_get (k : string) (d : dict) : option json :=
  match d with
  | [] => None
  | (k', v) :: r => if String.eqb k k' then Some v else dict_get k r
  end.

Definition dict_has (k : string) (d : dict) : bool :=
  match dict_get k d with Some _ => true | None => false end.

Fixpoint dict_set (k : string) (v : json) (d : dict) : dict :=
  match d with
  | [] => [(k, v)]
  | (k', v') :: r =>
      if String.eqb k k' then (k', v) :: r else (k', v') :: dict_set k v r
  end.

(** [d.get(k, default)] *)
Definition dict_get_default (k : string) (default : json) (d : dict) : json :=
  match dict_get k d with Some v => v | None => default end.

Definition dict_keys (d : dict) : list string := map fst d.

(** Truth value of a Python object ([if x], [not x], [x or y]). *)
Definition truthy (j : json) : bool :=
  match j with
  | JNull => false
  | JBool b => b
  | JInt z => negb (z =? 0)
  | JFloat m _ => negb (m =? 0)
  | JStr s => negb (String.eqb s "")
  | JList l => match l with [] => false | _ => true end
  | JDict d => match d with [] => false | _ => true end
  end.

(** [x or y] *)
Definition py_or (x y : json) : json := if truthy x then x else y.

(** Numbers compare by value across bool, int and float. *)
Definition num_of (j : json) : option (Z * Z) :=
  match j with
  | JBool b => Some (if b then 1 else 0, 0)
  | JInt z => Some (z, 0)
  | JFloat m e => Some (m, e)
  | _ => None
  end.

Definition dyadic_eqb (x y : Z * Z) : bool :=
  let '(m1, e1) := x in
  let '(m2, e2) := y in
  let e := Z.min e1 e2 in
  m1 * 2 ^ (e1 - e) =? m2 * 2 ^ (e2 - e).

(** Python's [==] on these values: dicts compare without regard to order. *)
Fixpoint py_eq (a b : json) {struct a} : bool :=
  match a with
  | JNull => match b with JNull => true | _ => false end
  | JStr s => match b with JStr t => String.eqb s t | _ => false end
  | JList l =>
      match b with
      | JList l' =>
          (fix all2 (xs ys : list json) {struct xs} : bool :=
             match xs, ys with
             | [], [] => true
             | x :: xs', y :: ys' => py_eq x y && all2 xs' ys'
             | _, _ => false
             end) l l'
      | _ => false
      end
  | JDict d =>
      match b with
      | JDict d' =>
          (Nat.eqb (length d) (length d')) &&
          (fix sub (xs : dict) {struct xs} : bool :=
             match xs with
             | [] => true
             | (k, v) :: xs' =>
                 match dict_get k d' with
                 | Some v' => py_eq v v'
                 | None => false
                 end && sub xs'
             end) d
      | _ => false
      end
  | _ =>
      match num_of a, num_of b with
      | Some x, Some y => dyadic_eqb x y
      | _, _ => false
      end
  end.

(** Lists and dicts are unhashable: putting one in a [set] raises TypeError. *)
Definition hashable (j : json) : bool :=
  match j with JList _ | JDict _ => false | _ => true end.

(** [type(x).__name__] *)
Definition type_name (j : json) : string :=
  match j with
  | JNull => "NoneType" | JBool _ => "bool" | JInt _ => "int"
  | JFloat _ _ => "float" | JStr _ => "str" | JList _ => "list"
  | JDict _ => "dict"
  end.

(** ** Strings *)

(** [str.isspace] on the code points below 256. *)
Definition py_isspace (c : ascii) : bool :=
  let n := nat_of_ascii c in
  ((9 <=? n) && (n <=? 13) || (28 <=? n) && (n <=? 32)
   || (n =? 133) || (n =? 160))%nat.

Fixpoint lstrip (s : string) : string :=
  match s with
  | EmptyString => EmptyString
  | String c r => if py_isspace c then lstrip r else s
  end.

Fixpoint rstrip (s : string) : string :=
  match s with
  | EmptyString => EmptyString
  | String c r =>
      match rstrip r with
      | EmptyString => if py_isspace c then EmptyString else String c EmptyString
      | r' => String c r'
      end
  end.

(** [s.strip()] *)
Definition strip (s : string) : string := rstrip (lstrip s).

Fixpoint chars (s : string) : list json :=
  match s with
  | EmptyString => []
  | String c r => JStr (String c EmptyString) :: chars r
  end.

(** ** Exceptions and messages *)

(** Exceptions raised by the interpreter itself. [OSError] is the class
    [IOError] is an alias of. *)
Inductive builtin_exn : Set :=
| AttributeError | TypeError | KeyError | IndexError | OverflowError | OSError.

(** An f-string is kept as its pieces: literal text, an interpolated value,
    or the text the interpreter attaches to one of its own exceptions. *)
Inductive frag : Type :=
| Lit (s : string)
| Val (j : json)
| RuntimeText (b : builtin_exn).

Definition msg := list frag.

(** exceptions.py: the classes derived from [SDKError]. *)
Inductive sdk_class : Set :=
| WorkflowError | NodeError | ExportError | ValidationError.

Inductive exn : Type :=
| Sdk (cls : sdk_class) (message : msg) (code : option string)
| ValueError (message : msg)
| Builtin (b : builtin_exn).

(** exceptions.py, [class ErrorCodes]. *)
Module ErrorCodes.
Definition WORKFLOW_INVALID_NAME := "WF001".
Definition WORKFLOW_NO_NODES := "WF002".
Definition WORKFLOW_DUPLICATE_NODE := "WF003".
Definition WORKFLOW_VALIDATION_FAILED := "WF004".
Definition NODE_INVALID_TYPE := "ND001".
Definition NODE_INVALID_PARAMETERS := "ND002".
Definition NODE_MISSING_REQUIRED_FIELD := "ND003".
Definition NODE_VALIDATION_FAILED := "ND004".
Definition CONNECTION_SOURCE_NOT_FOUND := "CN001".
Definition CONNECTION_TARGET_NOT_FOUND := "CN002".
Definition CONNECTION_INVALID_OUTPUT := "CN003".
Definition CONNECTION_CIRCULAR_DEPENDENCY := "CN004".
Definition EXPORT_FILE_ERROR := "EX001".
Definition EXPORT_SERIALIZATION_ERROR := "EX002".
Definition EXPORT_VALIDATION_ERROR := "EX003".
End ErrorCodes.

(** [SDKError.__str__], and [str(e)] for the other exceptions. *)
Definition exn_str (e : exn) : msg :=
  match e with
  | Sdk _ m (Some c) => Lit "[" :: Lit c :: Lit "] " :: m
  | Sdk _ m None => m
  | ValueError m => m
  | Builtin b => [RuntimeText b]
  end.

(** [', '.join(parts)] *)
Fixpoint join (sep : string) (parts : list msg) : msg :=
  match parts with
  | [] => []
  | [p] => p
  | p :: rest => p ++ Lit sep :: join sep rest
  end.

Inductive outcome (A : Type) : Type :=
| Return (a : A)
| Raise (e : exn).
Arguments Return {A} a.
Arguments Raise {A} e.

Definition obind {A B} (x : outcome A) (f : A -> outcome B) : outcome B :=
  match x with Return a => f a | Raise e => Raise e end.

(** [try: body / except ...: handler] for code without effects. *)
Definition otry {A} (body : outcome A) (handler : exn -> outcome A) : outcome A :=
  match body with Return a => Return a | Raise e => handler e end.

(** Iterating a value ([for x in v], [list(v)]): a list gives its items, a
    string its characters, a dict its keys; nothing else is iterable. *)
Definition py_iter (j : json) : outcome (list json) :=
  match j with
  | JList l => Return l
  | JStr s => Return (chars s)
  | JDict d => Return (map JStr (dict_keys d))
  | _ => Raise (Builtin TypeError)
  end.

(** [not x or not x.strip()] for a required text argument: [None] in the
    empty cases, the stripped text otherwise; [.strip()] on a value that is
    not a string raises AttributeError. *)
Definition required_text (x : json) : outcome (option string) :=
  if negb (truthy x) then Return None
  else match x with
       | JStr s => if String.eqb (strip s) "" then Return None
                   else Return (Some (strip s))
       | _ => Raise (Builtin AttributeError)
       end.

(** ** Logging *)

Inductive level : Set := DEBUG | INFO | WARNING | ERROR.

Definition log_event := (level * msg)%type.
Definition Log := list log_event.

(** ** The monad of methods *)

(** A computation over a state [S] that returns or raises; the state it
    leaves behind is kept in both cases. *)
Definition M (S A : Type) : Type := S -> outcome A * S.

Definition ret {S A} (a : A) : M S A := fun s => (Return a, s).
Definition raise {S A} (e : exn) : M S A := fun s => (Raise e, s).

Definition bind {S A B} (m : M S A) (f : A -> M S B) : M S B :=
  fun s => match m s with
           | (Return a, s') => f a s'
           | (Raise e, s') => (Raise e, s')
           end.

(** [try: body / except ...: handler] *)
Definition try_except {S A} (body : M S A) (handler : exn -> M S A) : M S A :=
  fun s => match body s with
           | (Return a, s') => (Return a, s')
           | (Raise e, s') => handler e s'
           end.

Definition gets {S A} (f : S -> A) : M S A := fun s => (Return (f s), s).
Definition modify {S} (f : S -> S) : M S unit := fun s => (Return tt, f s).
Definition lift_outcome {S A} (x : outcome A) : M S A := fun s => (x, s).

Declare Scope py_scope.
Delimit Scope py_scope with py.
Notation "x <- m ;; k" := (bind m (fun x => k))
  (at level 61, m at next level, right associativity) : py_scope.
Notation "m ;; k" := (bind m (fun _ => k))
  (at level 61, right associativity) : py_scope.
Local Open Scope py_scope.

(** [for x in xs: body(x)], stopping at the first exception. *)
Fixpoint for_each {S A} (xs : list A) (body : A -> M S unit) : M S unit :=
  match xs with
  | [] => ret tt
  | x :: r => body x ;; for_each r body
  end.

(** The same loop for code without effects. *)
Fixpoint ofor_each {A} (xs : list A) (body : A -> outcome unit) : outcome unit :=
  match xs with
  | [] => Return tt
  | x :: r => obind (body x) (fun _ => ofor_each r body)
  end.

(** [logger.<level>(message)] on a state that is just the log. *)
Definition logger (lv : level) (m : msg) : M Log unit :=
  modify (fun lg => lg ++ [(lv, m)]).

(** ** What the code takes from its platform *)

(** [str(uuid.uuid4())]: the 128-bit value printed as 32 lower-case hex
    digits grouped 8-4-4-4-12.  The random value is an input. *)
Definition hex_digit (n : N) : ascii :=
  match String.get (N.to_nat n) "0123456789abcdef" with
  | Some c => c
  | None => "0"%char
  end.

Fixpoint hexn (k : nat) (v : N) : string :=
  match k with
  | O => EmptyString
  | S k' => (hexn k' (v / 16)%N ++ String (hex_digit (v mod 16)%N) EmptyString)%string
  end.

Definition uuid_str (u : N) : string :=
  let h := hexn 32 u in
  (substring 0 8 h ++ "-" ++ substring 8 4 h ++ "-" ++ substring 12 4 h
    ++ "-" ++ substring 16 4 h ++ "-" ++ substring 20 12 h)%string.

(** The text [json.dump(doc, f, indent=..., ensure_ascii=False)] writes,
    named by what determines it. *)
Inductive text : Type :=
| JsonText (indent : option nat) (doc : json).

(** What [with open(path, 'w') as f: json.dump(doc, f, ..)] fails with when
    it fails: an [OSError] from [open] or from a write, or the [TypeError] or
    [ValueError] of [json.dump]. *)
Inductive write_error : Type :=
| WriteOSError
| DumpTypeError
| DumpValueError (m : msg).

Definition write_exn (e : write_error) : exn :=
  match e with
  | WriteOSError => Builtin OSError
  | DumpTypeError => Builtin TypeError
  | DumpValueError m => ValueError m
  end.

(** Library behaviour the code relies on and the repository does not
    contain: which strings [float()] parses, and the file system behind
    [os.path.abspath], [os.path.dirname], [os.makedirs(.., exist_ok=True)]
    and [open(.., 'w')] with [json.dump].  For [makedirs], [None] stands
    for an [OSError].  [write_text] is the file system after the file was
    opened and the text written, [None] when either failed; in that case
    [write_failure] gives the exception and the file system left behind, in
    which the file may have been created, truncated or written in part. *)
Class Platform : Type := {
  float_parses : string -> bool;
  FileSystem : Type;
  abspath : string -> string;
  dirname : string -> string;
  makedirs : string -> FileSystem -> option FileSystem;
  write_text : string -> text -> FileSystem -> option FileSystem;
  write_failure : string -> text -> FileSystem -> write_error * FileSystem
}.

(** ** node.py *)

Module Node.

Record t : Type := {
    id : json;
    type : string;
    name : string;
    type_version : json;
    parameters : json;
    position : json;
    credentials : json
  }.

  (** Anything a caller may hand to a function expecting a node. *)
Inductive object : Type :=
  | ONode (n : t)
  | OValue (j : json).

  (** [Node.__init__]. [uuid] is the value [uuid.uuid4()] would give. *)
Definition __init__ (node_type name node_id type_version parameters
                       position credentials : json) (uuid : N) : M Log t :=
    ty <- lift_outcome (required_text node_type) ;;
    match ty with
    | None => raise (Sdk NodeError [Lit "Node type cannot be empty"]
                         (Some ErrorCodes.NODE_INVALID_TYPE))
    | Some type_ =>
        nm <- lift_outcome (required_text name) ;;
        match nm with
        | None => raise (Sdk NodeError [Lit "Node name cannot be empty"]
                             (Some ErrorCodes.NODE_MISSING_REQUIRED_FIELD))
        | Some name_ =>
            let self :=
              {| id := if truthy node_id then node_id else JStr (uuid_str uuid);
                 type := type_;
                 name := name_;
                 type_version := type_version;
                 parameters := py_or parameters (JDict []);
                 position := py_or position (JList [JInt 0; JInt 0]);
                 credentials := py_or credentials (JDict []) |} in
            logger DEBUG [Lit "Created node '"; Val (JStr (Node.name self));
                          Lit "' (ID: "; Val (id self); Lit ", Type: ";
                          Val (JStr (type self)); Lit ")"] ;;
            ret self
        end
    end.

  (** [Node.to_dict]; [list(self.position)] raises on a value that cannot be
      iterated. *)
Definition to_dict (self : t) : outcome json :=
    obind (py_iter (position self)) (fun pos =>
      let node_dict :=
        [("id", id self); ("name", JStr (name self)); ("type", JStr (type self));
         ("typeVersion", type_version self); ("position", JList pos);
         ("parameters", parameters self)] in
      if truthy (credentials self)
      then Return (JDict (dict_set "credentials" (credentials self) node_dict))
      else Return (JDict node_dict)).

  (** [Node.from_dict]; [data.get] exists on dicts only. *)
Definition from_dict (data : json) (uuid : N) : M Log t :=
    match data with
    | JDict d =>
        __init__ (dict_get_default "type" (JStr "") d)
                 (dict_get_default "name" (JStr "") d)
                 (dict_get_default "id" JNull d)
                 (dict_get_default "typeVersion" (JInt 1) d)
                 (dict_get_default "parameters" (JDict []) d)
                 (dict_get_default "position" (JList [JInt 0; JInt 0]) d)
                 (dict_get_default "credentials" (JDict []) d)
                 uuid
    | _ => raise (Builtin AttributeError)
    end.

  (** [x in self.nodes] for a node [x]: list membership through [__eq__]. *)
Definition __eq__ (self : t) (other : object) : bool :=
    match other with
    | ONode o => py_eq (id self) (id o)
    | OValue _ => false
    end.

Section Validate.
Context {P : Platform}.

    (** [float(x)]: an int too large for a double overflows, a string must
        parse, and [None], lists and dicts are a TypeError. *)
Definition float_ (x : json) : outcome unit :=
      match x with
      | JBool _ | JFloat _ _ => Return tt
      | JInt z => if Z.abs z <? 2 ^ 1024 - 2 ^ 970 then Return tt
                  else Raise (Builtin OverflowError)
      | JStr s => if float_parses s then Return tt
                  else Raise (ValueError [Lit "could not convert string to float: ";
                                          Val (JStr s)])
      | _ => Raise (Builtin TypeError)
      end.

Definition is_number (j : json) : bool :=
      match j with JBool _ | JInt _ | JFloat _ _ => true | _ => false end.

Definition is_dict (j : json) : bool :=
      match j with JDict _ => true | _ => false end.

    (** [Node.validate] *)
Definition validate (self : t) : outcome (list string) :=
      let errors := [] in
      let errors := if negb (truthy (id self))
                    then errors ++ ["Node ID is required"] else errors in
      let errors := if String.eqb (name self) ""
                    then errors ++ ["Node name is required"] else errors in
      let errors := if String.eqb (type self) ""
                    then errors ++ ["Node type is required"] else errors in
      obind
        (match position self with
         | JList [a; b] =>
             otry (obind (float_ a) (fun _ =>
                   obind (float_ b) (fun _ => Return errors)))
                  (fun e =>
                     match e with
                     | Builtin TypeError | ValueError _ =>
                         Return (errors ++ ["Position coordinates must be numeric"])
                     | _ => Raise e
                     end)
         | _ => Return (errors ++ ["Position must be a list of 2 numbers"])
         end)
        (fun errors =>
           let errors := if negb (is_number (type_version self))
                         then errors ++ ["Type version must be numeric"]
                         else errors in
           let errors := if negb (is_dict (parameters self))
                         then errors ++ ["Parameters must be a dictionary"]
                         else errors in
           let errors := if negb (is_dict (credentials self))
                         then errors ++ ["Credentials must be a dictionary"]
                         else errors in
           Return errors).

    (** [Node.is_valid] *)
Definition is_valid (self : t) : outcome bool :=
      obind (validate self) (fun errs =>
        Return (match errs with [] => true | _ => false end)).
End Validate.

End Node.

(** ** workflow.py *)

Module Workflow.

Record t : Type := {
  id : json;
  name : string;
  nodes : list Node.t;
  connections : json;
  active : json;
  settings : json;
  tags : json;
  created_at : json;
  updated_at : json
}.

Definition with_nodes (ns : list Node.t) (w : t) : t :=
  {| id := id w; name := name w; nodes := ns; connections := connections w;
     active := active w; settings := settings w; tags := tags w;
     created_at := created_at w; updated_at := updated_at w |}.

Definition with_connections (c : json) (w : t) : t :=
  {| id := id w; name := name w; nodes := nodes w; connections := c;
     active := active w; settings := settings w; tags := tags w;
     created_at := created_at w; updated_at := updated_at w |}.

Definition with_updated_at (u : json) (w : t) : t :=
  {| id := id w; name := name w; nodes := nodes w; connections := connections w;
     active := active w; settings := settings w; tags := tags w;
     created_at := created_at w; updated_at := u |}.

(** [Workflow.__init__]. [uuid] is what [uuid.uuid4()] would give and [now]
    is [datetime.now().isoformat()]. *)
Definition __init__ (name workflow_id : json) (uuid : N) (now : string)
  : M Log t :=
  nm <- lift_outcome (required_text name) ;;
  match nm with
  | None => raise (Sdk WorkflowError [Lit "Workflow name cannot be empty"]
                       (Some ErrorCodes.WORKFLOW_INVALID_NAME))
  | Some name_ =>
      let self :=
        {| id := if truthy workflow_id then workflow_id else JStr (uuid_str uuid);
           name := name_;
           nodes := [];
           connections := JDict [];
           active := JBool true;
           settings := JDict [];
           tags := JList [];
           created_at := JStr now;
           updated_at := JStr now |} in
      logger INFO [Lit "Created new workflow: '"; Val (JStr (Workflow.name self));
                   Lit "' (ID: "; Val (id self); Lit ")"] ;;
      ret self
  end.

(** The state a method runs in: the object it is called on, the log, and
    the file system. *)
Record Obj (FS : Type) : Type := {
  self : t;
  logs : Log;
  disk : FS
}.
Arguments self {FS} _.
Arguments logs {FS} _.
Arguments disk {FS} _.

Section Methods.
Variable FS : Type.

Definition log_ (lv : level) (m : msg) : M (Obj FS) unit :=
  modify (fun o => {| self := self o; logs := logs o ++ [(lv, m)];
                      disk := disk o |}).

Definition update (f : t -> t) : M (Obj FS) unit :=
  modify (fun o => {| self := f (self o); logs := logs o; disk := disk o |}).

Definition when (b : bool) (m : M (Obj FS) unit) : M (Obj FS) unit :=
  if b then m else ret tt.

(** [Workflow.add_node] *)
Definition add_node (node : Node.object) (now : string) : M (Obj FS) unit :=
  w <- gets self ;;
  match node with
  | Node.OValue j =>
      let error_msg := [Lit "Expected Node instance, got "; Lit (type_name j)] in
      log_ ERROR (Lit "Failed to add node to workflow '" :: Val (JStr (name w))
                    :: Lit "': " :: error_msg) ;;
      raise (Sdk WorkflowError error_msg (Some ErrorCodes.NODE_INVALID_TYPE))
  | Node.ONode node =>
      if existsb (fun existing_node => py_eq (Node.id existing_node) (Node.id node))
                 (nodes w)
      then
        let error_msg := [Lit "Node with ID '"; Val (Node.id node);
                          Lit "' already exists in workflow"] in
        log_ ERROR (Lit "Failed to add node to workflow '" :: Val (JStr (name w))
                      :: Lit "': " :: error_msg) ;;
        raise (Sdk WorkflowError error_msg
                   (Some ErrorCodes.WORKFLOW_DUPLICATE_NODE))
      else
        when (existsb (fun existing_node =>
                         String.eqb (Node.name existing_node) (Node.name node))
                      (nodes w))
             (let error_msg := [Lit "Node with name '"; Val (JStr (Node.name node));
                                Lit "' already exists in workflow"] in
              log_ WARNING (Lit "Adding node to workflow '" :: Val (JStr (name w))
                              :: Lit "': " :: error_msg)) ;;
        update (fun w => with_nodes (nodes w ++ [node]) w) ;;
        update (with_updated_at (JStr now)) ;;
        log_ DEBUG [Lit "Added node '"; Val (JStr (Node.name node));
                    Lit "' (ID: "; Val (Node.id node); Lit ", Type: ";
                    Val (JStr (Node.type node)); Lit ") to workflow '";
                    Val (JStr (name w)); Lit "'"]
  end.

(** [Workflow.add_nodes]; each call reads the clock once. *)
Definition add_nodes (nodes : list (Node.object * string)) : M (Obj FS) unit :=
  for_each nodes (fun '(node, now) => add_node node now).

(** [x in self.nodes]: some element [e] with [x is e or x == e].  Nodes
    are values here; the identity test adds nothing to [==], since every
    Python value of this universe (no NaN) equals itself. *)
Definition node_in (x : Node.t) (l : list Node.t) : bool :=
  existsb (fun e => Node.__eq__ x (Node.ONode e)) l.

(** [while len(slots) <= output_index: slots.append([])], by the number of
    rounds the loop makes. *)
Fixpoint grow (rounds : nat) (slots : list json) : list json :=
  match rounds with
  | O => slots
  | S r => grow r (slots ++ [JList []])
  end.

Definition ensure_slots (slots : list json) (output_index : Z) : list json :=
  grow (Z.to_nat (output_index + 1 - Z.of_nat (length slots))) slots.

(** The position [l[i]] refers to, negative [i] counting from the end. *)
Definition py_index (len : nat) (i : Z) : option nat :=
  if 0 <=? i then (if i <? Z.of_nat len then Some (Z.to_nat i) else None)
  else (if 0 <=? i + Z.of_nat len then Some (Z.to_nat (i + Z.of_nat len))
        else None).

Fixpoint list_set (n : nat) (v : json) (l : list json) : list json :=
  match l, n with
  | [], _ => []
  | _ :: r, O => v :: r
  | x :: r, S n' => x :: list_set n' v r
  end.

(** [self.connections] once [self.connections[source_name][output_type]]
    holds [slots], where [d] is the mapping and [o] is [d[source_name]]. *)
Definition put_slots (d o : dict) (source_name output_type : string)
    (slots : list json) : dict :=
  dict_set source_name (JDict (dict_set output_type (JList slots) o)) d.

(** The statements of [connect] that build the source's entry, as a
    computation on [self.connections].  Where the mapping or one of its
    entries has another shape than the one [connect] builds, the statement
    that first trips over it raises before anything is changed; the
    exception is the one that statement raises. *)
Definition add_record (source_name output_type : string) (output_index : Z)
    (connection : json) : M json unit :=
  connections <- gets (fun c => c) ;;
  match connections with
  | JDict d =>
      (* if source_name not in self.connections: ... = {} *)
      let d := if dict_has source_name d then d
               else dict_set source_name (JDict []) d in
      modify (fun _ => JDict d) ;;
      match dict_get source_name d with
      | Some (JDict o) =>
          (* if output_type not in self.connections[source_name]: ... = [] *)
          let o := if dict_has output_type o then o
                   else dict_set output_type (JList []) o in
          modify (fun _ => JDict (dict_set source_name (JDict o) d)) ;;
          match dict_get output_type o with
          | Some (JList slots) =>
              (* while len(...) <= output_index: ....append([]) *)
              let slots := ensure_slots slots output_index in
              modify (fun _ => JDict (put_slots d o source_name output_type slots)) ;;
              (* ...[output_index].append(connection) *)
              match py_index (length slots) output_index with
              | Some i =>
                  match nth_error slots i with
                  | Some (JList slot) =>
                      modify (fun _ =>
                        JDict (put_slots d o source_name output_type
                                 (list_set i (JList (slot ++ [connection])) slots)))
                  | _ => raise (Builtin AttributeError)
                  end
              | None => raise (Builtin IndexError)
              end
          | Some (JStr s) =>
              if Z.of_nat (String.length s) <=? output_index
              then raise (Builtin AttributeError)
              else if - Z.of_nat (String.length s) <=? output_index
                   then raise (Builtin AttributeError)
                   else raise (Builtin IndexError)
          | Some (JDict o') =>
              if Z.of_nat (length o') <=? output_index
              then raise (Builtin AttributeError)
              else raise (Builtin KeyError)
          | _ => raise (Builtin TypeError)
          end
      | _ => raise (Builtin TypeError)
      end
  | _ => raise (Builtin TypeError)
  end.

(** [if target_name not in self.connections: ... = {"main": [[]]}] *)
Definition seed_target (target_name : string) : M json unit :=
  connections <- gets (fun c => c) ;;
  match connections with
  | JDict d =>
      if negb (dict_has target_name d)
      then modify (fun _ => JDict (dict_set target_name
                                     (JDict [("main", JList [JList []])]) d))
      else ret tt
  | _ => raise (Builtin TypeError)
  end.

(** Run a computation on [self.connections] inside a method. *)
Definition on_connections {A} (m : M json A) : M (Obj FS) A :=
  fun o =>
    let '(r, c) := m (connections (self o)) in
    (r, {| self := with_connections c (self o); logs := logs o;
           disk := disk o |}).

(** [Workflow.connect] *)
Definition connect (from_node to_node : Node.t)
    (output_type input_type : string) (output_index input_index : Z)
    (now : string) : M (Obj FS) unit :=
  w <- gets self ;;
  if negb (node_in from_node (nodes w)) then
    let error_msg := [Lit "Source node '"; Val (JStr (Node.name from_node));
                      Lit "' is not in the workflow"] in
    log_ ERROR (Lit "Failed to create connection in workflow '"
                  :: Val (JStr (name w)) :: Lit "': " :: error_msg) ;;
    raise (Sdk WorkflowError error_msg
               (Some ErrorCodes.CONNECTION_SOURCE_NOT_FOUND))
  else if negb (node_in to_node (nodes w)) then
    let error_msg := [Lit "Target node '"; Val (JStr (Node.name to_node));
                      Lit "' is not in the workflow"] in
    log_ ERROR (Lit "Failed to create connection in workflow '"
                  :: Val (JStr (name w)) :: Lit "': " :: error_msg) ;;
    raise (Sdk WorkflowError error_msg
               (Some ErrorCodes.CONNECTION_TARGET_NOT_FOUND))
  else
    let source_name := Node.name from_node in
    let connection := JDict [("node", JStr (Node.name to_node));
                             ("type", JStr input_type);
                             ("index", JInt input_index)] in
    on_connections (add_record source_name output_type output_index connection) ;;
    update (with_updated_at (JStr now)) ;;
    let target_name := Node.name to_node in
    on_connections (seed_target target_name) ;;
    log_ DEBUG [Lit "Connected '"; Val (JStr (Node.name from_node));
                Lit "' to '"; Val (JStr (Node.name to_node));
                Lit "' in workflow '"; Val (JStr (name w)); Lit "' ";
                Lit "(output: "; Val (JStr output_type); Lit "[";
                Val (JInt output_index); Lit "] -> input: ";
                Val (JStr input_type); Lit "["; Val (JInt input_index);
                Lit "])"].

End Methods.

(** [Workflow.to_dict] *)
Fixpoint nodes_to_dict (ns : list Node.t) : outcome (list json) :=
  match ns with
  | [] => Return []
  | node :: r =>
      obind (Node.to_dict node) (fun j =>
      obind (nodes_to_dict r) (fun js => Return (j :: js)))
  end.

Definition to_dict (self : t) : outcome json :=
  obind (nodes_to_dict (nodes self)) (fun ns =>
    Return (JDict [("id", id self);
                   ("name", JStr (name self));
                   ("nodes", JList ns);
                   ("connections", connections self);
                   ("active", active self);
                   ("settings", settings self);
                   ("tags", tags self);
                   ("createdAt", created_at self);
                   ("updatedAt", updated_at self);
                   ("pinData", JDict []);
                   ("meta", JDict [("instanceId", id self)])])).

(** [set(xs)]: TypeError on an unhashable item, otherwise one
    representative of each class of equal items. *)
Fixpoint dedup (xs : list json) : list json :=
  match xs with
  | [] => []
  | x :: r => if existsb (py_eq x) r then dedup r else x :: dedup r
  end.

Definition py_set (xs : list json) : outcome (list json) :=
  if forallb hashable xs then Return (dedup xs)
  else Raise (Builtin TypeError).

(** [v not in names] for a set of strings: only a string can be a member,
    and an unhashable [v] raises TypeError. *)
Definition in_names (v : json) (names : list string) : outcome bool :=
  if hashable v
  then Return (match v with
               | JStr s => existsb (String.eqb s) names
               | _ => false
               end)
  else Raise (Builtin TypeError).

(** [v.items()]: only a dict has it. *)
Definition py_items (v : json) : outcome dict :=
  match v with
  | JDict d => Return d
  | _ => Raise (Builtin AttributeError)
  end.

Fixpoint enumerate {A} (i : nat) (xs : list A) : list (nat * A) :=
  match xs with
  | [] => []
  | x :: r => (i, x) :: enumerate (S i) r
  end.

Section Validate.
Context {P : Platform}.

Definition append_error (m : msg) : M (list msg) unit :=
  modify (fun errors => errors ++ [m]).

Definition when_ (b : bool) (m : M (list msg) unit) : M (list msg) unit :=
  if b then m else ret tt.

(** The body of [Workflow.validate], with [errors] as the state. *)
Definition validate_body (self : t) : M (list msg) unit :=
  when_ (String.eqb (name self) "")
        (append_error [Lit "Workflow name is required"]) ;;
  when_ (match nodes self with [] => true | _ => false end)
        (append_error [Lit "Workflow must contain at least one node"]) ;;
  let node_ids := map Node.id (nodes self) in
  ids <- lift_outcome (py_set node_ids) ;;
  when_ (negb (Nat.eqb (length node_ids) (length ids)))
        (append_error [Lit "Duplicate node IDs found"]) ;;
  let node_names := map (fun node => JStr (Node.name node)) (nodes self) in
  when_ (negb (Nat.eqb (length node_names) (length (dedup node_names))))
        (append_error [Lit "Duplicate node names found"]) ;;
  for_each (enumerate 0 (nodes self)) (fun '(i, node) =>
    node_errors <- lift_outcome (Node.validate node) ;;
    for_each node_errors (fun error =>
      append_error [Lit "Node "; Val (JInt (Z.of_nat i + 1)); Lit " (";
                    Val (JStr (Node.name node)); Lit "): "; Lit error])) ;;
  let node_names_set := map Node.name (nodes self) in
  items <- lift_outcome (py_items (connections self)) ;;
  for_each items (fun '(source_name, outputs) =>
    when_ (negb (existsb (String.eqb source_name) node_names_set))
          (append_error [Lit "Connection source '"; Val (JStr source_name);
                         Lit "' does not exist"]) ;;
    out_items <- lift_outcome (py_items outputs) ;;
    for_each out_items (fun '(output_type, output_groups) =>
      groups <- lift_outcome (py_iter output_groups) ;;
      for_each groups (fun output_group =>
        group <- lift_outcome (py_iter output_group) ;;
        for_each group (fun connection =>
          match connection with
          | JDict c =>
              match dict_get "node" c with
              | Some target_name =>
                  known <- lift_outcome (in_names target_name node_names_set) ;;
                  when_ (negb known)
                        (append_error [Lit "Connection target '";
                                       Val target_name;
                                       Lit "' does not exist"])
              | None => ret tt
              end
          | _ => ret tt
          end)))).

(** [Workflow.validate] *)
Definition validate (self : t) : outcome (list msg) :=
  match validate_body self [] with
  | (Return _, errors) => Return errors
  | (Raise e, _) => Raise e
  end.

(** [Workflow.export].  The file system is the platform's. *)
Definition export (file_path : string) (pretty validate_ : bool) (now : string)
  : M (Obj FileSystem) unit :=
  w <- gets self ;;
  log_ INFO [Lit "Starting export of workflow '"; Val (JStr (name w));
             Lit "' to "; Val (JStr file_path)] ;;
  try_except
    ((* Create directory if it doesn't exist *)
     let dir_path := dirname (abspath file_path) in
     (if negb (String.eqb dir_path "") then
        fs <- gets disk ;;
        match makedirs dir_path fs with
        | Some fs' =>
            modify (fun o => {| self := self o; logs := logs o; disk := fs' |}) ;;
            log_ DEBUG [Lit "Created directory: "; Val (JStr dir_path)]
        | None => raise (Builtin OSError)
        end
      else ret tt) ;;
     (* Validate workflow if requested *)
     (if validate_ then
        log_ DEBUG [Lit "Validating workflow '"; Val (JStr (name w));
                    Lit "' before export"] ;;
        validation_errors <- lift_outcome (validate w) ;;
        match validation_errors with
        | _ :: _ =>
            let error_msg := Lit "Workflow validation failed: "
                               :: join ", " validation_errors in
            log_ ERROR (Lit "Export failed for workflow '"
                          :: Val (JStr (name w)) :: Lit "': " :: error_msg) ;;
            raise (Sdk ValidationError error_msg
                       (Some ErrorCodes.EXPORT_VALIDATION_ERROR))
        | [] => log_ DEBUG [Lit "Workflow '"; Val (JStr (name w));
                            Lit "' validation passed"]
        end
      else ret tt) ;;
     (* Convert workflow to dictionary *)
     workflow_dict <- lift_outcome (to_dict w) ;;
     log_ DEBUG [Lit "Converted workflow '"; Val (JStr (name w));
                 Lit "' to dictionary format"] ;;
     (* Write to file *)
     fs <- gets disk ;;
     let content := JsonText (if pretty then Some 2%nat else None) workflow_dict in
     match write_text file_path content fs with
     | Some fs' =>
         modify (fun o => {| self := self o; logs := logs o; disk := fs' |})
     | None =>
         let '(e, fs') := write_failure file_path content fs in
         modify (fun o => {| self := self o; logs := logs o; disk := fs' |}) ;;
         raise (write_exn e)
     end ;;
     update (with_updated_at (JStr now)) ;;
     log_ INFO [Lit "Successfully exported workflow '"; Val (JStr (name w));
                Lit "' to "; Val (JStr file_path)])
    (fun e =>
       match e with
       | Builtin OSError =>
           let error_msg := Lit "Failed to export workflow to "
                              :: Val (JStr file_path) :: Lit ": " :: exn_str e in
           log_ ERROR error_msg ;;
           raise (Sdk ExportError error_msg (Some ErrorCodes.EXPORT_FILE_ERROR))
       | ValueError _ | Builtin TypeError =>
           let error_msg := Lit "JSON serialization failed: " :: exn_str e in
           log_ ERROR (Lit "Export failed for workflow '"
                         :: Val (JStr (name w)) :: Lit "': " :: error_msg) ;;
           raise (Sdk ExportError error_msg
                      (Some ErrorCodes.EXPORT_SERIALIZATION_ERROR))
       | _ =>
           let error_msg := Lit "Export failed: " :: exn_str e in
           log_ ERROR (Lit "Unexpected error during export of workflow '"
                         :: Val (JStr (name w)) :: Lit "': " :: error_msg) ;;
           raise (Sdk ExportError error_msg None)
       end).

End Validate.

(** [Workflow.from_dict].  [node_uuid i] is what [uuid.uuid4()] would give
    while the [i]-th node is built. *)
Fixpoint import_nodes (i : nat) (node_uuid : nat -> N) (nodes_data : list json)
    (acc : list Node.t) : M Log (list Node.t) :=
  match nodes_data with
  | [] => ret acc
  | node_data :: r =>
      node <- Node.from_dict node_data (node_uuid i) ;;
      import_nodes (S i) node_uuid r (acc ++ [node])
  end.

Definition from_dict (data : json) (uuid : N) (node_uuid : nat -> N)
    (now : string) : M Log t :=
  match data with
  | JDict d =>
      workflow <- __init__ (dict_get_default "name" (JStr "Imported Workflow") d)
                           (dict_get_default "id" JNull d) uuid now ;;
      let active_ := dict_get_default "active" (JBool true) d in
      let settings_ := dict_get_default "settings" (JDict []) d in
      let tags_ := dict_get_default "tags" (JList []) d in
      let created := dict_get_default "createdAt" (created_at workflow) d in
      let updated := dict_get_default "updatedAt" (updated_at workflow) d in
      nodes_data <- lift_outcome (py_iter (dict_get_default "nodes" (JList []) d)) ;;
      ns <- import_nodes 0 node_uuid nodes_data (nodes workflow) ;;
      ret {| id := id workflow; name := name workflow; nodes := ns;
             connections := dict_get_default "connections" (JDict []) d;
             active := active_; settings := settings_; tags := tags_;
             created_at := created; updated_at := updated |}
  | _ => raise (Builtin AttributeError)
  end.

End Workflow.

(** ** utils/json_parser.py *)

Module json_parser.

Definition is_str (j : json) : bool :=
  match j with JStr _ => true | _ => false end.

Definition is_dict (j : json) : bool :=
  match j with JDict _ => true | _ => false end.

(** [isinstance(v, list) and len(v) == 2] *)
Definition is_pair (j : json) : bool :=
  match j with JList [_; _] => true | _ => false end.

(** [[key for key in required if key not in d]] *)
Definition missing (required : list string) (d : dict) : list string :=
  filter (fun key => negb (dict_has key d)) required.

(** [d[k]] where the key is known to be there. *)
Definition item (k : string) (d : dict) : json := dict_get_default k JNull d.

(** The body of [for i, node in enumerate(nodes)]. *)
Definition check_node (i : nat) (node : json) : outcome unit :=
  let n := Val (JInt (Z.of_nat i)) in
  match node with
  | JDict nd =>
      match missing ["id"; "name"; "type"; "position"] nd with
      | (_ :: _) as missing_node_keys =>
          Raise (ValueError [Lit "Node "; n; Lit " missing required keys: ";
                             Val (JList (map JStr missing_node_keys))])
      | [] =>
          if negb (is_str (item "id" nd))
          then Raise (ValueError [Lit "Node "; n; Lit " id must be a string"])
          else if negb (is_str (item "name" nd))
          then Raise (ValueError [Lit "Node "; n; Lit " name must be a string"])
          else if negb (is_str (item "type" nd))
          then Raise (ValueError [Lit "Node "; n; Lit " type must be a string"])
          else if negb (is_pair (item "position" nd))
          then Raise (ValueError [Lit "Node "; n;
                                  Lit " position must be a list of 2 numbers"])
          else Return tt
      end
  | _ => Raise (ValueError [Lit "Node "; n; Lit " must be a dictionary"])
  end.

(** [node["name"]], as collected into [node_names]. *)
Definition node_name_of (node : json) : json :=
  match node with
  | JDict nd => item "name" nd
  | _ => JNull
  end.

(** [v not in node_names], negated: membership in the set of names. *)
Definition in_node_names (v : json) (node_names : list json) : outcome bool :=
  if hashable v then Return (existsb (py_eq v) node_names)
  else Raise (Builtin TypeError).

(** The body of [for conn in conn_group]. *)
Definition check_conn (node_names : list json) (conn : json) : outcome unit :=
  match conn with
  | JDict c =>
      match dict_get "node" c with
      | None => Raise (ValueError [Lit "Connection missing 'node' key"])
      | Some target =>
          obind (in_node_names target node_names) (fun known =>
            if negb known
            then Raise (ValueError [Lit "Connection target node '"; Val target;
                                    Lit "' not found in workflow nodes"])
            else Return tt)
      end
  | _ => Raise (ValueError [Lit "Connection must be a dictionary"])
  end.

(** The body of [for conn_group in main_connections]. *)
Definition check_group (node_names : list json) (conn_group : json)
  : outcome unit :=
  match conn_group with
  | JList group => ofor_each group (check_conn node_names)
  | _ => Return tt
  end.

(** The body of [for source_node, connection_data in connections.items()]. *)
Definition check_source (node_names : list json)
    (entry : string * json) : outcome unit :=
  let '(source_node, connection_data) := entry in
  if negb (existsb (py_eq (JStr source_node)) node_names)
  then Raise (ValueError [Lit "Connection source node '"; Val (JStr source_node);
                          Lit "' not found in workflow nodes"])
  else match connection_data with
       | JDict cd =>
           match dict_get "main" cd with
           | Some (JList main_connections) =>
               ofor_each main_connections (check_group node_names)
           | Some _ =>
               Raise (ValueError [Lit "Main connections for '";
                                  Val (JStr source_node); Lit "' must be a list"])
           | None => Return tt
           end
       | _ => Raise (ValueError [Lit "Connection data for '";
                                 Val (JStr source_node);
                                 Lit "' must be a dictionary"])
       end.

(** [validate_workflow_structure] *)
Definition validate_workflow_structure (data : json) : outcome bool :=
  match data with
  | JDict d =>
      match missing ["nodes"; "connections"] d with
      | (_ :: _) as missing_keys =>
          Raise (ValueError [Lit "Missing required keys in workflow: ";
                             Val (JList (map JStr missing_keys))])
      | [] =>
          match item "nodes" d with
          | JList [] =>
              Raise (ValueError [Lit "Workflow must contain at least one node"])
          | JList nodes =>
              obind (ofor_each (Workflow.enumerate 0 nodes)
                               (fun '(i, node) => check_node i node)) (fun _ =>
              match item "connections" d with
              | JDict connections =>
                  let node_names := map node_name_of nodes in
                  obind (ofor_each connections (check_source node_names))
                        (fun _ => Return true)
              | _ => Raise (ValueError [Lit "Connections must be a dictionary"])
              end)
          | _ => Raise (ValueError [Lit "Nodes must be a list"])
          end
      end
  | _ => Raise (ValueError [Lit "Workflow data must be a dictionary"])
  end.

End json_parser.

(** ** A small platform to run the definitions on *)

(** Directories and files by absolute path.  [makedirs] records the
    directory unless a file has that path; [open(.., 'w')] needs the parent
    directory and replaces the file; where it fails, it fails before the
    file exists, and every document can be written. *)
Module Demo.

Record fs : Type := { dirs : list string; files : list (string * text) }.

Definition has_dir (p : string) (f : fs) : bool :=
  existsb (String.eqb p) (dirs f).

Definition has_file (p : string) (f : fs) : bool :=
  existsb (fun e => String.eqb p (fst e)) (files f).

(** The text before the last ["/"] of a path. *)
Fixpoint demo_dirname (p : string) : string :=
  match p with
  | EmptyString => EmptyString
  | String c r =>
      if existsb (Ascii.eqb "/"%char) (list_ascii_of_string r)
      then String c (demo_dirname r)
      else EmptyString
  end.

Definition demo_makedirs (p : string) (f : fs) : option fs :=
  if has_file p f then None
  else if has_dir p f then Some f
  else Some {| dirs := dirs f ++ [p]; files := files f |}.

Definition demo_write (p : string) (t : text) (f : fs) : option fs :=
  if has_dir (demo_dirname p) f && negb (has_dir p f)
  then Some {| dirs := dirs f;
               files := (p, t) :: filter (fun e => negb (String.eqb p (fst e)))
                                         (files f) |}
  else None.

(** Paths are taken to be absolute already; [float()] parses nothing but
    the text ["0"]. *)
#[export] Instance platform : Platform := {|
  float_parses := fun s => String.eqb s "0";
  FileSystem := fs;
  abspath := fun p => p;
  dirname := demo_dirname;
  makedirs := demo_makedirs;
  write_text := demo_write;
  write_failure := fun _ _ f => (WriteOSError, f)
|}.

Definition empty_fs : fs := {| dirs := ["/"]; files := [] |}.

End Demo.

(** ** Notions the statements are about *)

(** Empty or whitespace-only text, or any other value Python counts as
    false: what the constructors refuse for a required argument. *)
Definition blank (j : json) : bool :=
  negb (truthy j) ||
  match j with JStr s => String.eqb (strip s) "" | _ => false end.

(** [existing_node.id == node.id] and [existing_node.name == node.name],
    the two tests of [add_node]. *)
Definition same_id (node existing_node : Node.t) : bool :=
  py_eq (Node.id existing_node) (Node.id node).

Definition same_name (node existing_node : Node.t) : bool :=
  String.eqb (Node.name existing_node) (Node.name node).

(** [{"main": [[]]}] *)
Definition placeholder : json := JDict [("main", JList [JList []])].

(** [{"node": to_node.name, "type": input_type, "index": input_index}] *)
Definition connection_record (to_node : Node.t) (input_type : string)
    (input_index : Z) : json :=
  JDict [("node", JStr (Node.name to_node)); ("type", JStr input_type);
         ("index", JInt input_index)].

(** One call of [connect] with its arguments. *)
Record connect_call : Type := {
  call_from : Node.t;
  call_to : Node.t;
  call_output_type : string;
  call_input_type : string;
  call_output_index : Z;
  call_input_index : Z;
  call_now : string
}.

Definition run_call {FS : Type} (c : connect_call) : M (Workflow.Obj FS) unit :=
  Workflow.connect (call_from c) (call_to c) (call_output_type c)
    (call_input_type c) (call_output_index c) (call_input_index c) (call_now c).

(** A sequence of calls, each made only if the ones before returned. *)
Definition connect_all {FS : Type} (calls : list connect_call)
  : M (Workflow.Obj FS) unit :=
  for_each calls run_call.

(** Optional arguments at their declared types. *)
Definition opt_str (o : option string) : json :=
  match o with Some s => JStr s | None => JNull end.

Definition opt_dict (o : option dict) : json :=
  match o with Some d => JDict d | None => JNull end.

Definition opt_list (o : option (list json)) : json :=
  match o with Some l => JList l | None => JNull end.

(** A node obtained from the constructor, called with arguments of the
    declared types. *)
Inductive api_node : Node.t -> Prop :=
| api_node_init (node_type name : string) (node_id : option string)
    (type_version : json) (parameters : option dict)
    (position : option (list json)) (credentials : option dict)
    (uuid : N) (log log' : Log) (n : Node.t) :
    Node.__init__ (JStr node_type) (JStr name) (opt_str node_id) type_version
      (opt_dict parameters) (opt_list position) (opt_dict credentials) uuid log
    = (Return n, log') ->
    api_node n.

Definition obj {FS : Type} (w : Workflow.t) (lg : Log) (fs : FS)
  : Workflow.Obj FS :=
  {| Workflow.self := w; Workflow.logs := lg; Workflow.disk := fs |}.

Section Api.
Context {P : Platform}.

(** A workflow obtained from the constructor and any number of calls of
    its methods, whether they returned or raised, and assignments to its
    pass-through attributes. *)
Inductive api_workflow : Workflow.t -> Prop :=
| api_init (name : string) (workflow_id : option string) (uuid : N)
    (now : string) (log log' : Log) (w : Workflow.t) :
    Workflow.__init__ (JStr name) (opt_str workflow_id) uuid now log
    = (Return w, log') ->
    api_workflow w
| api_add_node (w : Workflow.t) (node : Node.t) (now : string) (lg : Log)
    (fs : FileSystem) (r : outcome unit) (st' : Workflow.Obj FileSystem) :
    api_workflow w -> api_node node ->
    Workflow.add_node (Node.ONode node) now (obj w lg fs) = (r, st') ->
    api_workflow (Workflow.self st')
| api_connect (w : Workflow.t) (from_node to_node : Node.t)
    (output_type input_type : string) (output_index input_index : Z)
    (now : string) (lg : Log) (fs : FileSystem) (r : outcome unit)
    (st' : Workflow.Obj FileSystem) :
    api_workflow w ->
    Workflow.connect from_node to_node output_type input_type output_index
                     input_index now (obj w lg fs) = (r, st') ->
    api_workflow (Workflow.self st')
| api_export (w : Workflow.t) (file_path : string) (pretty validate_ : bool)
    (now : string) (lg : Log) (fs : FileSystem) (r : outcome unit)
    (st' : Workflow.Obj FileSystem) :
    api_workflow w ->
    Workflow.export file_path pretty validate_ now (obj w lg fs) = (r, st') ->
    api_workflow (Workflow.self st')
| api_set (w : Workflow.t) (active : bool) (settings : dict) (tags : list string) :
    api_workflow w ->
    api_workflow
      {| Workflow.id := Workflow.id w; Workflow.name := Workflow.name w;
         Workflow.nodes := Workflow.nodes w;
         Workflow.connections := Workflow.connections w;
         Workflow.active := JBool active; Workflow.settings := JDict settings;
         Workflow.tags := JList (map JStr tags);
         Workflow.created_at := Workflow.created_at w;
         Workflow.updated_at := Workflow.updated_at w |}.

End Api.

(** What construction guarantees of a node, as far as the round trip
    through a document depends on it. *)
Record node_ok (n : Node.t) : Prop := {
  ok_id : exists s, Node.id n = JStr s /\ s <> "";
  ok_name : Node.name n <> "" /\ strip (Node.name n) = Node.name n;
  ok_type : Node.type n <> "" /\ strip (Node.type n) = Node.type n;
  ok_position : exists x l, Node.position n = JList (x :: l);
  ok_parameters : Node.parameters n = py_or (Node.parameters n) (JDict []);
  ok_credentials : Node.credentials n = py_or (Node.credentials n) (JDict [])
}.

Record workflow_ok (w : Workflow.t) : Prop := {
  ok_wid : exists s, Workflow.id w = JStr s /\ s <> "";
  ok_wname : Workflow.name w <> "" /\ strip (Workflow.name w) = Workflow.name w;
  ok_nodes : Forall node_ok (Workflow.nodes w)
}.

(** The names of the nodes of a document, as far as it has a node list. *)
Definition doc_node_names (d : dict) : list json :=
  match dict_get "nodes" d with
  | Some (JList nodes) => map json_parser.node_name_of nodes
  | _ => []
  end.

(** ** Sample data *)

Module Sample.

Definition node (id name : string) : Node.t :=
  {| Node.id := JStr id; Node.type := "n8n-nodes-base.noOp"; Node.name := name;
     Node.type_version := JInt 1; Node.parameters := JDict [];
     Node.position := JList [JInt 0; JInt 0]; Node.credentials := JDict [] |}.

Definition node_a : Node.t := node "a" "A".
Definition node_b : Node.t := node "b" "B".

(** Never added to any workflow; shares its id with [node_a]. *)
Definition impostor : Node.t := node "a" "Impostor".

(** Shares its name with [node_a]. *)
Definition namesake : Node.t := node "c" "A".

(** Never added to any workflow; agrees with [node_a] in every field but
    the id. *)
Definition lookalike : Node.t := node "z" "A".

Definition workflow (ns : list Node.t) : Workflow.t :=
  {| Workflow.id := JStr "w"; Workflow.name := "Pipeline"; Workflow.nodes := ns;
     Workflow.connections := JDict []; Workflow.active := JBool true;
     Workflow.settings := JDict []; Workflow.tags := JList [];
     Workflow.created_at := JStr "2024-01-01T00:00:00";
     Workflow.updated_at := JStr "2024-01-01T00:00:00" |}.

Definition w_ab : Workflow.t := workflow [node_a; node_b].
Definition w_empty : Workflow.t := workflow [].

Definition node_doc (id name : string) : json :=
  JDict [("id", JStr id); ("name", JStr name); ("type", JStr "t");
         ("position", JList [JInt 0; JInt 0])].

Definition ghost_record : dict :=
  [("node", JStr "Ghost"); ("type", JStr "main"); ("index", JInt 0)].

(** One node and one connection record to a node that does not exist,
    under the given output port. *)
Definition doc_ghost (port : string) : dict :=
  [("nodes", JList [node_doc "1" "A"]);
   ("connections",
    JDict [("A", JDict [(port, JList [JList [JDict ghost_record]])])])].

Definition calls : list connect_call :=
  [ {| call_from := node_a; call_to := node_b;
       call_output_type := "main"; call_input_type := "main";
       call_output_index := 0; call_input_index := 0; call_now := "t1" |};
    {| call_from := node_b; call_to := node_a;
       call_output_type := "main"; call_input_type := "main";
       call_output_index := 1; call_input_index := 0; call_now := "t2" |} ].

Definition start : Node.t :=
  {| Node.id := JStr "n1"; Node.type := "trigger"; Node.name := "Start";
     Node.type_version := JInt 1; Node.parameters := JDict [];
     Node.position := JList [JInt 0; JInt 0]; Node.credentials := JDict [] |}.

Definition fetch : Node.t :=
  {| Node.id := JStr "n2"; Node.type := "http"; Node.name := "Fetch";
     Node.type_version := JFloat 21 (-2);
     Node.parameters := JDict [("url", JStr "https://example.org")];
     Node.position := JList [JInt 200; JInt 0]; Node.credentials := JDict [] |}.

(** [Workflow("Pipeline")], two nodes added, the first connected to the
    second. *)
Definition pipeline : Workflow.t :=
  {| Workflow.id := JStr "00000000-0000-0000-0000-000000000005";
     Workflow.name := "Pipeline";
     Workflow.nodes := [start; fetch];
     Workflow.connections :=
       JDict [("Start", JDict [("main",
                 JList [JList [connection_record fetch "main" 0]])]);
              ("Fetch", placeholder)];
     Workflow.active := JBool true; Workflow.settings := JDict [];
     Workflow.tags := JList [];
     Workflow.created_at := JStr "t0"; Workflow.updated_at := JStr "t3" |}.

End Sample.

Unset Implicit Arguments.

(** ** nodes/manual_trigger.py, nodes/http_request.py, nodes/google_sheets.py *)

(** The constructors of the node flavours: each shapes its arguments into
    a parameter dict and hands it to [Node.__init__].  Their [to_dict] is
    [Node.to_dict]. *)

(** [4.2] and [4.7] as doubles. *)
Definition float_4_2 : json := JFloat 4728779608739021 (-50).
Definition float_4_7 : json := JFloat 5291729562160333 (-50).

(** [[{"name": key, "value": value} for key, value in d.items()]] *)
Definition name_value_list (d : dict) : json :=
  JList (map (fun '(key, value) => JDict [("name", JStr key); ("value", value)]) d).

(** [isinstance(v, str)] and [isinstance(v, dict)] *)
Definition is_str (j : json) : bool :=
  match j with JStr _ => true | _ => false end.

Definition is_dict (j : json) : bool :=
  match j with JDict _ => true | _ => false end.

Module ManualTriggerNode.

Definition default_name : json := JStr "When clicking 'Execute workflow'".

(** [ManualTriggerNode.__init__] *)
Definition __init__ (name node_id position : json) (uuid : N) : M Log Node.t :=
  Node.__init__ (JStr "n8n-nodes-base.manualTrigger") name node_id (JInt 1)
    (JDict []) (py_or position (JList [JInt 0; JInt 0])) JNull uuid.

End ManualTriggerNode.

Module HTTPRequestNode.

(** The parameter dict [HTTPRequestNode.__init__] builds; [.items()] on a
    truthy value that is no dict raises AttributeError. *)
Definition build_parameters (url method authentication headers query_parameters
    body_content_type body response_format options : json) : outcome dict :=
  let parameters := [("url", url); ("options", py_or options (JDict []))] in
  let parameters :=
    if negb (py_eq method (JStr "GET"))
    then dict_set "method" method parameters else parameters in
  let parameters :=
    if negb (py_eq authentication (JStr "none"))
    then dict_set "authentication" authentication parameters else parameters in
  obind (if truthy headers
         then obind (Workflow.py_items headers) (fun items =>
                Return (dict_set "headers"
                          (JDict [("parameters", name_value_list items)])
                          parameters))
         else Return parameters) (fun parameters =>
  obind (if truthy query_parameters
         then obind (Workflow.py_items query_parameters) (fun items =>
                Return (dict_set "qs"
                          (JDict [("parameters", name_value_list items)])
                          parameters))
         else Return parameters) (fun parameters =>
  let parameters :=
    match body with
    | JNull => parameters
    | _ =>
        if py_eq body_content_type (JStr "json") then
          let parameters := dict_set "sendBody" (JBool true) parameters in
          let parameters := dict_set "bodyContentType" (JStr "json") parameters in
          if is_dict body
          then dict_set "jsonParameters" (JBool true) parameters
          else dict_set "body" body parameters
        else if py_eq body_content_type (JStr "form") then
          let parameters := dict_set "sendBody" (JBool true) parameters in
          let parameters :=
            dict_set "bodyContentType" (JStr "form-urlencoded") parameters in
          dict_set "bodyParameters"
            (JDict [("parameters",
                     match body with
                     | JDict items => name_value_list items
                     | _ => JList []
                     end)])
            parameters
        else
          let parameters := dict_set "sendBody" (JBool true) parameters in
          let parameters :=
            dict_set "bodyContentType" body_content_type parameters in
          dict_set "body" body parameters
    end in
  let parameters :=
    if negb (py_eq response_format (JStr "json"))
    then dict_set "responseFormat" response_format parameters else parameters in
  Return parameters)).

(** [HTTPRequestNode.__init__] *)
Definition __init__ (name url method node_id authentication headers
    query_parameters body_content_type body response_format options
    position : json) (uuid : N) : M Log Node.t :=
  bind (lift_outcome
          (build_parameters url method authentication headers query_parameters
             body_content_type body response_format options))
       (fun parameters =>
          Node.__init__ (JStr "n8n-nodes-base.httpRequest") name node_id
            float_4_2 (JDict parameters)
            (py_or position (JList [JInt 0; JInt 0])) JNull uuid).

End HTTPRequestNode.

Module GoogleSheetsNode.

(** The parameter dict [GoogleSheetsNode.__init__] builds. *)
Definition build_parameters (operation document_id sheet_name columns
    options : json) : dict :=
  let parameters := [("operation", operation);
                     ("options", py_or options (JDict []))] in
  let parameters :=
    match document_id with
    | JNull => parameters
    | JStr _ =>
        dict_set "documentId"
          (JDict [("__rl", JBool true); ("value", document_id);
                  ("mode", JStr "list")]) parameters
    | _ => dict_set "documentId" document_id parameters
    end in
  let parameters :=
    match sheet_name with
    | JNull => parameters
    | JStr _ =>
        dict_set "sheetName"
          (JDict [("__rl", JBool true); ("value", JStr "gid=0");
                  ("mode", JStr "list"); ("cachedResultName", sheet_name)])
          parameters
    | _ => dict_set "sheetName" sheet_name parameters
    end in
  match columns with
  | JNull => parameters
  | _ => dict_set "columns" columns parameters
  end.

(** The credentials dict: filled only when both parts are given. *)
Definition build_credentials (credential_id credential_name : json) : dict :=
  if truthy credential_id && truthy credential_name
  then [("googleSheetsOAuth2Api",
         JDict [("id", credential_id); ("name", credential_name)])]
  else [].

(** [GoogleSheetsNode.__init__] *)
Definition __init__ (name operation document_id sheet_name columns options
    credential_id credential_name node_id position : json) (uuid : N)
  : M Log Node.t :=
  Node.__init__ (JStr "n8n-nodes-base.googleSheets") name node_id float_4_7
    (JDict (build_parameters operation document_id sheet_name columns options))
    (py_or position (JList [JInt 0; JInt 0]))
    (JDict (build_credentials credential_id credential_name)) uuid.

(** The [columns] argument [append_or_update] passes on.  (The caller's
    dict, when it is a non-empty one, is the object updated.) *)
Definition columns_config (columns matching_columns : json) : json :=
  let columns_config := py_or columns (JDict []) in
  let columns_config :=
    match columns_config with JDict d => d | _ => [] end in
  let columns_config :=
    if negb (dict_has "mappingMode" columns_config)
    then dict_set "mappingMode" (JStr "defineBelow") columns_config
    else columns_config in
  let columns_config :=
    if truthy matching_columns && negb (dict_has "matchingColumns" columns_config)
    then dict_set "matchingColumns" matching_columns columns_config
    else columns_config in
  if truthy (JDict columns_config) then JDict columns_config else JNull.

(** [GoogleSheetsNode.append_or_update]; [options] is left at its default. *)
Definition append_or_update (name document_id sheet_name columns
    matching_columns credential_id credential_name node_id position : json)
    (uuid : N) : M Log Node.t :=
  __init__ name (JStr "appendOrUpdate") document_id sheet_name
    (columns_config columns matching_columns) JNull credential_id
    credential_name node_id position uuid.

End GoogleSheetsNode.

(** ** Further notions *)

(** [float(x)] returns. *)
Definition floatable {P : Platform} (x : json) : bool :=
  match Node.float_ x with Return _ => true | Raise _ => false end.

(** An int too large for a double. *)
Definition overflows (x : json) : bool :=
  match x with
  | JInt z => 2 ^ 1024 - 2 ^ 970 <=? Z.abs z
  | _ => false
  end.

(** Every condition [Node.validate] tests. *)
Definition well_formed {P : Platform} (n : Node.t) : bool :=
  truthy (Node.id n)
  && negb (String.eqb (Node.name n) "")
  && negb (String.eqb (Node.type n) "")
  && match Node.position n with
     | JList [a; b] => floatable a && floatable b
     | _ => false
     end
  && Node.is_number (Node.type_version n)
  && is_dict (Node.parameters n)
  && is_dict (Node.credentials n).

(** No node's id equals the id of a node added after it, in the sense of
    the test [add_node] makes. *)
Fixpoint unique_ids (ns : list Node.t) : bool :=
  match ns with
  | [] => true
  | n :: r =>
      negb (existsb (fun later => py_eq (Node.id n) (Node.id later)) r)
      && unique_ids r
  end.

(** The nodes among a list of arguments. *)
Definition nodes_of (args : list (Node.object * string)) : list Node.t :=
  flat_map (fun a => match fst a with Node.ONode n => [n] | Node.OValue _ => [] end)
           args.

(** A computation on the list of errors that only appends to it. *)
Definition grows {A : Type} (m : M (list msg) A) : Prop :=
  forall s r s', m s = (r, s') -> exists t, s' = s ++ t.

(** A computation on the list of errors that, whenever it returns, leaves a
    list with the property [Q]. *)
Definition ensures {A : Type} (Q : list msg -> Prop) (m : M (list msg) A) : Prop :=
  forall s a s', m s = (Return a, s') -> Q s'.

(** A property of the list of errors that further errors do not undo. *)
Definition lasting (Q : list msg -> Prop) : Prop :=
  forall s t, Q s -> Q (s ++ t).

(** A computation on the list of errors that raises nothing outside [R]. *)
Definition fails_with {A : Type} (R : exn -> Prop) (m : M (list msg) A) : Prop :=
  forall s e s', m s = (Raise e, s') -> R e.

(** The exceptions of the interpreter that [Workflow.validate] lets through. *)
Definition validate_escape (e : exn) : Prop :=
  e = Builtin TypeError \/ e = Builtin AttributeError \/ e = Builtin OverflowError.

(** [isinstance(position, list) and len(position) == 2] with both
    coordinates accepted by [float()]. *)
Definition position_ok {P : Platform} (position : json) : bool :=
  match position with
  | JList [a; b] => floatable a && floatable b
  | _ => false
  end.

(** [v is None] *)
Definition is_none (j : json) : bool :=
  match j with JNull => true | _ => false end.

(** The items of a dict, and none for any other value. *)
Definition items_of (j : json) : dict :=
  match j with JDict d => d | _ => [] end.

(** The shape [connect] gives [self.connections]: a dict from source name
    to a dict from output type to a list of slots, each slot a list of
    records; a record that names a node does so by a hashable value. *)
Definition record_ok (j : json) : bool :=
  match j with
  | JDict c => match dict_get "node" c with
               | Some target_name => hashable target_name
               | None => true
               end
  | _ => true
  end.

Definition slot_ok (j : json) : bool :=
  match j with JList records => forallb record_ok records | _ => false end.

Definition slots_ok (j : json) : bool :=
  match j with JList slots => forallb slot_ok slots | _ => false end.

Definition outputs_ok (j : json) : bool :=
  match j with
  | JDict o => forallb (fun entry => slots_ok (snd entry)) o
  | _ => false
  end.

Definition conns_ok (c : json) : bool :=
  match c with
  | JDict d => forallb (fun entry => outputs_ok (snd entry)) d
  | _ => false
  end.

(** A computation on the list of errors that returns from every state. *)
Definition returns (m : M (list msg) unit) : Prop :=
  forall s, exists s', m s = (Return tt, s').

(** ** More sample data *)

Module Cases.

(** One node, and a connection from a source that is no node to a target
    that is no node, on an output port other than "main". *)
Definition off_main : dict :=
  [("Nobody", JDict [("ai_tool", JList [JList [JDict Sample.ghost_record]])])].

Definition w_off_main : Workflow.t :=
  Workflow.with_connections (JDict off_main) (Sample.workflow [Sample.node_a]).

(** A node whose version is text. *)
Definition unversioned : Node.t :=
  {| Node.id := JStr "u"; Node.type := "t"; Node.name := "U";
     Node.type_version := JStr "1"; Node.parameters := JDict [];
     Node.position := JList [JInt 0; JInt 0]; Node.credentials := JDict [] |}.

(** Two nodes with one name, two with one id, and the unversioned one. *)
Definition w_twins : Workflow.t :=
  Sample.workflow [Sample.node_a; Sample.namesake; Sample.impostor; unversioned].

(** A node placed too far out for a double. *)
Definition far_node : Node.t :=
  {| Node.id := JStr "f"; Node.type := "t"; Node.name := "Far";
     Node.type_version := JInt 1; Node.parameters := JDict [];
     Node.position := JList [JInt (2 ^ 1024); JInt 0];
     Node.credentials := JDict [] |}.

(** A workflow whose connections are no dict. *)
Definition w_listed : Workflow.t :=
  Workflow.with_connections (JList []) (Sample.workflow [Sample.node_a]).

(** A document with two node fragments of one id and a connection between
    names that no fragment carries. *)
Definition doc_twice : dict :=
  [("name", JStr "Twice");
   ("nodes", JList [Sample.node_doc "1" "A"; Sample.node_doc "1" "B"]);
   ("connections", JDict off_main)].

(** A document the checker accepts, with a node fragment whose name is
    blank. *)
Definition doc_blank_name : dict :=
  [("nodes", JList [Sample.node_doc "1" " "]); ("connections", JDict [])].

(** A document the checker accepts and [Workflow.from_dict] loads. *)
Definition doc_single : dict :=
  [("nodes", JList [Sample.node_doc "1" "A"]);
   ("connections", JDict [("A", JDict [("main", JList [JList []])])])].

(** Three arguments for [add_nodes]; the second repeats the id of the
    first. *)
Definition batch : list (Node.object * string) :=
  [(Node.ONode Sample.node_a, "t1"); (Node.ONode Sample.impostor, "t2");
   (Node.ONode Sample.node_b, "t3")].


End Cases.

(** * Properties *)

(** ** Text *)

Lemma lstrip_head s : lstrip s = "" \/ exists c r, lstrip s = String c r /\ py_isspace c = false.
Proof.
  induction s as [|c r IH]; simpl; auto.
  destruct (py_isspace c) eqn:E; auto. right. eauto.
Qed.

Lemma rstrip_head c r : py_isspace c = false -> exists r', rstrip (String c r) = String c r'.
Proof.
  intros H. simpl. destruct (rstrip r); rewrite ?H; eauto.
Qed.

Lemma rstrip_cons c r :
  rstrip (String c r) =
  match rstrip r with
  | EmptyString => if py_isspace c then EmptyString else String c EmptyString
  | r' => String c r'
  end.
Proof. reflexivity. Qed.

Lemma rstrip_idem s : rstrip (rstrip s) = rstrip s.
Proof.
  induction s as [|c r IH]; [reflexivity|].
  rewrite rstrip_cons. destruct (rstrip r) as [|c' r'] eqn:E.
  - destruct (py_isspace c) eqn:Ec; [reflexivity|].
    rewrite rstrip_cons. simpl. rewrite Ec. reflexivity.
  - rewrite rstrip_cons, IH. reflexivity.
Qed.

Lemma lstrip_fix c r : py_isspace c = false -> lstrip (String c r) = String c r.
Proof. intros H; simpl; rewrite H; reflexivity. Qed.

Lemma strip_idempotent s : strip (strip s) = strip s.
Proof.
  unfold strip. destruct (lstrip_head s) as [H | (c & r & H & Hc)]; rewrite H.
  - reflexivity.
  - destruct (@rstrip_head c r Hc) as [r' Hr]. rewrite Hr.
    rewrite (@lstrip_fix c _ Hc). rewrite <- Hr. apply rstrip_idem.
Qed.

Lemma strip_nonempty s : strip s <> "" -> s <> "".
Proof. intros H E; subst; apply H; reflexivity. Qed.

Lemma eqb_empty_false s : s <> "" -> String.eqb s "" = false.
Proof. intros H. apply String.eqb_neq. exact H. Qed.

Lemma string_app_nonempty a c b : (a ++ String c b)%string <> "".
Proof. destruct a; simpl; discriminate. Qed.

Lemma uuid_str_nonempty u : uuid_str u <> "".
Proof. unfold uuid_str. apply string_app_nonempty. Qed.

Lemma required_text_ok s :
  strip s <> "" -> required_text (JStr s) = Return (Some (strip s)).
Proof.
  intros H. unfold required_text. simpl.
  rewrite (eqb_empty_false _ (strip_nonempty _ H)). simpl.
  rewrite (eqb_empty_false _ H). reflexivity.
Qed.

Lemma required_text_blank j : blank j = true -> required_text j = Return None.
Proof.
  unfold blank, required_text. destruct (truthy j) eqn:T; simpl; [|reflexivity].
  destruct j; try discriminate. intros ->. reflexivity.
Qed.

Lemma required_text_str s :
  blank (JStr s) = false -> required_text (JStr s) = Return (Some (strip s)).
Proof.
  unfold blank, required_text. destruct (truthy (JStr s)); simpl; [|discriminate].
  intros ->. reflexivity.
Qed.

Lemma required_text_some j s :
  required_text j = Return (Some s) -> s <> "" /\ strip s = s.
Proof.
  unfold required_text. destruct (truthy j); simpl; [|discriminate].
  destruct j; try discriminate.
  destruct (String.eqb_spec (strip s0) ""); [discriminate|].
  intros [= <-]. split; [assumption|apply strip_idempotent].
Qed.

Lemma py_or_idem x y : py_or (py_or x y) y = py_or x y.
Proof. unfold py_or. destruct (truthy x) eqn:E; [rewrite E|]; destruct (truthy y); reflexivity. Qed.

Lemma fresh_id_ok (given : option string) (uuid : N) :
  exists s, (if truthy (opt_str given) then opt_str given else JStr (uuid_str uuid))
            = JStr s /\ s <> "".
Proof.
  destruct given as [s|]; simpl.
  - destruct (String.eqb_spec s ""); simpl.
    + eexists; split; [reflexivity|apply uuid_str_nonempty].
    + eauto.
  - eexists; split; [reflexivity|apply uuid_str_nonempty].
Qed.


(** ** Dicts and lists *)

Lemma dict_get_set_same k v d : dict_get k (dict_set k v d) = Some v.
Proof.
  induction d as [|[k' v'] r IH]; simpl.
  - rewrite String.eqb_refl. reflexivity.
  - destruct (String.eqb k k') eqn:E; simpl; rewrite E; auto.
Qed.

Lemma dict_get_set_other k k' v d :
  k <> k' -> dict_get k' (dict_set k v d) = dict_get k' d.
Proof.
  intros Hne. induction d as [|[k0 v0] r IH]; simpl.
  - destruct (String.eqb_spec k' k); [congruence|reflexivity].
  - destruct (String.eqb_spec k k0); simpl.
    + subst. destruct (String.eqb_spec k' k0); [congruence|reflexivity].
    + rewrite IH. reflexivity.
Qed.

Lemma dict_has_set_same k v d : dict_has k (dict_set k v d) = true.
Proof. unfold dict_has. rewrite dict_get_set_same. reflexivity. Qed.

Lemma dict_has_set_mono k k' v d :
  dict_has k' d = true -> dict_has k' (dict_set k v d) = true.
Proof.
  destruct (String.eqb_spec k k').
  - subst. intros _. apply dict_has_set_same.
  - unfold dict_has. rewrite dict_get_set_other by assumption. auto.
Qed.

Lemma dict_set_set k v v' d : dict_set k v (dict_set k v' d) = dict_set k v d.
Proof.
  induction d as [|[k0 v0] r IH]; simpl.
  - rewrite String.eqb_refl. reflexivity.
  - destruct (String.eqb k k0) eqn:E; simpl; rewrite E; [reflexivity|].
    rewrite IH. reflexivity.
Qed.

Lemma grow_spec n l : Workflow.grow n l = l ++ repeat (JList []) n.
Proof.
  revert l. induction n as [|n IH]; intros l; simpl.
  - rewrite app_nil_r. reflexivity.
  - rewrite IH, <- app_assoc. reflexivity.
Qed.

Lemma nth_error_list_set i v l :
  (i < length l)%nat -> nth_error (Workflow.list_set i v l) i = Some v.
Proof.
  revert i. induction l as [|x r IH]; intros i H; simpl in *; [lia|].
  destruct i; simpl; [reflexivity|]. apply IH. lia.
Qed.

Lemma length_list_set i v l : length (Workflow.list_set i v l) = length l.
Proof.
  revert i. induction l as [|x r IH]; intros i; destruct i; simpl; auto.
Qed.

Lemma list_set_repeat_last (x v : json) n :
  Workflow.list_set n v (repeat x (S n)) = repeat x n ++ [v].
Proof. induction n as [|n IH]; simpl; [reflexivity|]. rewrite <- IH. reflexivity. Qed.

Lemma py_index_nonneg len i :
  0 <= i -> i < Z.of_nat len -> Workflow.py_index len i = Some (Z.to_nat i).
Proof.
  intros H0 H1. unfold Workflow.py_index.
  destruct (Z.leb_spec 0 i); [|lia]. destruct (Z.ltb_spec i (Z.of_nat len)); [|lia].
  reflexivity.
Qed.

Lemma py_index_bound len i n : Workflow.py_index len i = Some n -> (n < len)%nat.
Proof.
  unfold Workflow.py_index.
  destruct (Z.leb_spec 0 i).
  - destruct (Z.ltb_spec i (Z.of_nat len)); [|discriminate]. intros [= <-]. lia.
  - destruct (Z.leb_spec 0 (i + Z.of_nat len)); [|discriminate]. intros [= <-]. lia.
Qed.

Lemma ofor_each_raises {A} (body : A -> outcome unit) (xs : list A) (x : A) :
  In x xs -> (exists e, body x = Raise e) -> exists e, ofor_each xs body = Raise e.
Proof.
  intros Hin (e & He). induction xs as [|y r IH]; [contradiction|].
  cbn. destruct Hin as [->|Hin].
  - rewrite He. cbn. eauto.
  - destruct (body y) as [[]|e']; cbn; eauto.
Qed.

Lemma py_eq_str t x : py_eq (JStr t) x = true -> x = JStr t.
Proof.
  destruct x; cbn; try discriminate. intros H. apply String.eqb_eq in H.
  congruence.
Qed.

Lemma existsb_py_eq_str t names :
  existsb (py_eq (JStr t)) names = true -> In (JStr t) names.
Proof.
  intros H. apply existsb_exists in H. destruct H as (x & Hin & Hx).
  apply py_eq_str in Hx. subst. exact Hin.
Qed.


(** ** Nodes *)

Lemma validate_default_node {P : Platform} (n : Node.t) :
  truthy (Node.id n) = true -> Node.name n <> "" -> Node.type n <> "" ->
  Node.position n = JList [JInt 0; JInt 0] ->
  Node.type_version n = JInt 1 ->
  Node.parameters n = JDict [] -> Node.credentials n = JDict [] ->
  Node.validate n = Return [].
Proof.
  intros Hi Hn Ht Hp Hv Hpa Hc. unfold Node.validate.
  rewrite Hi, (eqb_empty_false _ Hn), (eqb_empty_false _ Ht), Hp, Hv, Hpa, Hc.
  reflexivity.
Qed.

(** C9.  For all strings [node_type] and [name] that are non-empty after
    trimming surrounding whitespace, [Node(node_type, name)] with every
    other argument at its default returns a node, and [validate()] on that
    node returns the empty list. *)
Theorem node_construct_valid {P : Platform} (node_type name : string)
    (uuid : N) (log : Log) :
  strip node_type <> "" -> strip name <> "" ->
  exists n log',
    Node.__init__ (JStr node_type) (JStr name) JNull (JInt 1) JNull JNull JNull
                  uuid log = (Return n, log')
    /\ Node.validate n = Return [].
Proof.
  intros Ht Hn. unfold Node.__init__, bind, lift_outcome.
  rewrite (required_text_ok _ Ht), (required_text_ok _ Hn).
  eexists; eexists; split; [reflexivity|].
  apply validate_default_node;
    [ | exact Hn | exact Ht | reflexivity | reflexivity | reflexivity | reflexivity ].
  cbn [Node.id truthy]. rewrite (eqb_empty_false _ (uuid_str_nonempty uuid)).
  reflexivity.
Qed.

Lemma node_construct_valid_witness :
  strip " n8n-nodes-base.start" <> "" /\ strip "Start " <> "" /\
  exists n log',
    Node.__init__ (JStr " n8n-nodes-base.start") (JStr "Start ") JNull (JInt 1)
                  JNull JNull JNull 42 [] = (Return n, log')
    /\ @Node.validate Demo.platform n = Return [].
Proof.
  assert (H1 : strip " n8n-nodes-base.start" <> "") by (vm_compute; discriminate).
  assert (H2 : strip "Start " <> "") by (vm_compute; discriminate).
  split; [exact H1|]. split; [exact H2|].
  exact (@node_construct_valid Demo.platform _ _ 42%N [] H1 H2).
Defined.

(** C2, as stated, fails: a fragment without a type (and with an empty
    name) is refused by [Node.from_dict] with the constructor's error for
    an empty type; no node is returned. *)
Lemma from_dict_empty_fragment_fails :
  Node.from_dict (JDict [("name", JStr ""); ("id", JStr "n1")]) 0 []
  = (Raise (Sdk NodeError [Lit "Node type cannot be empty"]
                (Some ErrorCodes.NODE_INVALID_TYPE)), [])
  /\ ~ (exists n log', Node.from_dict (JDict [("name", JStr ""); ("id", JStr "n1")])
                                      0 [] = (Return n, log')).
Proof.
  split; [reflexivity|]. intros (n & l & H). discriminate H.
Qed.

(** C2, amended.  [Node.from_dict] passes the fragment's fields to the
    constructor, which runs its required-field checks: a fragment whose
    type is absent, empty or blank fails with the invalid-type error; one
    whose type is a non-blank string and whose name is absent, empty or
    blank fails with the missing-field error; and whenever a node is
    returned both fields are non-blank. *)
Theorem from_dict_runs_required_checks (d : dict) (uuid : N) (log : Log) :
  let node_type := dict_get_default "type" (JStr "") d in
  let name := dict_get_default "name" (JStr "") d in
  (blank node_type = true ->
   Node.from_dict (JDict d) uuid log
   = (Raise (Sdk NodeError [Lit "Node type cannot be empty"]
                 (Some ErrorCodes.NODE_INVALID_TYPE)), log))
  /\ (blank node_type = false -> (exists s, node_type = JStr s) ->
      blank name = true ->
      Node.from_dict (JDict d) uuid log
      = (Raise (Sdk NodeError [Lit "Node name cannot be empty"]
                    (Some ErrorCodes.NODE_MISSING_REQUIRED_FIELD)), log))
  /\ (forall n log', Node.from_dict (JDict d) uuid log = (Return n, log') ->
      blank node_type = false /\ blank name = false).
Proof.
  intros node_type name. unfold Node.from_dict, Node.__init__, bind, lift_outcome.
  fold node_type. fold name.
  split; [|split].
  - intros H. rewrite (required_text_blank _ H). reflexivity.
  - intros H (s & Hs) Hn. rewrite Hs in *. rewrite (required_text_str _ H).
    rewrite (required_text_blank _ Hn). reflexivity.
  - intros n log'.
    destruct (blank node_type) eqn:Bt.
    { rewrite (required_text_blank _ Bt). discriminate. }
    destruct (blank name) eqn:Bn; [|auto].
    destruct (required_text node_type) as [[s|]|e]; try discriminate.
    rewrite (required_text_blank _ Bn). discriminate.
Qed.


Lemma from_dict_runs_required_checks_witness :
  blank (dict_get_default "type" (JStr "") [("name", JStr "Start")]) = true
  /\ Node.from_dict (JDict [("name", JStr "Start")]) 7 []
     = (Raise (Sdk NodeError [Lit "Node type cannot be empty"]
                   (Some ErrorCodes.NODE_INVALID_TYPE)), []).
Proof.
  split; [reflexivity|].
  apply (proj1 (from_dict_runs_required_checks [("name", JStr "Start")] 7 [])).
  reflexivity.
Defined.

(** ** Adding nodes and connecting them *)

Section WorkflowFacts.
Variable FS : Type.
Implicit Types (w : Workflow.t) (st : Workflow.Obj FS).

Ltac run :=
  unfold bind, ret, raise, gets, modify, lift_outcome, try_except;
  cbn [fst snd negb].

Ltac run_method :=
  unfold Workflow.connect, Workflow.on_connections, Workflow.log_,
    Workflow.update, Workflow.when;
  run; cbn -[dict_has dict_set dict_get Workflow.add_record Workflow.seed_target
            Workflow.node_in].

(** C6.  [add_node] fails with the duplicate-node error when a node with
    the same id is already present, and leaves the workflow as it was;
    when no id matches but a name does, the node is appended and the log
    gains a warning and the closing debug line, no error. *)
Theorem add_node_duplicate_id_fails_duplicate_name_warns
    (w : Workflow.t) (node : Node.t) (now : string) (lg : Log) (fs : FS) :
  let st := {| Workflow.self := w; Workflow.logs := lg; Workflow.disk := fs |} in
  (existsb (same_id node) (Workflow.nodes w) = true ->
   exists m lg',
     Workflow.add_node (Node.ONode node) now st
     = (Raise (Sdk WorkflowError m (Some ErrorCodes.WORKFLOW_DUPLICATE_NODE)),
        {| Workflow.self := w; Workflow.logs := lg'; Workflow.disk := fs |}))
  /\ (existsb (same_id node) (Workflow.nodes w) = false ->
      existsb (same_name node) (Workflow.nodes w) = true ->
      exists m m',
        Workflow.add_node (Node.ONode node) now st
        = (Return tt,
           {| Workflow.self :=
                Workflow.with_updated_at (JStr now)
                  (Workflow.with_nodes (Workflow.nodes w ++ [node]) w);
              Workflow.logs := lg ++ [(WARNING, m); (DEBUG, m')];
              Workflow.disk := fs |})).
Proof.
  intros st. unfold Workflow.add_node, bind, gets. cbn [st Workflow.self].
  fold (same_id node). fold (same_name node). split.
  - intros ->. eexists; eexists. reflexivity.
  - intros -> ->. eexists; eexists. cbn. unfold Workflow.log_, modify. cbn.
    rewrite <- app_assoc. reflexivity.
Qed.

(** C7.  [connect] fails with the source-not-found error when the source
    is not among the nodes (by [==], that is by id), and with the
    target-not-found error when the source is and the target is not; the
    workflow, and with it the connections mapping, is left as it was. *)
Theorem connect_missing_endpoint_fails
    (w : Workflow.t) (from_node to_node : Node.t)
    (output_type input_type : string) (output_index input_index : Z)
    (now : string) (lg : Log) (fs : FS) :
  let st := {| Workflow.self := w; Workflow.logs := lg; Workflow.disk := fs |} in
  (Workflow.node_in from_node (Workflow.nodes w) = false ->
   exists m lg',
     Workflow.connect from_node to_node output_type input_type
                      output_index input_index now st
     = (Raise (Sdk WorkflowError m (Some ErrorCodes.CONNECTION_SOURCE_NOT_FOUND)),
        {| Workflow.self := w; Workflow.logs := lg'; Workflow.disk := fs |}))
  /\ (Workflow.node_in from_node (Workflow.nodes w) = true ->
      Workflow.node_in to_node (Workflow.nodes w) = false ->
      exists m lg',
        Workflow.connect from_node to_node output_type input_type
                         output_index input_index now st
        = (Raise (Sdk WorkflowError m (Some ErrorCodes.CONNECTION_TARGET_NOT_FOUND)),
           {| Workflow.self := w; Workflow.logs := lg'; Workflow.disk := fs |})).
Proof.
  intros st. unfold Workflow.connect, bind, gets. cbn [st Workflow.self]. split.
  - intros ->. eexists; eexists. reflexivity.
  - intros -> ->. eexists; eexists. reflexivity.
Qed.

(** The first connection from a source that has no entry yet. *)
Lemma add_record_fresh (source_name output_type : string) (output_index : Z)
    (connection : json) (d : dict) :
  dict_has source_name d = false -> 0 <= output_index ->
  Workflow.add_record source_name output_type output_index connection (JDict d)
  = (Return tt,
     JDict (dict_set source_name
              (JDict [(output_type,
                       JList (repeat (JList []) (Z.to_nat output_index)
                                ++ [JList [connection]]))]) d)).
Proof.
  intros Hs Hi. unfold Workflow.add_record. run. rewrite Hs.
  rewrite dict_get_set_same. cbn [dict_has dict_get dict_set].
  rewrite String.eqb_refl.
  unfold Workflow.ensure_slots. rewrite grow_spec. cbn [length app].
  replace (Z.to_nat (output_index + 1 - Z.of_nat 0)) with (S (Z.to_nat output_index)) by lia.
  rewrite repeat_length.
  rewrite py_index_nonneg by lia.
  assert (Hn : nth_error (repeat (JList []) (S (Z.to_nat output_index)))
                         (Z.to_nat output_index) = Some (JList [])).
  { apply nth_error_repeat. lia. }
  rewrite Hn. f_equal. f_equal. unfold Workflow.put_slots.
  cbn [dict_set]. rewrite String.eqb_refl. rewrite dict_set_set.
  rewrite list_set_repeat_last. reflexivity.
Qed.

Lemma seed_target_run (target_name : string) (d : dict) :
  Workflow.seed_target target_name (JDict d)
  = (Return tt,
     JDict (if dict_has target_name d then d
            else dict_set target_name (JDict [("main", JList [JList []])]) d)).
Proof.
  unfold Workflow.seed_target. run. destruct (dict_has target_name d); reflexivity.
Qed.

(** What a successful [add_record] leaves behind. *)
Lemma add_record_success (source_name output_type : string) (output_index : Z)
    (connection : json) (c c' : json) :
  Workflow.add_record source_name output_type output_index connection c
  = (Return tt, c') ->
  exists d d' o slots i slot,
    c = JDict d /\ c' = JDict d'
    /\ dict_get source_name d' = Some (JDict o)
    /\ dict_get output_type o = Some (JList slots)
    /\ Workflow.py_index (length slots) output_index = Some i
    /\ nth_error slots i = Some (JList (slot ++ [connection]))
    /\ (forall k, dict_has k d = true -> dict_has k d' = true)
    /\ (forall k, k <> source_name -> dict_get k d' = dict_get k d).
Proof.
  unfold Workflow.add_record. run.
  destruct c as [| | | | |l|d]; try discriminate.
  set (d1 := if dict_has source_name d then d
             else dict_set source_name (JDict []) d).
  destruct (dict_get source_name d1) as [[| | | | |l|o]|] eqn:Eo; try discriminate.
  set (o1 := if dict_has output_type o then o
             else dict_set output_type (JList []) o).
  destruct (dict_get output_type o1) as [[| | | |s|slots|o']|] eqn:Es; try discriminate.
  - destruct (Z.of_nat (String.length s) <=? output_index); [discriminate|].
    destruct (- Z.of_nat (String.length s) <=? output_index); discriminate.
  - set (slots1 := Workflow.ensure_slots slots output_index).
    destruct (Workflow.py_index (length slots1) output_index) as [i|] eqn:Ei;
      [|discriminate].
    destruct (nth_error slots1 i) as [[| | | | |slot|]|] eqn:En; try discriminate.
    intros [= <-].
    exists d, (Workflow.put_slots d1 o1 source_name output_type
                 (Workflow.list_set i (JList (slot ++ [connection])) slots1)),
      (dict_set output_type
         (JList (Workflow.list_set i (JList (slot ++ [connection])) slots1)) o1),
      (Workflow.list_set i (JList (slot ++ [connection])) slots1), i, slot.
    unfold Workflow.put_slots.
    repeat split.
    + apply dict_get_set_same.
    + apply dict_get_set_same.
    + rewrite length_list_set. exact Ei.
    + apply nth_error_list_set. eapply py_index_bound. exact Ei.
    + intros k Hk. apply dict_has_set_mono. subst d1.
      destruct (dict_has source_name d); [exact Hk|].
      apply dict_has_set_mono. exact Hk.
    + intros k Hk. rewrite dict_get_set_other by congruence. subst d1.
      destruct (dict_has source_name d); [reflexivity|].
      apply dict_get_set_other. congruence.
  - destruct (Z.of_nat (length o') <=? output_index); discriminate.
Qed.

Lemma add_record_raises (source_name output_type : string) (output_index : Z)
    (connection : json) (c c' : json) (e : exn) :
  Workflow.add_record source_name output_type output_index connection c
  = (Raise e, c') -> exists b, e = Builtin b.
Proof.
  unfold Workflow.add_record. run.
  destruct c as [| | | | |l|d]; try (intros [= <- _]; eauto).
  destruct (dict_get source_name _) as [[| | | | |l|o]|];
    try (intros [= <- _]; eauto).
  destruct (dict_get output_type _) as [[| | | |s|slots|o']|];
    try (intros [= <- _]; eauto).
  - destruct (_ <=? _); [intros [= <- _]; eauto|].
    destruct (_ <=? _); intros [= <- _]; eauto.
  - destruct (Workflow.py_index _ _) as [i|]; [|intros [= <- _]; eauto].
    destruct (nth_error _ i) as [[| | | | |slot|]|];
      try (intros [= <- _]; eauto).
  - destruct (_ <=? _); intros [= <- _]; eauto.
Qed.

(** [connect] between two nodes that pass the membership test, in terms
    of what it does to [self.connections]. *)
Lemma connect_members st (from_node to_node : Node.t)
    (output_type input_type : string) (output_index input_index : Z)
    (now : string) :
  Workflow.node_in from_node (Workflow.nodes (Workflow.self st)) = true ->
  Workflow.node_in to_node (Workflow.nodes (Workflow.self st)) = true ->
  match Workflow.add_record (Node.name from_node) output_type output_index
          (connection_record to_node input_type input_index)
          (Workflow.connections (Workflow.self st)) with
  | (Return _, JDict d1) =>
      exists st',
        Workflow.connect from_node to_node output_type input_type output_index
                         input_index now st = (Return tt, st')
        /\ Workflow.connections (Workflow.self st')
           = JDict (if dict_has (Node.name to_node) d1 then d1
                    else dict_set (Node.name to_node) placeholder d1)
  | (Return _, _) => False
  | (Raise e, _) =>
      exists st',
        Workflow.connect from_node to_node output_type input_type output_index
                         input_index now st = (Raise e, st')
  end.
Proof.
  intros Hf Ht.
  destruct (Workflow.add_record _ _ _ _ _) as [[[]|e] c1] eqn:E.
  - destruct (add_record_success _ _ _ _ _ _ E) as (d & d' & o & slots & i & slot & _ & -> & _).
    run_method. rewrite Hf, Ht. run_method. fold (connection_record to_node input_type input_index).
    rewrite E. run_method. rewrite seed_target_run.
    eexists. split; [reflexivity|]. reflexivity.
  - run_method. rewrite Hf, Ht. run_method. fold (connection_record to_node input_type input_index).
    rewrite E. eexists. reflexivity.
Qed.

Lemma connect_returns st st' (from_node to_node : Node.t)
    (output_type input_type : string) (output_index input_index : Z)
    (now : string) :
  Workflow.connect from_node to_node output_type input_type output_index
                   input_index now st = (Return tt, st') ->
  exists d1,
    Workflow.add_record (Node.name from_node) output_type output_index
      (connection_record to_node input_type input_index)
      (Workflow.connections (Workflow.self st)) = (Return tt, JDict d1)
    /\ Workflow.connections (Workflow.self st')
       = JDict (if dict_has (Node.name to_node) d1 then d1
                else dict_set (Node.name to_node) placeholder d1).
Proof.
  intros H.
  destruct (Workflow.node_in from_node (Workflow.nodes (Workflow.self st))) eqn:Hf.
  2:{ revert H. run_method. rewrite Hf. run_method. discriminate. }
  destruct (Workflow.node_in to_node (Workflow.nodes (Workflow.self st))) eqn:Ht.
  2:{ revert H. run_method. rewrite Hf, Ht. run_method. discriminate. }
  pose proof (connect_members st from_node to_node output_type input_type
                output_index input_index now Hf Ht) as M.
  destruct (Workflow.add_record _ _ _ _ _) as [[[]|e] [| | | | | |d1]]; try contradiction;
    try (destruct M as (st1 & M); rewrite M in H; discriminate).
  destruct M as (st1 & M & Hc). rewrite M in H. injection H as <-.
  exists d1. split; [reflexivity|exact Hc].
Qed.

Lemma add_node_self (node : Node.t) (now : string) (st st' : Workflow.Obj FS)
    (r : outcome unit) :
  Workflow.add_node (Node.ONode node) now st = (r, st') ->
  Workflow.self st' = Workflow.self st
  \/ Workflow.self st'
     = Workflow.with_updated_at (JStr now)
         (Workflow.with_nodes (Workflow.nodes (Workflow.self st) ++ [node])
                              (Workflow.self st)).
Proof.
  unfold Workflow.add_node, Workflow.when, Workflow.update, Workflow.log_,
    bind, gets, modify, raise, ret.
  destruct (existsb _ _); [intros [= _ <-]; left; reflexivity|].
  destruct (existsb _ _); intros [= _ <-]; right; reflexivity.
Qed.

Lemma connect_frame (from_node to_node : Node.t)
    (output_type input_type : string) (output_index input_index : Z)
    (now : string) (st st' : Workflow.Obj FS) (r : outcome unit) :
  Workflow.connect from_node to_node output_type input_type output_index
                   input_index now st = (r, st') ->
  Workflow.id (Workflow.self st') = Workflow.id (Workflow.self st)
  /\ Workflow.name (Workflow.self st') = Workflow.name (Workflow.self st)
  /\ Workflow.nodes (Workflow.self st') = Workflow.nodes (Workflow.self st).
Proof.
  unfold Workflow.connect, Workflow.on_connections, Workflow.update,
    Workflow.log_, bind, gets, modify, raise, ret.
  destruct (negb _); [intros [= _ <-]; auto|].
  destruct (negb _); [intros [= _ <-]; auto|].
  destruct (Workflow.add_record _ _ _ _ _) as [[[]|e] c1]; [|intros [= _ <-]; auto].
  cbn [Workflow.self Workflow.connections Workflow.with_connections
       Workflow.with_updated_at].
  destruct (Workflow.seed_target _ _) as [[[]|e] c2]; intros [= _ <-]; auto.
Qed.

(** C4.  In a workflow that contains [A] and [B] and has no connection
    entry for [A.name], [connect(A, B, output_type, input_type, 2,
    input_index)] returns, and [connections[A.name][output_type]] is then
    a list of three slots: two empty ones and one holding exactly the new
    record. *)
Theorem connect_slot_two_first w (d : dict) (A B : Node.t)
    (output_type input_type : string) (input_index : Z)
    (now : string) (lg : Log) (fs : FS) :
  Workflow.node_in A (Workflow.nodes w) = true ->
  Workflow.node_in B (Workflow.nodes w) = true ->
  Workflow.connections w = JDict d ->
  dict_has (Node.name A) d = false ->
  exists st' d' o,
    Workflow.connect A B output_type input_type 2 input_index now
      {| Workflow.self := w; Workflow.logs := lg; Workflow.disk := fs |}
    = (Return tt, st')
    /\ Workflow.connections (Workflow.self st') = JDict d'
    /\ dict_get (Node.name A) d' = Some (JDict o)
    /\ dict_get output_type o
       = Some (JList [JList []; JList [];
                      JList [JDict [("node", JStr (Node.name B));
                                    ("type", JStr input_type);
                                    ("index", JInt input_index)]]]).
Proof.
  intros HA HB Hc Hs.
  pose proof (connect_members
                {| Workflow.self := w; Workflow.logs := lg; Workflow.disk := fs |}
                A B output_type input_type 2 input_index now HA HB) as M.
  cbn [Workflow.self] in M. rewrite Hc in M.
  rewrite (add_record_fresh _ _ _ _ _ Hs) in M by lia.
  destruct M as (st' & Hrun & Hfinal).
  exists st'. eexists. eexists. split; [exact Hrun|]. split; [exact Hfinal|].
  split.
  - destruct (dict_has (Node.name B) _) eqn:HB'.
    + apply dict_get_set_same.
    + destruct (String.eqb_spec (Node.name B) (Node.name A)) as [e|ne].
      * rewrite e, dict_has_set_same in HB'. discriminate.
      * rewrite dict_get_set_other by exact ne. apply dict_get_set_same.
  - cbn [dict_get]. rewrite String.eqb_refl. reflexivity.
Qed.

Lemma connect_keys st st' (from_node to_node : Node.t)
    (output_type input_type : string) (output_index input_index : Z)
    (now : string) :
  Workflow.connect from_node to_node output_type input_type output_index
                   input_index now st = (Return tt, st') ->
  exists d d',
    Workflow.connections (Workflow.self st) = JDict d
    /\ Workflow.connections (Workflow.self st') = JDict d'
    /\ dict_has (Node.name to_node) d' = true
    /\ (forall k, dict_has k d = true -> dict_has k d' = true).
Proof.
  intros H. destruct (connect_returns _ _ _ _ _ _ _ _ _ H) as (d1 & Ha & Hc).
  destruct (add_record_success _ _ _ _ _ _ Ha)
    as (d & d1' & o & slots & i & slot & Hd & [= <-] & _ & _ & _ & _ & Hmono & _).
  exists d. eexists. split; [exact Hd|]. split; [exact Hc|].
  destruct (dict_has (Node.name to_node) d1) eqn:Et.
  - split; [exact Et|exact Hmono].
  - split; [apply dict_has_set_same|].
    intros k Hk. apply dict_has_set_mono. apply Hmono. exact Hk.
Qed.

Lemma connect_all_keys (calls : list connect_call) : forall st st',
  connect_all calls st = (Return tt, st') ->
  (forall c, In c calls ->
     exists d', Workflow.connections (Workflow.self st') = JDict d'
                /\ dict_has (Node.name (call_to c)) d' = true)
  /\ (forall d k, Workflow.connections (Workflow.self st) = JDict d ->
        dict_has k d = true ->
        exists d', Workflow.connections (Workflow.self st') = JDict d'
                   /\ dict_has k d' = true).
Proof.
  induction calls as [|c r IH]; intros st st' H.
  - injection H as <-. split; [intros c []|]. intros d k Hd Hk. eauto.
  - unfold connect_all in H. cbn [for_each] in H. unfold bind in H.
    destruct (run_call c st) as [[[]|e] s1] eqn:E; [|discriminate].
    destruct (connect_keys _ _ _ _ _ _ _ _ _ E) as (d0 & d1 & Hd0 & Hd1 & Ht & Hmono).
    destruct (IH s1 st' H) as [IHa IHb].
    split.
    + intros c' [<-|Hin]; [|apply IHa; exact Hin].
      apply (IHb d1 _ Hd1 Ht).
    + intros d k Hd Hk. rewrite Hd in Hd0. injection Hd0 as <-.
      apply (IHb d1 k Hd1). apply Hmono. exact Hk.
Qed.

(** C5, amended.  After any sequence of calls of [connect] that all
    returned, the name of every target of the sequence has an entry in
    [connections]; and when a call returns whose target had no entry
    before it and whose target's name differs from its source's name, the
    target's entry is [{"main": [[]]}]. *)
Theorem connect_target_always_has_entry :
  (forall (calls : list connect_call) st st',
     connect_all calls st = (Return tt, st') ->
     forall c, In c calls ->
       exists d', Workflow.connections (Workflow.self st') = JDict d'
                  /\ dict_has (Node.name (call_to c)) d' = true)
  /\ (forall st st' (d : dict) (from_node to_node : Node.t)
              (output_type input_type : string) (output_index input_index : Z)
              (now : string),
        Workflow.connect from_node to_node output_type input_type output_index
                         input_index now st = (Return tt, st') ->
        Workflow.connections (Workflow.self st) = JDict d ->
        dict_has (Node.name to_node) d = false ->
        Node.name to_node <> Node.name from_node ->
        exists d', Workflow.connections (Workflow.self st') = JDict d'
                   /\ dict_get (Node.name to_node) d'
                      = Some (JDict [("main", JList [JList []])])).
Proof.
  split.
  - intros calls st st' H. apply (connect_all_keys calls st st' H).
  - intros st st' d from_node to_node output_type input_type output_index
           input_index now H Hd Ht Hne.
    destruct (connect_returns _ _ _ _ _ _ _ _ _ H) as (d1 & Ha & Hc).
    destruct (add_record_success _ _ _ _ _ _ Ha)
      as (d0 & d1' & o & slots & i & slot & Hd0 & [= <-] & _ & _ & _ & _ & _ & Hother).
    rewrite Hd in Hd0. injection Hd0 as <-.
    eexists. split; [exact Hc|].
    assert (Hno : dict_has (Node.name to_node) d1 = false).
    { unfold dict_has in *. rewrite (Hother _ Hne). exact Ht. }
    rewrite Hno. apply dict_get_set_same.
Qed.

(** C10.  Membership in [connect] is decided by the id alone: a node [Z]
    passes the test exactly when some node of the workflow has an id equal
    to [Z.id], and two nodes with the same id get the same answer whatever
    their other fields.  So for nodes [N] and [N'] of the workflow and any
    nodes [X] and [Y] with [X.id == N.id] and [Y.id == N'.id]: [X] and [Y]
    pass the membership tests; [connect(X, Y, ..)] never raises one of the
    SDK's errors; whenever it returns, the new record sits last in its slot
    under the key [X.name] and names [Y.name]; and it does return when
    [X.name] has no entry yet and the slot index is not negative.  A node
    whose id equals no id of the workflow is rejected as source and as
    target, whatever else it shares with a node of the workflow. *)
Theorem connect_membership_by_id w (N N' X Y : Node.t)
    (output_type input_type : string) (output_index input_index : Z)
    (now : string) (lg : Log) (fs : FS) :
  let st := {| Workflow.self := w; Workflow.logs := lg; Workflow.disk := fs |} in
  In N (Workflow.nodes w) -> In N' (Workflow.nodes w) ->
  py_eq (Node.id X) (Node.id N) = true ->
  py_eq (Node.id Y) (Node.id N') = true ->
  (forall Z : Node.t,
     Workflow.node_in Z (Workflow.nodes w) = true
     <-> exists M, In M (Workflow.nodes w)
                   /\ py_eq (Node.id Z) (Node.id M) = true)
  /\ (forall Z Z' : Node.t,
        Node.id Z = Node.id Z' ->
        Workflow.node_in Z (Workflow.nodes w)
        = Workflow.node_in Z' (Workflow.nodes w))
  /\ (Workflow.node_in X (Workflow.nodes w) = true
      /\ Workflow.node_in Y (Workflow.nodes w) = true)
  /\ (forall e st',
        Workflow.connect X Y output_type input_type output_index input_index
                         now st = (Raise e, st') -> exists b, e = Builtin b)
  /\ (forall st',
        Workflow.connect X Y output_type input_type output_index input_index
                         now st = (Return tt, st') ->
        exists d' o slots i slot,
          Workflow.connections (Workflow.self st') = JDict d'
          /\ dict_get (Node.name X) d' = Some (JDict o)
          /\ dict_get output_type o = Some (JList slots)
          /\ Workflow.py_index (length slots) output_index = Some i
          /\ nth_error slots i
             = Some (JList (slot ++ [JDict [("node", JStr (Node.name Y));
                                            ("type", JStr input_type);
                                            ("index", JInt input_index)]])))
  /\ (forall d, Workflow.connections w = JDict d ->
        dict_has (Node.name X) d = false -> 0 <= output_index ->
        exists st',
          Workflow.connect X Y output_type input_type output_index input_index
                           now st = (Return tt, st'))
  /\ (forall Z : Node.t,
        (forall M, In M (Workflow.nodes w) ->
                   py_eq (Node.id Z) (Node.id M) = false) ->
        (exists m lg',
           Workflow.connect Z Y output_type input_type output_index input_index
                            now st
           = (Raise (Sdk WorkflowError m
                       (Some ErrorCodes.CONNECTION_SOURCE_NOT_FOUND)),
              {| Workflow.self := w; Workflow.logs := lg'; Workflow.disk := fs |}))
        /\ (exists m lg',
              Workflow.connect X Z output_type input_type output_index
                               input_index now st
              = (Raise (Sdk WorkflowError m
                          (Some ErrorCodes.CONNECTION_TARGET_NOT_FOUND)),
                 {| Workflow.self := w; Workflow.logs := lg';
                    Workflow.disk := fs |}))).
Proof.
  intros st HN HN' HX HY.
  assert (Hiff : forall Z : Node.t,
             Workflow.node_in Z (Workflow.nodes w) = true
             <-> exists M, In M (Workflow.nodes w)
                           /\ py_eq (Node.id Z) (Node.id M) = true).
  { intros Z. unfold Workflow.node_in. rewrite existsb_exists.
    split; intros (M & HM & E); exists M; (split; [exact HM|exact E]). }
  assert (HinX : Workflow.node_in X (Workflow.nodes w) = true)
    by (apply Hiff; exists N; auto).
  assert (HinY : Workflow.node_in Y (Workflow.nodes w) = true)
    by (apply Hiff; exists N'; auto).
  assert (Hout : forall Z : Node.t,
             (forall M, In M (Workflow.nodes w) ->
                        py_eq (Node.id Z) (Node.id M) = false) ->
             Workflow.node_in Z (Workflow.nodes w) = false).
  { intros Z HZ. apply not_true_iff_false. intros E. apply Hiff in E.
    destruct E as (M & HM & E). rewrite (HZ M HM) in E. discriminate. }
  pose proof (connect_members st X Y output_type input_type output_index
                input_index now HinX HinY) as M.
  split; [exact Hiff|]. split.
  { intros Z Z' E. unfold Workflow.node_in, Node.__eq__. rewrite E. reflexivity. }
  split; [auto|]. split; [|split; [|split]].
  - intros e st' H.
    destruct (Workflow.add_record _ _ _ _ _) as [[[]|e0] c1] eqn:E.
    + destruct c1; try contradiction. destruct M as (s & M & _).
      rewrite M in H. discriminate.
    + destruct M as (s & M). rewrite M in H. injection H as <- _.
      apply (add_record_raises _ _ _ _ _ _ _ E).
  - intros st' H. clear M.
    destruct (connect_returns _ _ _ _ _ _ _ _ _ H) as (d1 & Ha & Hc).
    destruct (add_record_success _ _ _ _ _ _ Ha)
      as (d0 & d1' & o & slots & i & slot & _ & [= <-] & Ho & Hs & Hi & Hn & _ & _).
    eexists; exists o, slots, i, slot. split; [exact Hc|].
    split; [|auto].
    destruct (dict_has (Node.name Y) d1) eqn:EY; [exact Ho|].
    destruct (String.eqb_spec (Node.name Y) (Node.name X)) as [e|ne].
    + unfold dict_has in EY. rewrite e, Ho in EY. discriminate.
    + rewrite dict_get_set_other by exact ne. exact Ho.
  - intros d Hd Hs Hi. cbn [st Workflow.self] in M. rewrite Hd in M.
    rewrite (add_record_fresh _ _ _ _ _ Hs Hi) in M.
    destruct M as (st' & M & _). eauto.
  - intros Z HZ. pose proof (Hout Z HZ) as HinZ. split.
    + unfold Workflow.connect, bind, gets. cbn [st Workflow.self].
      rewrite HinZ. eexists; eexists. reflexivity.
    + unfold Workflow.connect, bind, gets. cbn [st Workflow.self].
      rewrite HinX, HinZ. eexists; eexists. reflexivity.
Qed.


End WorkflowFacts.

Lemma add_node_duplicate_id_fails_duplicate_name_warns_witness :
  let st := obj Sample.w_ab [] tt in
  (existsb (same_id Sample.impostor) (Workflow.nodes Sample.w_ab) = true
   /\ exists m lg',
        Workflow.add_node (Node.ONode Sample.impostor) "t1" st
        = (Raise (Sdk WorkflowError m (Some ErrorCodes.WORKFLOW_DUPLICATE_NODE)),
           obj Sample.w_ab lg' tt))
  /\ (existsb (same_id Sample.namesake) (Workflow.nodes Sample.w_ab) = false
      /\ existsb (same_name Sample.namesake) (Workflow.nodes Sample.w_ab) = true
      /\ exists m m',
           Workflow.add_node (Node.ONode Sample.namesake) "t1" st
           = (Return tt,
              obj (Workflow.with_updated_at (JStr "t1")
                     (Workflow.with_nodes
                        (Workflow.nodes Sample.w_ab ++ [Sample.namesake])
                        Sample.w_ab))
                  [(WARNING, m); (DEBUG, m')] tt)).
Proof.
  split.
  - split; [reflexivity|].
    apply (proj1 (add_node_duplicate_id_fails_duplicate_name_warns
                    unit Sample.w_ab Sample.impostor "t1" [] tt)).
    reflexivity.
  - split; [reflexivity|]. split; [reflexivity|].
    apply (proj2 (add_node_duplicate_id_fails_duplicate_name_warns
                    unit Sample.w_ab Sample.namesake "t1" [] tt));
      reflexivity.
Defined.

Lemma connect_missing_endpoint_fails_witness :
  let stranger := Sample.node "z" "Z" in
  let st := obj Sample.w_ab [] tt in
  (Workflow.node_in stranger (Workflow.nodes Sample.w_ab) = false
   /\ exists m lg',
        Workflow.connect stranger Sample.node_a "main" "main" 0 0 "t1" st
        = (Raise (Sdk WorkflowError m
                      (Some ErrorCodes.CONNECTION_SOURCE_NOT_FOUND)),
           obj Sample.w_ab lg' tt))
  /\ (Workflow.node_in Sample.node_a (Workflow.nodes Sample.w_ab) = true
      /\ exists m lg',
           Workflow.connect Sample.node_a stranger "main" "main" 0 0 "t1" st
           = (Raise (Sdk WorkflowError m
                         (Some ErrorCodes.CONNECTION_TARGET_NOT_FOUND)),
              obj Sample.w_ab lg' tt)).
Proof.
  intros stranger st. split.
  - split; [reflexivity|].
    apply (proj1 (connect_missing_endpoint_fails unit Sample.w_ab stranger
                    Sample.node_a "main" "main" 0 0 "t1" [] tt)).
    reflexivity.
  - split; [reflexivity|].
    apply (proj2 (connect_missing_endpoint_fails unit Sample.w_ab Sample.node_a
                    stranger "main" "main" 0 0 "t1" [] tt));
      reflexivity.
Defined.

Lemma connect_slot_two_first_witness :
  Workflow.node_in Sample.node_a (Workflow.nodes Sample.w_ab) = true
  /\ Workflow.node_in Sample.node_b (Workflow.nodes Sample.w_ab) = true
  /\ Workflow.connections Sample.w_ab = JDict []
  /\ dict_has (Node.name Sample.node_a) [] = false
  /\ exists st' d' o,
       Workflow.connect Sample.node_a Sample.node_b "main" "main" 2 0 "t1"
         (obj Sample.w_ab [] tt) = (Return tt, st')
       /\ Workflow.connections (Workflow.self st') = JDict d'
       /\ dict_get "A" d' = Some (JDict o)
       /\ dict_get "main" o
          = Some (JList [JList []; JList [];
                         JList [JDict [("node", JStr "B"); ("type", JStr "main");
                                       ("index", JInt 0)]]]).
Proof.
  split; [reflexivity|]. split; [reflexivity|]. split; [reflexivity|].
  split; [reflexivity|].
  apply (connect_slot_two_first unit Sample.w_ab [] Sample.node_a Sample.node_b
           "main" "main" 0 "t1" [] tt); reflexivity.
Defined.

(** C5, as stated, fails: connecting a node to a node of the same name
    (here to itself) in a workflow without connections returns; no entry
    for the target's name existed before the call, and the entry there
    afterwards is the source's entry with the new record, not
    [{"main": [[]]}]. *)
Lemma connect_same_name_target_not_seeded :
  let r := Workflow.connect Sample.node_a Sample.node_a "main" "main" 0 0 "t1"
             (obj Sample.w_ab [] tt) in
  Workflow.connections Sample.w_ab = JDict []
  /\ dict_has (Node.name Sample.node_a) [] = false
  /\ fst r = Return tt
  /\ Workflow.connections (Workflow.self (snd r))
     = JDict [("A", JDict [("main",
                JList [JList [connection_record Sample.node_a "main" 0]])])]
  /\ Workflow.connections (Workflow.self (snd r)) <> JDict [("A", placeholder)].
Proof.
  intros r. split; [reflexivity|]. split; [reflexivity|]. split; [reflexivity|].
  split; [reflexivity|]. discriminate.
Qed.

Lemma connect_target_always_has_entry_witness :
  let st := obj Sample.w_ab [] tt in
  let st' := snd (connect_all Sample.calls st) in
  connect_all Sample.calls st = (Return tt, st')
  /\ (forall c, In c Sample.calls ->
        exists d', Workflow.connections (Workflow.self st') = JDict d'
                   /\ dict_has (Node.name (call_to c)) d' = true)
  /\ exists d',
       Workflow.connections
         (Workflow.self
            (snd (Workflow.connect Sample.node_a Sample.node_b "main" "main"
                    0 0 "t1" st))) = JDict d'
       /\ dict_get "B" d' = Some (JDict [("main", JList [JList []])]).
Proof.
  intros st st'.
  assert (H : connect_all Sample.calls st = (Return tt, st'))
    by (vm_compute; reflexivity).
  split; [exact H|]. split.
  - exact (proj1 (connect_target_always_has_entry unit) Sample.calls st st' H).
  - apply (proj2 (connect_target_always_has_entry unit) st _ []
             Sample.node_a Sample.node_b "main" "main" 0 0 "t1");
      [reflexivity | reflexivity | reflexivity | discriminate].
Defined.

Lemma connect_membership_by_id_witness :
  let st := obj Sample.w_ab [] tt in
  In Sample.node_a (Workflow.nodes Sample.w_ab)
  /\ In Sample.node_b (Workflow.nodes Sample.w_ab)
  /\ py_eq (Node.id Sample.impostor) (Node.id Sample.node_a) = true
  /\ Node.name Sample.impostor <> Node.name Sample.node_a
  /\ (exists st' d' o slots i slot,
        Workflow.connect Sample.impostor Sample.node_b "main" "main" 0 0 "t1" st
        = (Return tt, st')
        /\ Workflow.connections (Workflow.self st') = JDict d'
        /\ dict_get "Impostor" d' = Some (JDict o)
        /\ dict_get "main" o = Some (JList slots)
        /\ Workflow.py_index (length slots) 0 = Some i
        /\ nth_error slots i
           = Some (JList (slot ++ [JDict [("node", JStr "B"); ("type", JStr "main");
                                          ("index", JInt 0)]])))
  /\ Node.name Sample.lookalike = Node.name Sample.node_a
  /\ Node.type Sample.lookalike = Node.type Sample.node_a
  /\ Workflow.node_in Sample.lookalike (Workflow.nodes Sample.w_ab) = false
  /\ exists m lg',
       Workflow.connect Sample.lookalike Sample.node_b "main" "main" 0 0 "t1" st
       = (Raise (Sdk WorkflowError m
                   (Some ErrorCodes.CONNECTION_SOURCE_NOT_FOUND)),
          obj Sample.w_ab lg' tt).
Proof.
  intros st.
  assert (Ha : In Sample.node_a (Workflow.nodes Sample.w_ab)) by (left; reflexivity).
  assert (Hb : In Sample.node_b (Workflow.nodes Sample.w_ab))
    by (right; left; reflexivity).
  split; [exact Ha|]. split; [exact Hb|]. split; [reflexivity|].
  split; [discriminate|].
  destruct (connect_membership_by_id unit Sample.w_ab Sample.node_a Sample.node_b
              Sample.impostor Sample.node_b "main" "main" 0 0 "t1" [] tt
              Ha Hb eq_refl eq_refl) as (_ & _ & _ & _ & Hrec & Hrun & Hout).
  split.
  - destruct (Hrun [] eq_refl eq_refl ltac:(lia)) as (st' & Hst).
    destruct (Hrec st' Hst) as (d' & o & slots & i & slot & H).
    exists st', d', o, slots, i, slot. split; [exact Hst|exact H].
  - split; [reflexivity|]. split; [reflexivity|]. split; [reflexivity|].
    apply (Hout Sample.lookalike).
    intros M [<-|[<-|[]]]; reflexivity.
Defined.

(** ** Export *)

Section ExportFacts.
Context {P : Platform}.

Ltac unfold_export :=
  unfold Workflow.export, Workflow.update, Workflow.log_, try_except, bind,
    gets, modify, raise, ret, lift_outcome;
  cbn [Workflow.self Workflow.logs Workflow.disk].

Lemma export_self (file_path : string) (pretty validate_ : bool) (now : string)
    (st st' : Workflow.Obj FileSystem) (r : outcome unit) :
  Workflow.export file_path pretty validate_ now st = (r, st') ->
  Workflow.self st' = Workflow.self st
  \/ Workflow.self st' = Workflow.with_updated_at (JStr now) (Workflow.self st).
Proof.
  unfold_export.
  repeat
    (match goal with
     | |- context [makedirs ?a ?b] => destruct (makedirs a b)
     | |- context [Workflow.validate ?w] =>
         destruct (Workflow.validate w) as [[|? ?]|[? ? ?|?|[]]]
     | |- context [Workflow.to_dict ?w] =>
         destruct (Workflow.to_dict w) as [?|[? ? ?|?|[]]]
     | |- context [write_text ?a ?b ?c] => destruct (write_text a b c)
     | |- context [write_failure ?a ?b ?c] =>
         destruct (write_failure a b c) as [[| |?] ?]
     | |- context [negb ?b] => destruct b
     | |- context [if ?b then _ else _] => is_var b; destruct b
     end; cbn [Workflow.self Workflow.logs Workflow.disk negb]);
    intros [= _ <-]; auto.
Qed.

(** C1, amended.  With the validate flag set, when [validate()] returns a
    non-empty list [export] fails and writes no file: the workflow is
    unchanged and the file system is either untouched or the result of the
    directory creation, which runs before validation and has taken place
    whenever the destination has a directory part that could be created. *)
Theorem export_rejects_invalid_before_writing (w : Workflow.t)
    (file_path : string) (pretty : bool) (now : string) (lg : Log)
    (fs : FileSystem) (problems : list msg) :
  Workflow.validate w = Return problems -> problems <> [] ->
  exists e st',
    Workflow.export file_path pretty true now
      {| Workflow.self := w; Workflow.logs := lg; Workflow.disk := fs |}
    = (Raise e, st')
    /\ Workflow.self st' = w
    /\ (Workflow.disk st' = fs
        \/ makedirs (dirname (abspath file_path)) fs = Some (Workflow.disk st'))
    /\ (forall fs1, dirname (abspath file_path) <> "" ->
          makedirs (dirname (abspath file_path)) fs = Some fs1 ->
          Workflow.disk st' = fs1).
Proof.
  intros Hv Hne. destruct problems as [|m ms]; [contradiction|].
  unfold_export.
  destruct (String.eqb_spec (dirname (abspath file_path)) "") as [He|He];
    cbn [negb].
  - rewrite Hv. cbn. eexists; eexists. split; [reflexivity|].
    cbn. split; [reflexivity|]. split; [auto|]. intros fs1 Hc. contradiction.
  - destruct (makedirs _ fs) as [fs1|] eqn:Em.
    + cbn. rewrite Em. cbn. rewrite Hv. cbn. eexists; eexists.
      split; [reflexivity|].
      cbn. split; [reflexivity|]. split; [auto|]. intros fs2 _ [= <-]. reflexivity.
    + cbn. rewrite Em. cbn. eexists; eexists. split; [reflexivity|].
      cbn. split; [reflexivity|]. split; [auto|]. intros fs2 _ [=].
Qed.


End ExportFacts.

(** C1, as stated, fails: exporting a workflow without nodes to a path
    whose directory does not exist yet finds one problem, fails with the
    generic export error (no code) that wraps the validation error, and
    has by then created the directory. *)
Lemma export_creates_directory_before_validating :
  let st := obj Sample.w_empty [] Demo.empty_fs in
  let r := @Workflow.export Demo.platform "/tmp/out/wf.json" true true "t1" st in
  @Workflow.validate Demo.platform Sample.w_empty
  = Return [[Lit "Workflow must contain at least one node"]]
  /\ (exists m, fst r = Raise (Sdk ExportError m None))
  /\ (forall m code, fst r <> Raise (Sdk ValidationError m code))
  /\ Workflow.disk (snd r)
     = {| Demo.dirs := ["/"; "/tmp/out"]; Demo.files := [] |}
  /\ Workflow.disk (snd r) <> Demo.empty_fs.
Proof.
  intros st r. split; [reflexivity|]. split; [eexists; reflexivity|].
  split; [intros m code; discriminate|]. split; [reflexivity|discriminate].
Qed.

Lemma export_rejects_invalid_before_writing_witness :
  let problems := [[Lit "Workflow must contain at least one node"]] in
  @Workflow.validate Demo.platform Sample.w_empty = Return problems
  /\ problems <> []
  /\ exists e st',
       @Workflow.export Demo.platform "/tmp/out/wf.json" true true "t1"
         (obj Sample.w_empty [] Demo.empty_fs) = (Raise e, st')
       /\ Workflow.self st' = Sample.w_empty
       /\ Demo.files (Workflow.disk st') = [].
Proof.
  intros problems.
  assert (Hv : @Workflow.validate Demo.platform Sample.w_empty = Return problems)
    by reflexivity.
  assert (Hne : problems <> []) by discriminate.
  split; [exact Hv|]. split; [exact Hne|].
  destruct (@export_rejects_invalid_before_writing Demo.platform Sample.w_empty
              "/tmp/out/wf.json" true "t1" [] Demo.empty_fs problems Hv Hne)
    as (e & st' & Hrun & Hself & _ & Hdir).
  exists e, st'. split; [exact Hrun|]. split; [exact Hself|].
  rewrite (Hdir {| Demo.dirs := ["/"; "/tmp/out"]; Demo.files := [] |});
    [reflexivity | discriminate | reflexivity].
Defined.

(** ** Round trip through a document *)

Lemma api_node_ok n : api_node n -> node_ok n.
Proof.
  intros [node_type name node_id type_version parameters position credentials
            uuid log log' n0 H].
  revert H. unfold Node.__init__, bind, lift_outcome, ret, raise, logger, modify.
  destruct (required_text (JStr node_type)) as [[ty|]|] eqn:Et; try discriminate.
  destruct (required_text (JStr name)) as [[nm|]|] eqn:En; try discriminate.
  intros [= <- _]. constructor; cbn [Node.id Node.name Node.type Node.position
                                      Node.parameters Node.credentials].
  - apply fresh_id_ok.
  - apply (required_text_some _ _ En).
  - apply (required_text_some _ _ Et).
  - destruct position as [[|x l]|]; cbn; eauto.
  - symmetry. apply py_or_idem.
  - symmetry. apply py_or_idem.
Qed.

(** The document of a well-constructed node reads back as the node. *)
Lemma node_round_trip n (uuid : N) (log : Log) :
  node_ok n ->
  exists j ev,
    Node.to_dict n = Return j
    /\ Node.from_dict j uuid log = (Return n, log ++ [ev]).
Proof.
  intros [(s & Hid & Hs) (Hn & Hns) (Ht & Hts) (x & l & Hp) Hpa Hc].
  destruct n as [id type name type_version parameters position credentials].
  cbn [Node.id Node.name Node.type Node.position Node.parameters
       Node.credentials] in *.
  subst id position.
  assert (Rt : required_text (JStr type) = Return (Some type)).
  { rewrite <- Hts at 2. apply required_text_ok. rewrite Hts. exact Ht. }
  assert (Rn : required_text (JStr name) = Return (Some name)).
  { rewrite <- Hns at 2. apply required_text_ok. rewrite Hns. exact Hn. }
  unfold Node.to_dict.
  cbn [Node.id Node.name Node.type Node.position Node.parameters
       Node.credentials Node.type_version py_iter obind].
  assert (Hid : truthy (JStr s) = true).
  { cbn. rewrite (eqb_empty_false _ Hs). reflexivity. }
  destruct (truthy credentials) eqn:Ec; eexists; eexists; (split; [reflexivity|]);
    unfold Node.from_dict, Node.__init__, bind, lift_outcome, ret, logger, modify;
    cbn [dict_set dict_get_default dict_get String.eqb Ascii.eqb Bool.eqb];
    rewrite Rt, Rn, Hid, <- Hpa.
  - unfold py_or at 2. rewrite Ec. reflexivity.
  - unfold py_or in Hc. rewrite Ec in Hc. rewrite Hc. reflexivity.
Qed.

Lemma nodes_round_trip (node_uuid : nat -> N) ns :
  Forall node_ok ns ->
  exists js,
    Workflow.nodes_to_dict ns = Return js
    /\ forall i acc log, exists log',
         Workflow.import_nodes i node_uuid js acc log = (Return (acc ++ ns), log').
Proof.
  induction 1 as [|n ns Hn _ (js & Hjs & IH)].
  - exists []. split; [reflexivity|]. intros i acc log. exists log.
    cbn. rewrite app_nil_r. reflexivity.
  - destruct (node_round_trip n 0 [] Hn) as (j & _ & Hj & _).
    exists (j :: js). split.
    + cbn. rewrite Hj. cbn. rewrite Hjs. reflexivity.
    + intros i acc log.
      destruct (node_round_trip n (node_uuid i) log Hn) as (j' & ev & Hj' & Hfrom).
      rewrite Hj in Hj'. injection Hj' as <-.
      destruct (IH (S i) (acc ++ [n]) (log ++ [ev])) as (log' & Himp).
      exists log'. cbn. unfold bind. rewrite Hfrom.
      rewrite Himp, <- app_assoc. reflexivity.
Qed.

(** The document of a well-constructed workflow reads back as the
    workflow. *)
Lemma workflow_round_trip w :
  workflow_ok w ->
  exists doc,
    Workflow.to_dict w = Return doc
    /\ dict_get "createdAt" (match doc with JDict d => d | _ => [] end)
       = Some (Workflow.created_at w)
    /\ dict_get "updatedAt" (match doc with JDict d => d | _ => [] end)
       = Some (Workflow.updated_at w)
    /\ forall uuid node_uuid now log, exists log',
         Workflow.from_dict doc uuid node_uuid now log = (Return w, log').
Proof.
  intros [(s & Hid & Hs) (Hn & Hns) Hnodes].
  destruct (nodes_round_trip (fun _ => 0%N) _ Hnodes) as (js & Hjs & _).
  unfold Workflow.to_dict. rewrite Hjs. cbn [obind].
  eexists. split; [reflexivity|]. split; [reflexivity|]. split; [reflexivity|].
  intros uuid node_uuid now log.
  destruct (nodes_round_trip node_uuid _ Hnodes) as (js' & Hjs' & Himp).
  rewrite Hjs in Hjs'. injection Hjs' as <-.
  assert (Rn : required_text (JStr (Workflow.name w)) = Return (Some (Workflow.name w))).
  { rewrite <- Hns at 2. apply required_text_ok. rewrite Hns. exact Hn. }
  unfold Workflow.from_dict, Workflow.__init__, bind, lift_outcome, ret, logger, modify.
  cbn [dict_get_default dict_get String.eqb Ascii.eqb Bool.eqb].
  rewrite Rn, Hid.
  cbn [truthy]. rewrite (eqb_empty_false _ Hs). cbn [negb py_iter Workflow.nodes].
  match goal with
  | |- context [Workflow.import_nodes 0 node_uuid js [] ?lg] =>
      destruct (Himp 0%nat [] lg) as (log' & ->)
  end.
  exists log'. cbn [app Workflow.id Workflow.name Workflow.created_at
                    Workflow.updated_at].
  rewrite <- Hid. destruct w; reflexivity.
Qed.

Lemma workflow_ok_frame w w' :
  Workflow.id w' = Workflow.id w -> Workflow.name w' = Workflow.name w ->
  Workflow.nodes w' = Workflow.nodes w -> workflow_ok w -> workflow_ok w'.
Proof. intros Hi Hn Hns [A B C]. constructor; rewrite ?Hi, ?Hn, ?Hns; assumption. Qed.


Section RoundTrip.
Context {P : Platform}.

Lemma api_workflow_ok w : api_workflow w -> workflow_ok w.
Proof.
  induction 1 as [name workflow_id uuid now log log' w H
                 | w node now lg fs r st' _ IH Hn H
                 | w f t ot it oi ii now lg fs r st' _ IH H
                 | w path pretty v now lg fs r st' _ IH H
                 | w active settings tags _ IH].
  - revert H. unfold Workflow.__init__, bind, lift_outcome, ret, raise, logger, modify.
    destruct (required_text (JStr name)) as [[nm|]|] eqn:En; try discriminate.
    intros [= <- _]. constructor; cbn [Workflow.id Workflow.name Workflow.nodes].
    + apply fresh_id_ok.
    + apply (required_text_some _ _ En).
    + constructor.
  - destruct (add_node_self _ _ _ _ _ _ H) as [-> | ->]; [exact IH|].
    destruct IH as [A B C]. constructor; cbn; try assumption.
    apply Forall_app. split; [exact C|]. constructor; [|constructor].
    apply api_node_ok. exact Hn.
  - destruct (connect_frame _ _ _ _ _ _ _ _ _ _ _ H) as (Hi & Hn & Hns).
    apply (workflow_ok_frame w); assumption.
  - destruct (export_self _ _ _ _ _ _ _ H) as [-> | ->]; [exact IH|].
    apply (workflow_ok_frame w); [reflexivity..|exact IH].
  - apply (workflow_ok_frame w); [reflexivity..|exact IH].
Qed.

(** C3.  For every workflow [w] built through the constructors, the
    methods and assignments of the declared types, [w.to_dict()] returns a
    document that holds both timestamps, and [Workflow.from_dict] of that
    document returns a workflow with the same name, active flag, settings,
    tags, number of nodes, node ids, names, types, positions and
    parameters, the same connections mapping and the same timestamps. *)
Theorem serialize_deserialize_round_trip (w : Workflow.t) :
  api_workflow w ->
  exists doc,
    Workflow.to_dict w = Return (JDict doc)
    /\ dict_get "createdAt" doc = Some (Workflow.created_at w)
    /\ dict_get "updatedAt" doc = Some (Workflow.updated_at w)
    /\ forall (uuid : N) (node_uuid : nat -> N) (now : string) (log : Log),
       exists w' log',
         Workflow.from_dict (JDict doc) uuid node_uuid now log = (Return w', log')
         /\ Workflow.name w' = Workflow.name w
         /\ Workflow.active w' = Workflow.active w
         /\ Workflow.settings w' = Workflow.settings w
         /\ Workflow.tags w' = Workflow.tags w
         /\ length (Workflow.nodes w') = length (Workflow.nodes w)
         /\ map Node.id (Workflow.nodes w') = map Node.id (Workflow.nodes w)
         /\ map Node.name (Workflow.nodes w') = map Node.name (Workflow.nodes w)
         /\ map Node.type (Workflow.nodes w') = map Node.type (Workflow.nodes w)
         /\ map Node.position (Workflow.nodes w')
            = map Node.position (Workflow.nodes w)
         /\ map Node.parameters (Workflow.nodes w')
            = map Node.parameters (Workflow.nodes w)
         /\ Workflow.connections w' = Workflow.connections w
         /\ Workflow.created_at w' = Workflow.created_at w
         /\ Workflow.updated_at w' = Workflow.updated_at w.
Proof.
  intros H. destruct (workflow_round_trip w (api_workflow_ok w H))
    as (doc & Hto & Hc & Hu & Hfrom).
  destruct doc as [| | | | | |d];
    try (unfold Workflow.to_dict in Hto;
         destruct (Workflow.nodes_to_dict _); discriminate).
  exists d. split; [exact Hto|]. split; [exact Hc|]. split; [exact Hu|].
  intros uuid node_uuid now log.
  destruct (Hfrom uuid node_uuid now log) as (log' & Hf).
  exists w, log'. split; [exact Hf|]. repeat split.
Qed.


End RoundTrip.

(** The constructors of [api_node] and [api_workflow], by running the
    code. *)
Lemma api_node_run (node_type name : string) (node_id : option string)
    (type_version : json) (parameters : option dict)
    (position : option (list json)) (credentials : option dict)
    (uuid : N) (log : Log) (n : Node.t) :
  fst (Node.__init__ (JStr node_type) (JStr name) (opt_str node_id) type_version
         (opt_dict parameters) (opt_list position) (opt_dict credentials)
         uuid log) = Return n ->
  api_node n.
Proof.
  destruct (Node.__init__ _ _ _ _ _ _ _ _ _) as [r log'] eqn:E.
  cbn [fst]. intros ->.
  exact (@api_node_init node_type name node_id type_version parameters position
           credentials uuid log log' n E).
Defined.

Section Runs.
Context {P : Platform}.

Lemma api_init_run (name : string) (workflow_id : option string) (uuid : N)
    (now : string) (log : Log) (w : Workflow.t) :
  fst (Workflow.__init__ (JStr name) (opt_str workflow_id) uuid now log)
  = Return w ->
  api_workflow w.
Proof.
  destruct (Workflow.__init__ _ _ _ _ _) as [r log'] eqn:E.
  cbn [fst]. intros ->.
  exact (@api_init P name workflow_id uuid now log log' w E).
Defined.

Lemma api_add_node_run (w : Workflow.t) (node : Node.t) (now : string)
    (lg : Log) (fs : FileSystem) :
  api_workflow w -> api_node node ->
  api_workflow
    (Workflow.self (snd (Workflow.add_node (Node.ONode node) now (obj w lg fs)))).
Proof.
  intros Hw Hn.
  destruct (Workflow.add_node _ _ _) as [r st'] eqn:E.
  exact (@api_add_node P w node now lg fs r st' Hw Hn E).
Defined.

Lemma api_connect_run (w : Workflow.t) (from_node to_node : Node.t)
    (output_type input_type : string) (output_index input_index : Z)
    (now : string) (lg : Log) (fs : FileSystem) :
  api_workflow w ->
  api_workflow
    (Workflow.self
       (snd (Workflow.connect from_node to_node output_type input_type
               output_index input_index now (obj w lg fs)))).
Proof.
  intros Hw.
  destruct (Workflow.connect _ _ _ _ _ _ _ _) as [r st'] eqn:E.
  exact (@api_connect P w from_node to_node output_type input_type output_index
           input_index now lg fs r st' Hw E).
Defined.
End Runs.

Lemma sample_pipeline_built : @api_workflow Demo.platform Sample.pipeline.
Proof.
  assert (Hs : api_node Sample.start).
  { apply (api_node_run " trigger" "Start" (Some "n1") (JInt 1) None None None
             0%N []). reflexivity. }
  assert (Hf : api_node Sample.fetch).
  { apply (api_node_run "http" "Fetch " (Some "n2") (JFloat 21 (-2))
             (Some [("url", JStr "https://example.org")])
             (Some [JInt 200; JInt 0]) None 0%N []). reflexivity. }
  pose proof (@api_init_run Demo.platform "Pipeline" None 5%N "t0" [] _ eq_refl)
    as Hw.
  pose proof (@api_add_node_run Demo.platform _ Sample.start "t1" []
                Demo.empty_fs Hw Hs) as H1.
  pose proof (@api_add_node_run Demo.platform _ Sample.fetch "t2" []
                Demo.empty_fs H1 Hf) as H2.
  pose proof (@api_connect_run Demo.platform _ Sample.start Sample.fetch "main"
                "main" 0 0 "t3" [] Demo.empty_fs H2) as H3.
  exact H3.
Defined.

Lemma serialize_deserialize_round_trip_witness :
  @api_workflow Demo.platform Sample.pipeline
  /\ exists doc w' log',
       Workflow.to_dict Sample.pipeline = Return (JDict doc)
       /\ Workflow.from_dict (JDict doc) 9 (fun _ => 9%N) "t9" []
          = (Return w', log')
       /\ Workflow.name w' = "Pipeline"
       /\ map Node.id (Workflow.nodes w') = [JStr "n1"; JStr "n2"]
       /\ map Node.parameters (Workflow.nodes w')
          = [JDict []; JDict [("url", JStr "https://example.org")]]
       /\ Workflow.connections w' = Workflow.connections Sample.pipeline
       /\ Workflow.created_at w' = JStr "t0".
Proof.
  split; [exact sample_pipeline_built|].
  destruct (@serialize_deserialize_round_trip Demo.platform Sample.pipeline
              sample_pipeline_built)
    as (doc & Hto & _ & _ & Hfrom).
  destruct (Hfrom 9%N (fun _ => 9%N) "t9" [])
    as (w' & log' & Hf & H1 & _ & _ & _ & _ & H2 & _ & _ & _ & H3 & H4 & H5 & _).
  exists doc, w', log'. repeat split; assumption.
Defined.

(** ** The document checker *)

Lemma check_conn_dangling names conn target :
  dict_get "node" conn = Some (JStr target) ->
  ~ In (JStr target) names ->
  exists e, json_parser.check_conn names (JDict conn) = Raise e.
Proof.
  intros Hn Hnot. unfold json_parser.check_conn, json_parser.in_node_names.
  rewrite Hn. cbn [hashable obind].
  destruct (existsb (py_eq (JStr target)) names) eqn:E.
  - apply existsb_py_eq_str in E. contradiction.
  - cbn. eauto.
Qed.

Lemma check_source_dangling names source cd groups group conn target :
  dict_get "main" cd = Some (JList groups) ->
  In (JList group) groups -> In (JDict conn) group ->
  dict_get "node" conn = Some (JStr target) ->
  ~ In (JStr target) names ->
  exists e, json_parser.check_source names (source, JDict cd) = Raise e.
Proof.
  intros Hm Hg Hc Hn Hnot. unfold json_parser.check_source.
  destruct (negb _); [eauto|]. rewrite Hm.
  apply (ofor_each_raises _ _ (JList group) Hg).
  cbn [json_parser.check_group].
  apply (ofor_each_raises _ _ (JDict conn) Hc).
  apply (check_conn_dangling _ _ _ Hn Hnot).
Qed.

(** C8, amended.  The checker fails on every value that lacks the
    [connections] key, and on every document in which some source's
    ["main"] list holds a list-valued slot with a record whose [node]
    field is a string that is the name of no node of the document. *)
Theorem checker_rejects_missing_connections_and_dangling_main_targets
    (data : json) :
  ((forall d, data = JDict d -> dict_has "connections" d = false) ->
   exists e, json_parser.validate_workflow_structure data = Raise e)
  /\ (forall d conns source cd groups group conn target,
        data = JDict d ->
        dict_get "connections" d = Some (JDict conns) ->
        In (source, JDict cd) conns ->
        dict_get "main" cd = Some (JList groups) ->
        In (JList group) groups ->
        In (JDict conn) group ->
        dict_get "node" conn = Some (JStr target) ->
        ~ In (JStr target) (doc_node_names d) ->
        exists e, json_parser.validate_workflow_structure data = Raise e).
Proof.
  split.
  - intros H. destruct data; cbn; eauto.
    specialize (H d eq_refl). unfold json_parser.missing. cbn [filter].
    rewrite H. cbn [negb]. destruct (negb (dict_has "nodes" d)); eauto.
  - intros d conns source cd groups group conn target -> Hc Hs Hm Hg Hcn Hn Hnot.
    unfold json_parser.validate_workflow_structure, json_parser.missing.
    cbn [filter].
    destruct (dict_has "nodes" d) eqn:Hnodes; cbn [negb]; [|destruct (negb _); eauto].
    destruct (negb (dict_has "connections" d)); [eauto|].
    assert (Hitem : json_parser.item "connections" d = JDict conns).
    { unfold json_parser.item, dict_get_default. rewrite Hc. reflexivity. }
    unfold doc_node_names in Hnot. unfold dict_has in Hnodes.
    unfold json_parser.item at 1. unfold dict_get_default.
    destruct (dict_get "nodes" d) as [[| | | | |nodes|]|]; try discriminate; eauto.
    destruct nodes as [|n ns]; [eauto|].
    destruct (ofor_each _ _) as [[]|e]; cbn [obind]; [|eauto].
    rewrite Hitem.
    destruct (ofor_each_raises (json_parser.check_source
                                  (map json_parser.node_name_of (n :: ns)))
                conns (source, JDict cd) Hs) as (e & He).
    { apply (check_source_dangling _ _ _ _ _ _ _ Hm Hg Hcn Hn Hnot). }
    rewrite He. cbn. eauto.
Qed.


(** C8, as stated, fails: a record under another output port than
    ["main"] may name a node that does not exist, and the checker
    returns [True]. *)
Lemma checker_accepts_dangling_target_off_main :
  json_parser.validate_workflow_structure (JDict (Sample.doc_ghost "ai_tool"))
  = Return true
  /\ dict_get "node" Sample.ghost_record = Some (JStr "Ghost")
  /\ ~ In (JStr "Ghost") (doc_node_names (Sample.doc_ghost "ai_tool")).
Proof.
  split; [reflexivity|]. split; [reflexivity|].
  cbn. intros [H|[]]. discriminate H.
Qed.

Lemma checker_rejects_missing_connections_and_dangling_main_targets_witness :
  (dict_has "connections" [("nodes", JList [Sample.node_doc "1" "A"])] = false
   /\ exists e,
        json_parser.validate_workflow_structure
          (JDict [("nodes", JList [Sample.node_doc "1" "A"])]) = Raise e)
  /\ (~ In (JStr "Ghost") (doc_node_names (Sample.doc_ghost "main"))
      /\ exists e,
           json_parser.validate_workflow_structure
             (JDict (Sample.doc_ghost "main")) = Raise e).
Proof.
  assert (Hg : ~ In (JStr "Ghost") (doc_node_names (Sample.doc_ghost "main"))).
  { cbn. intros [H|[]]. discriminate H. }
  split.
  - split; [reflexivity|].
    apply (proj1 (checker_rejects_missing_connections_and_dangling_main_targets
                    (JDict [("nodes", JList [Sample.node_doc "1" "A"])]))).
    intros d [= <-]. reflexivity.
  - split; [exact Hg|].
    apply (proj2 (checker_rejects_missing_connections_and_dangling_main_targets
                    (JDict (Sample.doc_ghost "main")))
             (Sample.doc_ghost "main")
             [("A", JDict [("main", JList [JList [JDict Sample.ghost_record]])])]
             "A" [("main", JList [JList [JDict Sample.ghost_record]])]
             [JList [JDict Sample.ghost_record]] [JDict Sample.ghost_record]
             Sample.ghost_record "Ghost");
      try reflexivity; try (left; reflexivity). exact Hg.
Defined.

(** * Further properties *)

(** ** Node.validate *)

Section NodeValidate.
Context {P : Platform}.

Lemma float_raises (x : json) (e : exn) :
  Node.float_ x = Raise e ->
  (e = Builtin OverflowError /\ overflows x = true)
  \/ ((e = Builtin TypeError \/ exists m, e = ValueError m) /\ overflows x = false).
Proof.
  destruct x; unfold Node.float_, overflows; try discriminate;
    try (intros [= <-]; right; split; [left; reflexivity|reflexivity]).
  - destruct (Z.ltb_spec (Z.abs z) (2 ^ 1024 - 2 ^ 970)); [discriminate|].
    intros [= <-]. left. split; [reflexivity|]. apply Z.leb_le. assumption.
  - destruct (float_parses s); [discriminate|]. intros [= <-].
    right. split; [right; eauto|reflexivity].
Qed.

Lemma float_returns (x : json) : Node.float_ x = Return tt -> overflows x = false.
Proof.
  destruct x; unfold Node.float_, overflows; try reflexivity; try discriminate.
  destruct (Z.ltb_spec (Z.abs z) (2 ^ 1024 - 2 ^ 970)); [|discriminate].
  intros _. apply Z.leb_gt. assumption.
Qed.

Lemma node_validate_empty_iff (n : Node.t) :
  Node.validate n = Return [] <-> well_formed n = true.
Proof.
  unfold Node.validate, well_formed, floatable.
  change (is_dict (Node.parameters n)) with (Node.is_dict (Node.parameters n)).
  change (is_dict (Node.credentials n)) with (Node.is_dict (Node.credentials n)).
  destruct (truthy (Node.id n)), (String.eqb (Node.name n) ""),
    (String.eqb (Node.type n) ""), (Node.is_number (Node.type_version n)),
    (Node.is_dict (Node.parameters n)), (Node.is_dict (Node.credentials n));
    cbn [negb andb app];
    (destruct (Node.position n) as [| | | | |[|a [|b [|c r]]]|]; cbn;
     try (split; discriminate);
     destruct (Node.float_ a) as [[]|ea] eqn:Ea; cbn;
     [ destruct (Node.float_ b) as [[]|eb] eqn:Eb; cbn;
       [ try (split; [reflexivity|reflexivity]); try (split; discriminate)
       | destruct (float_raises _ _ Eb) as [[-> _]|[[->|[m ->]] _]];
         split; discriminate ]
     | destruct (float_raises _ _ Ea) as [[-> _]|[[->|[m ->]] _]];
       split; discriminate ]).
Qed.

(** X1. For every node, Node.validate returns the empty list exactly when every
    condition it tests holds together: the id is truthy, name and type are
    non-empty, the position is a list of two values that float() accepts, the
    version is a number, and parameters and credentials are dicts. Node.is_valid
    returns True under exactly the same condition. *)
Theorem node_validate_empty_iff_well_formed (n : Node.t) :
  (Node.validate n = Return [] <-> well_formed n = true)
  /\ (Node.is_valid n = Return true <-> well_formed n = true).
Proof.
  split; [exact (node_validate_empty_iff n)|].
  rewrite <- (node_validate_empty_iff n). unfold Node.is_valid.
  destruct (Node.validate n) as [[|e r]|e]; cbn [obind];
    split; intros H; try discriminate H; reflexivity.
Qed.

(** X2. Node.validate lets one exception through and no other: whenever it
    raises, the exception is OverflowError, the position is a list of two
    values, and either the first coordinate is an int too large for a double, or
    float() accepts the first and the second is such an int. TypeError and
    ValueError from float() are always turned into an error message. *)
Theorem node_validate_raises_only_on_overflow (n : Node.t) (e : exn) :
  Node.validate n = Raise e ->
  e = Builtin OverflowError
  /\ exists a b, Node.position n = JList [a; b]
                 /\ (overflows a = true
                     \/ (floatable a = true /\ overflows b = true)).
Proof.
  unfold Node.validate, floatable.
  destruct (Node.position n) as [| | | | |[|a [|b [|c r]]]|] eqn:Hp; cbn;
    try discriminate.
  destruct (Node.float_ a) as [[]|ea] eqn:Ea; cbn.
  - destruct (Node.float_ b) as [[]|eb] eqn:Eb; cbn; [discriminate|].
    destruct (float_raises _ _ Eb) as [[-> Hb]|[[->|[m ->]] _]];
      cbn; try discriminate.
    intros [= <-]. split; [reflexivity|]. exists a, b.
    split; [reflexivity|]. right. split; [rewrite Ea; reflexivity|exact Hb].
  - destruct (float_raises _ _ Ea) as [[-> Ha]|[[->|[m ->]] _]];
      cbn; try discriminate.
    intros [= <-]. split; [reflexivity|]. exists a, b.
    split; [reflexivity|]. left. exact Ha.
Qed.

End NodeValidate.

(** A run that returns, as an equation with its final state. *)
Lemma run_eq {S A : Type} (m : M S A) (s : S) (a : A) :
  fst (m s) = Return a -> m s = (Return a, snd (m s)).
Proof. destruct (m s) as [r s']. cbn. intros ->. reflexivity. Defined.

(** ** Node construction and its document *)

Lemma node_init_post
    (node_type name node_id type_version parameters position credentials : json)
    (uuid : N) (log log' : Log) (n : Node.t) :
  Node.__init__ node_type name node_id type_version parameters position
                credentials uuid log = (Return n, log') ->
  truthy (Node.id n) = true
  /\ (Node.name n <> "" /\ strip (Node.name n) = Node.name n)
  /\ (Node.type n <> "" /\ strip (Node.type n) = Node.type n)
  /\ Node.type_version n = type_version
  /\ truthy (Node.position n) = true
  /\ Node.parameters n = py_or (Node.parameters n) (JDict [])
  /\ Node.credentials n = py_or (Node.credentials n) (JDict [])
  /\ exists m, log' = log ++ [(DEBUG, m)].
Proof.
  unfold Node.__init__, bind, lift_outcome, ret, raise, logger, modify.
  destruct (required_text node_type) as [[ty|]|] eqn:Et; try discriminate.
  destruct (required_text name) as [[nm|]|] eqn:En; try discriminate.
  intros [= <- <-].
  cbn [Node.id Node.name Node.type Node.type_version Node.position
       Node.parameters Node.credentials].
  split.
  { destruct (truthy node_id) eqn:E; [exact E|].
    cbn [truthy]. rewrite (eqb_empty_false _ (uuid_str_nonempty uuid)).
    reflexivity. }
  split; [apply (required_text_some _ _ En)|].
  split; [apply (required_text_some _ _ Et)|].
  split; [reflexivity|].
  split.
  { unfold py_or. destruct (truthy position) eqn:E; [exact E|reflexivity]. }
  split; [symmetry; apply py_or_idem|].
  split; [symmetry; apply py_or_idem|].
  eexists. reflexivity.
Qed.

(** X3. Whatever the arguments, when Node.__init__ returns a node: the type and
    name arguments are strings, and the node's type and name are those strings
    stripped, both non-empty; its id is the node_id argument when that is truthy
    and a fresh uuid otherwise, so always truthy; its version is the argument as
    given; its parameters and its credentials are the arguments, or an empty
    dict when the argument was falsy; its position is the argument, or [0, 0]
    when the argument was falsy, so always truthy; and the log has gained
    exactly one DEBUG event. *)
Theorem node_init_postconditions
    (node_type name node_id type_version parameters position credentials : json)
    (uuid : N) (log log' : Log) (n : Node.t) :
  Node.__init__ node_type name node_id type_version parameters position
                credentials uuid log = (Return n, log') ->
  (exists ty nm,
     node_type = JStr ty /\ name = JStr nm
     /\ Node.type n = strip ty /\ Node.name n = strip nm)
  /\ Node.id n = (if truthy node_id then node_id else JStr (uuid_str uuid))
  /\ Node.type_version n = type_version
  /\ Node.parameters n = py_or parameters (JDict [])
  /\ Node.position n = py_or position (JList [JInt 0; JInt 0])
  /\ Node.credentials n = py_or credentials (JDict [])
  /\ truthy (Node.id n) = true
  /\ (Node.name n <> "" /\ strip (Node.name n) = Node.name n)
  /\ (Node.type n <> "" /\ strip (Node.type n) = Node.type n)
  /\ truthy (Node.position n) = true
  /\ exists m, log' = log ++ [(DEBUG, m)].
Proof.
  intros H.
  destruct (node_init_post _ _ _ _ _ _ _ _ _ _ _ H)
    as (Hid & Hn & Ht & _ & Hp & _ & _ & Hlog).
  revert H. unfold Node.__init__, bind, lift_outcome, ret, raise, logger, modify.
  destruct (required_text node_type) as [[ty|]|] eqn:Et; try discriminate.
  destruct (required_text name) as [[nm|]|] eqn:En; try discriminate.
  intros [= <- _].
  cbn [Node.id Node.name Node.type Node.type_version Node.position
       Node.parameters Node.credentials] in *.
  assert (Text : forall x s, required_text x = Return (Some s) ->
                             exists t, x = JStr t /\ s = strip t).
  { intros x s. unfold required_text. destruct (negb (truthy x)); [discriminate|].
    destruct x; try discriminate.
    destruct (String.eqb (strip s0) ""); [discriminate|].
    intros [= <-]. eexists. split; reflexivity. }
  destruct (Text _ _ Et) as (ty0 & -> & ->).
  destruct (Text _ _ En) as (nm0 & -> & ->).
  split; [exists ty0, nm0; repeat split|].
  do 5 (split; [reflexivity|]).
  split; [exact Hid|]. split; [exact Hn|]. split; [exact Ht|].
  split; [exact Hp|exact Hlog].
Qed.

Lemma node_init_postconditions_witness :
  let n := {| Node.id := JStr "00000000-0000-0000-0000-000000000003";
              Node.type := "t"; Node.name := "N"; Node.type_version := JInt 1;
              Node.parameters := JDict [];
              Node.position := JList [JInt 0; JInt 0];
              Node.credentials := JDict [("api", JStr "k")] |} in
  fst (Node.__init__ (JStr " t ") (JStr "N") (JStr "") (JInt 1) JNull (JList [])
         (JDict [("api", JStr "k")]) 3 []) = Return n
  /\ Node.parameters n = py_or JNull (JDict [])
  /\ Node.credentials n = py_or (JDict [("api", JStr "k")]) (JDict [])
  /\ Node.position n = py_or (JList []) (JList [JInt 0; JInt 0])
  /\ truthy (Node.id n) = true.
Proof.
  intros n.
  assert (H : fst (Node.__init__ (JStr " t ") (JStr "N") (JStr "") (JInt 1) JNull
                     (JList []) (JDict [("api", JStr "k")]) 3 []) = Return n)
    by reflexivity.
  split; [exact H|].
  pose proof (node_init_postconditions (JStr " t ") (JStr "N") (JStr "") (JInt 1)
                JNull (JList []) (JDict [("api", JStr "k")]) 3%N [] _ n
                (run_eq _ _ _ H))
    as (_ & _ & _ & Hpa & Hpos & Hc & Hid & _).
  split; [exact Hpa|]. split; [exact Hc|]. split; [exact Hpos|exact Hid].
Defined.

(** The document of a node whose fields are as the constructor leaves
    them, and whose position is a list, reads back as the node. *)
Lemma node_round_trip_general (n : Node.t) (l : list json) (uuid : N) (log : Log) :
  truthy (Node.id n) = true ->
  Node.name n <> "" -> strip (Node.name n) = Node.name n ->
  Node.type n <> "" -> strip (Node.type n) = Node.type n ->
  Node.position n = JList l -> truthy (Node.position n) = true ->
  Node.parameters n = py_or (Node.parameters n) (JDict []) ->
  Node.credentials n = py_or (Node.credentials n) (JDict []) ->
  exists j ev,
    Node.to_dict n = Return j
    /\ Node.from_dict j uuid log = (Return n, log ++ [ev]).
Proof.
  intros Hid Hn Hns Ht Hts Hp Hpt Hpa Hc.
  destruct n as [id type name type_version parameters position credentials].
  cbn [Node.id Node.name Node.type Node.position Node.parameters
       Node.credentials] in *.
  subst position.
  assert (Rt : required_text (JStr type) = Return (Some type)).
  { rewrite <- Hts at 2. apply required_text_ok. rewrite Hts. exact Ht. }
  assert (Rn : required_text (JStr name) = Return (Some name)).
  { rewrite <- Hns at 2. apply required_text_ok. rewrite Hns. exact Hn. }
  unfold Node.to_dict.
  cbn [Node.id Node.name Node.type Node.position Node.parameters
       Node.credentials Node.type_version py_iter obind].
  destruct (truthy credentials) eqn:Ec; eexists; eexists; (split; [reflexivity|]);
    unfold Node.from_dict, Node.__init__, bind, lift_outcome, ret, logger, modify;
    cbn [dict_set dict_get_default dict_get String.eqb Ascii.eqb Bool.eqb];
    rewrite Rt, Rn, Hid, <- Hpa; unfold py_or at 1; rewrite Hpt.
  - unfold py_or. rewrite Ec. reflexivity.
  - unfold py_or in Hc. rewrite Ec in Hc. rewrite Hc. reflexivity.
Qed.

(** X4. For every node that Node.__init__ returned and whose position is a list,
    to_dict returns a document, and Node.from_dict of that document returns the
    same node, field for field, whatever uuid is drawn and whatever the log
    holds; it logs exactly one event. *)
Theorem node_document_round_trip
    (node_type name node_id type_version parameters position credentials : json)
    (uuid : N) (log log' : Log) (n : Node.t) (l : list json) :
  Node.__init__ node_type name node_id type_version parameters position
                credentials uuid log = (Return n, log') ->
  Node.position n = JList l ->
  exists doc,
    Node.to_dict n = Return doc
    /\ forall uuid' log0, exists ev,
         Node.from_dict doc uuid' log0 = (Return n, log0 ++ [ev]).
Proof.
  intros H Hp.
  destruct (node_init_post _ _ _ _ _ _ _ _ _ _ _ H)
    as (Hid & (Hn & Hns) & (Ht & Hts) & _ & Hpt & Hpa & Hc & _).
  destruct (node_round_trip_general n l 0%N [] Hid Hn Hns Ht Hts Hp Hpt Hpa Hc)
    as (doc & _ & Hto & _).
  exists doc. split; [exact Hto|]. intros uuid' log0.
  destruct (node_round_trip_general n l uuid' log0 Hid Hn Hns Ht Hts Hp Hpt Hpa Hc)
    as (doc' & ev & Hto' & Hfrom).
  rewrite Hto in Hto'. injection Hto' as <-. exists ev. exact Hfrom.
Qed.

(** X5. For every node, Node.to_dict either returns a dict whose keys are id,
    name, type, typeVersion, position, parameters in that order, followed by
    credentials exactly when the credentials are truthy, with the position
    copied as a list of the items iterating it gives; or it raises TypeError,
    which happens exactly when the position is neither a list, a string nor a
    dict. *)
Theorem node_to_dict_keys (n : Node.t) :
  match Node.to_dict n with
  | Return doc =>
      exists d, doc = JDict d
        /\ dict_keys d
           = ["id"; "name"; "type"; "typeVersion"; "position"; "parameters"]
             ++ (if truthy (Node.credentials n) then ["credentials"] else [])
        /\ (truthy (Node.credentials n) = true ->
            dict_get "credentials" d = Some (Node.credentials n))
        /\ exists items, dict_get "position" d = Some (JList items)
                         /\ py_iter (Node.position n) = Return items
  | Raise e =>
      e = Builtin TypeError
      /\ match Node.position n with
         | JList _ | JStr _ | JDict _ => False
         | _ => True
         end
  end.
Proof.
  unfold Node.to_dict.
  destruct (Node.position n) eqn:Hp; cbn [py_iter obind]; try (split; [reflexivity|exact I]);
    (destruct (truthy (Node.credentials n)) eqn:Ec;
     eexists; (split; [reflexivity|]); (split; [reflexivity|]);
     (split; [try discriminate; intros _; reflexivity|]);
     eexists; split; reflexivity).
Qed.

(** ** Constructing a workflow and adding nodes *)

Section WorkflowInit.
Context {P : Platform}.

(** X6. Workflow.__init__ with a name that is falsy or blank after stripping
    raises WorkflowError with code WF001 and logs nothing. When it returns, the
    workflow has a truthy id, a non-empty stripped name, no nodes, empty
    connections, active True, empty settings and tags, both timestamps equal to
    the current time, one INFO event was logged, and validate() on it reports
    exactly that the workflow must contain at least one node. *)
Theorem workflow_init_cases (name workflow_id : json) (uuid : N) (now : string)
    (log : Log) :
  (blank name = true ->
   Workflow.__init__ name workflow_id uuid now log
   = (Raise (Sdk WorkflowError [Lit "Workflow name cannot be empty"]
                 (Some ErrorCodes.WORKFLOW_INVALID_NAME)), log))
  /\ (forall w log',
        Workflow.__init__ name workflow_id uuid now log = (Return w, log') ->
        truthy (Workflow.id w) = true
        /\ (Workflow.name w <> "" /\ strip (Workflow.name w) = Workflow.name w)
        /\ Workflow.nodes w = []
        /\ Workflow.connections w = JDict []
        /\ Workflow.active w = JBool true
        /\ Workflow.settings w = JDict []
        /\ Workflow.tags w = JList []
        /\ Workflow.created_at w = JStr now
        /\ Workflow.updated_at w = JStr now
        /\ (exists m, log' = log ++ [(INFO, m)])
        /\ Workflow.validate w
           = Return [[Lit "Workflow must contain at least one node"]]).
Proof.
  unfold Workflow.__init__, bind, lift_outcome, ret, raise, logger, modify.
  split.
  - intros H. rewrite (required_text_blank _ H). reflexivity.
  - intros w log'.
    destruct (required_text name) as [[nm|]|] eqn:En; try discriminate.
    intros [= <- <-].
    destruct (required_text_some _ _ En) as [Hn Hs].
    cbn [Workflow.id Workflow.name Workflow.nodes Workflow.connections
         Workflow.active Workflow.settings Workflow.tags Workflow.created_at
         Workflow.updated_at].
    split.
    { destruct (truthy workflow_id) eqn:E; [exact E|].
      cbn [truthy]. rewrite (eqb_empty_false _ (uuid_str_nonempty uuid)).
      reflexivity. }
    split; [split; assumption|].
    do 7 (split; [reflexivity|]).
    split; [eexists; reflexivity|].
    unfold Workflow.validate, Workflow.validate_body, Workflow.when_,
      Workflow.append_error, bind, modify, ret, lift_outcome.
    cbn [Workflow.name Workflow.nodes Workflow.connections].
    rewrite (eqb_empty_false _ Hn). reflexivity.
Qed.

End WorkflowInit.

Section AddNode.
Variable FS : Type.
Implicit Types (w : Workflow.t) (st : Workflow.Obj FS).

Lemma add_node_cases (node : Node.object) (now : string) st :
  match node with
  | Node.ONode n =>
      if existsb (same_id n) (Workflow.nodes (Workflow.self st))
      then exists m lg',
          Workflow.add_node node now st
          = (Raise (Sdk WorkflowError m (Some ErrorCodes.WORKFLOW_DUPLICATE_NODE)),
             obj (Workflow.self st) lg' (Workflow.disk st))
      else exists lg',
          Workflow.add_node node now st
          = (Return tt,
             obj (Workflow.with_updated_at (JStr now)
                    (Workflow.with_nodes
                       (Workflow.nodes (Workflow.self st) ++ [n])
                       (Workflow.self st)))
                 lg' (Workflow.disk st))
          /\ forall lv m, In (lv, m) lg' ->
               In (lv, m) (Workflow.logs st) \/ lv = DEBUG
               \/ (lv = WARNING
                   /\ existsb (same_name n) (Workflow.nodes (Workflow.self st))
                      = true)
  | Node.OValue j =>
      exists m lg',
        Workflow.add_node node now st
        = (Raise (Sdk WorkflowError m (Some ErrorCodes.NODE_INVALID_TYPE)),
           obj (Workflow.self st) lg' (Workflow.disk st))
  end.
Proof.
  destruct st as [w lg fs]. destruct node as [n|j];
    unfold Workflow.add_node, Workflow.when, Workflow.update, Workflow.log_,
      bind, gets, modify, raise, ret, obj;
    cbn [Workflow.self Workflow.logs Workflow.disk].
  - fold (same_id n). fold (same_name n).
    destruct (existsb (same_id n) (Workflow.nodes w)).
    + eexists; eexists. reflexivity.
    + destruct (existsb (same_name n) (Workflow.nodes w)) eqn:En;
        cbn [Workflow.self Workflow.logs Workflow.disk];
        eexists; (split; [reflexivity|]); intros lv m Hin;
        repeat (apply in_app_or in Hin; destruct Hin as [Hin|Hin]);
        try (left; exact Hin);
        destruct Hin as [[= <- <-]|[]]; auto.
  - eexists; eexists. reflexivity.
Qed.

(** X7. Every call of add_node has one of three outcomes. An argument that is no
    Node raises WorkflowError with code ND001 and leaves the workflow unchanged.
    A node whose id equals the id of a node already present raises WorkflowError
    with code WF003 and leaves the workflow unchanged. Any other node is
    appended at the end, updated_at becomes the current time, nothing else
    changes, and every new log event is a DEBUG event or a WARNING, the latter
    only when some node already present has the same name. *)
Theorem add_node_outcomes (node : Node.object) (now : string) st :
  match node with
  | Node.ONode n =>
      if existsb (same_id n) (Workflow.nodes (Workflow.self st))
      then exists m lg',
          Workflow.add_node node now st
          = (Raise (Sdk WorkflowError m (Some ErrorCodes.WORKFLOW_DUPLICATE_NODE)),
             obj (Workflow.self st) lg' (Workflow.disk st))
      else exists lg',
          Workflow.add_node node now st
          = (Return tt,
             obj (Workflow.with_updated_at (JStr now)
                    (Workflow.with_nodes
                       (Workflow.nodes (Workflow.self st) ++ [n])
                       (Workflow.self st)))
                 lg' (Workflow.disk st))
          /\ forall lv m, In (lv, m) lg' ->
               In (lv, m) (Workflow.logs st) \/ lv = DEBUG
               \/ (lv = WARNING
                   /\ existsb (same_name n) (Workflow.nodes (Workflow.self st))
                      = true)
  | Node.OValue j =>
      exists m lg',
        Workflow.add_node node now st
        = (Raise (Sdk WorkflowError m (Some ErrorCodes.NODE_INVALID_TYPE)),
           obj (Workflow.self st) lg' (Workflow.disk st))
  end.
Proof. exact (add_node_cases node now st). Qed.

Lemma unique_ids_snoc (ns : list Node.t) (n : Node.t) :
  unique_ids ns = true -> existsb (same_id n) ns = false ->
  unique_ids (ns ++ [n]) = true.
Proof.
  induction ns as [|a r IH]; cbn [unique_ids existsb app]; [reflexivity|].
  intros Hu He. apply andb_true_iff in Hu. destruct Hu as [Ha Hr].
  apply orb_false_iff in He. destruct He as [Han Hrn].
  rewrite IH by assumption. rewrite andb_true_r.
  rewrite existsb_app. cbn [existsb]. unfold same_id in Han. rewrite Han.
  rewrite orb_false_r. exact Ha.
Qed.

Lemma existsb_over_map {A B : Type} (f : B -> bool) (g : A -> B) (l : list A) :
  existsb f (map g l) = existsb (fun x => f (g x)) l.
Proof. induction l as [|a r IH]; cbn; [reflexivity|]. rewrite IH. reflexivity. Qed.

Lemma unique_ids_dedup (ns : list Node.t) :
  unique_ids ns = true -> Workflow.dedup (map Node.id ns) = map Node.id ns.
Proof.
  induction ns as [|a r IH]; cbn [unique_ids map Workflow.dedup]; [reflexivity|].
  intros Hu. apply andb_true_iff in Hu. destruct Hu as [Ha Hr].
  rewrite existsb_over_map. apply negb_true_iff in Ha.
  cbv beta. rewrite Ha, IH by assumption. reflexivity.
Qed.

Lemma add_node_keeps_unique (node : Node.object) (now : string) st st'
    (r : outcome unit) :
  unique_ids (Workflow.nodes (Workflow.self st)) = true ->
  Workflow.add_node node now st = (r, st') ->
  unique_ids (Workflow.nodes (Workflow.self st')) = true.
Proof.
  intros Hu H. pose proof (add_node_cases node now st) as O.
  destruct node as [n|j].
  - destruct (existsb (same_id n) _) eqn:E.
    + destruct O as (m & lg' & O). rewrite O in H. injection H as _ <-. exact Hu.
    + destruct O as (lg' & O & _). rewrite O in H. injection H as _ <-.
      cbn. apply unique_ids_snoc; assumption.
  - destruct O as (m & lg' & O). rewrite O in H. injection H as _ <-. exact Hu.
Qed.

(** X8. If no two nodes of a workflow have equal ids, then after add_nodes with
    any arguments, whether it returned or raised part-way, still no two nodes
    have equal ids, and the set of node ids has as many elements as there are
    nodes (so validate() will not report duplicate ids). *)
Theorem add_nodes_keeps_ids_unique (nodes : list (Node.object * string)) :
  forall st st' (r : outcome unit),
    unique_ids (Workflow.nodes (Workflow.self st)) = true ->
    Workflow.add_nodes nodes st = (r, st') ->
    unique_ids (Workflow.nodes (Workflow.self st')) = true
    /\ forall ids,
         Workflow.py_set (map Node.id (Workflow.nodes (Workflow.self st')))
         = Return ids ->
         length ids = length (Workflow.nodes (Workflow.self st')).
Proof.
  assert (Hd : forall ns, unique_ids ns = true -> forall ids,
             Workflow.py_set (map Node.id ns) = Return ids ->
             length ids = length ns).
  { intros ns Hu ids. unfold Workflow.py_set.
    destruct (forallb hashable _); [|discriminate]. intros [= <-].
    rewrite (unique_ids_dedup _ Hu). apply length_map. }
  induction nodes as [|[node now] rest IH]; intros st st' r Hu H.
  - injection H as _ <-. split; [exact Hu|]. apply Hd. exact Hu.
  - unfold Workflow.add_nodes in H. cbn [for_each] in H. unfold bind in H.
    destruct (Workflow.add_node node now st) as [[[]|e] s1] eqn:E.
    + apply (IH s1 st' r); [|exact H]. apply (add_node_keeps_unique _ _ _ _ _ Hu E).
    + injection H as _ <-.
      pose proof (add_node_keeps_unique _ _ _ _ _ Hu E) as Hu'.
      split; [exact Hu'|]. apply Hd. exact Hu'.
Qed.

(** X9. add_nodes does not roll back: in every outcome the workflow's nodes
    afterwards are the nodes before followed by a prefix of the arguments, in
    order. When it returns the prefix is all of the arguments; when it raises,
    the prefix ends just before the first argument add_node rejects, and the
    arguments after that one are not looked at. *)
Theorem add_nodes_no_rollback (nodes : list (Node.object * string)) :
  forall st st' (r : outcome unit),
    Workflow.add_nodes nodes st = (r, st') ->
    exists added rest,
      nodes = added ++ rest
      /\ Workflow.nodes (Workflow.self st')
         = Workflow.nodes (Workflow.self st) ++ nodes_of added
      /\ length (nodes_of added) = length added
      /\ match r with
         | Return _ => rest = []
         | Raise _ =>
             exists a rest', rest = a :: rest'
               /\ exists e s, Workflow.add_node (fst a) (snd a)
                                (obj (Workflow.self st') s (Workflow.disk st'))
                              = (Raise e, obj (Workflow.self st')
                                            (Workflow.logs st') (Workflow.disk st'))
         end.
Proof.
  induction nodes as [|[node now] rest IH]; intros st st' r H.
  - injection H as <- <-. exists [], []. cbn. rewrite app_nil_r. auto.
  - unfold Workflow.add_nodes in H. cbn [for_each] in H. unfold bind in H.
    destruct (Workflow.add_node node now st) as [[[]|e] s1] eqn:E.
    + destruct (IH s1 st' r H) as (added & rest' & -> & Hn & Hl & Hr).
      pose proof (add_node_cases node now st) as O.
      destruct node as [n|j].
      * destruct (existsb (same_id n) _).
        { destruct O as (m & lg' & O). rewrite O in E. discriminate. }
        destruct O as (lg' & O & _). rewrite O in E. injection E as <-.
        exists ((Node.ONode n, now) :: added), rest'.
        split; [reflexivity|]. split.
        { rewrite Hn. cbn. rewrite <- app_assoc. reflexivity. }
        split; [|exact Hr].
        unfold nodes_of in *. cbn [flat_map fst app length]. rewrite Hl. reflexivity.
      * destruct O as (m & lg' & O). rewrite O in E. discriminate.
    + injection H as <- <-. exists [], ((node, now) :: rest).
      split; [reflexivity|]. cbn [nodes_of flat_map]. rewrite app_nil_r.
      pose proof (add_node_cases node now st) as O.
      assert (Hs : Workflow.self s1 = Workflow.self st
                   /\ Workflow.disk s1 = Workflow.disk st).
      { destruct node as [n|j].
        - destruct (existsb (same_id n) _).
          + destruct O as (m & lg' & O). rewrite O in E. injection E as _ <-. auto.
          + destruct O as (lg' & O & _). rewrite O in E. discriminate.
        - destruct O as (m & lg' & O). rewrite O in E. injection E as _ <-. auto. }
      destruct Hs as [Hs Hd]. split; [rewrite Hs; reflexivity|].
      split; [reflexivity|].
      exists (node, now), rest. split; [reflexivity|].
      exists e, (Workflow.logs st). cbn [fst snd].
      rewrite Hs, Hd. destruct st as [w lg fs]. destruct s1 as [w1 lg1 fs1].
      cbn in *. subst. unfold obj. exact E.
Qed.

End AddNode.

(** ** Connecting, beyond the first record *)

Lemma nth_error_list_set_other i j v l :
  i <> j -> nth_error (Workflow.list_set i v l) j = nth_error l j.
Proof.
  revert i j. induction l as [|x r IH]; intros i j Hne; destruct i, j; cbn;
    try reflexivity; try congruence.
  apply IH. congruence.
Qed.

Lemma ensure_slots_enough slots i :
  (Z.to_nat i < length slots)%nat -> 0 <= i ->
  Workflow.ensure_slots slots i = slots.
Proof.
  intros H H0. unfold Workflow.ensure_slots.
  replace (Z.to_nat (i + 1 - Z.of_nat (length slots))) with 0%nat by lia.
  reflexivity.
Qed.

(** A record for a slot that exists already. *)
Lemma add_record_existing (source_name output_type : string) (output_index : Z)
    (connection : json) (d o : dict) (slots slot : list json) :
  dict_get source_name d = Some (JDict o) ->
  dict_get output_type o = Some (JList slots) ->
  0 <= output_index ->
  nth_error slots (Z.to_nat output_index) = Some (JList slot) ->
  Workflow.add_record source_name output_type output_index connection (JDict d)
  = (Return tt,
     JDict (Workflow.put_slots d o source_name output_type
              (Workflow.list_set (Z.to_nat output_index)
                 (JList (slot ++ [connection])) slots))).
Proof.
  intros Hd Ho Hi Hn.
  assert (Hlen : (Z.to_nat output_index < length slots)%nat).
  { apply nth_error_Some. rewrite Hn. discriminate. }
  assert (Hhd : dict_has source_name d = true)
    by (unfold dict_has; rewrite Hd; reflexivity).
  assert (Hho : dict_has output_type o = true)
    by (unfold dict_has; rewrite Ho; reflexivity).
  unfold Workflow.add_record, bind, gets, modify, raise, ret.
  rewrite Hhd. cbv beta iota zeta. rewrite Hd, Hho. cbv beta iota zeta.
  rewrite Ho. rewrite (ensure_slots_enough _ _ Hlen Hi).
  rewrite py_index_nonneg by lia. rewrite Hn. reflexivity.
Qed.

(** A negative slot index for a source that has no entry yet. *)
Lemma add_record_negative_fresh (source_name output_type : string)
    (output_index : Z) (connection : json) (d : dict) :
  dict_has source_name d = false -> output_index < 0 ->
  Workflow.add_record source_name output_type output_index connection (JDict d)
  = (Raise (Builtin IndexError),
     JDict (dict_set source_name (JDict [(output_type, JList [])]) d)).
Proof.
  intros Hs Hi. unfold Workflow.add_record, bind, gets, modify, raise, ret.
  rewrite Hs. rewrite dict_get_set_same. cbn [dict_has dict_get dict_set].
  rewrite String.eqb_refl.
  unfold Workflow.ensure_slots. cbn [length].
  replace (Z.to_nat (output_index + 1 - Z.of_nat 0)) with 0%nat by lia.
  cbn [Workflow.grow length]. unfold Workflow.py_index.
  destruct (Z.leb_spec 0 output_index); [lia|].
  destruct (Z.leb_spec 0 (output_index + Z.of_nat 0)); [lia|].
  unfold Workflow.put_slots. cbn [dict_set]. rewrite String.eqb_refl.
  rewrite dict_set_set. reflexivity.
Qed.

Section ConnectMore.
Variable FS : Type.
Implicit Types (w : Workflow.t) (st : Workflow.Obj FS).

(** X10. When both nodes are in the workflow and the source already has, under
    the output type, a list of slots in which slot output_index (non-negative)
    exists and is a list, connect returns and appends the new record at the end
    of that slot: earlier records of the slot keep their order, the number of
    slots is unchanged, all other slots, all other output types of the source,
    and the entries of all names other than source and target are untouched. *)
Theorem connect_appends_to_slot st (d o : dict) (slots slot : list json)
    (from_node to_node : Node.t) (output_type input_type : string)
    (output_index input_index : Z) (now : string) :
  Workflow.node_in from_node (Workflow.nodes (Workflow.self st)) = true ->
  Workflow.node_in to_node (Workflow.nodes (Workflow.self st)) = true ->
  Workflow.connections (Workflow.self st) = JDict d ->
  dict_get (Node.name from_node) d = Some (JDict o) ->
  dict_get output_type o = Some (JList slots) ->
  0 <= output_index ->
  nth_error slots (Z.to_nat output_index) = Some (JList slot) ->
  exists st' d' o' slots',
    Workflow.connect from_node to_node output_type input_type output_index
                     input_index now st = (Return tt, st')
    /\ Workflow.connections (Workflow.self st') = JDict d'
    /\ dict_get (Node.name from_node) d' = Some (JDict o')
    /\ dict_get output_type o' = Some (JList slots')
    /\ nth_error slots' (Z.to_nat output_index)
       = Some (JList (slot ++ [connection_record to_node input_type input_index]))
    /\ length slots' = length slots
    /\ (forall j, j <> Z.to_nat output_index ->
          nth_error slots' j = nth_error slots j)
    /\ (forall port, port <> output_type -> dict_get port o' = dict_get port o)
    /\ (forall k, k <> Node.name from_node -> k <> Node.name to_node ->
          dict_get k d' = dict_get k d).
Proof.
  intros Hf Ht Hc Hd Ho Hi Hn.
  assert (Hlen : (Z.to_nat output_index < length slots)%nat).
  { apply nth_error_Some. rewrite Hn. discriminate. }
  pose proof (connect_members FS st from_node to_node output_type input_type
                output_index input_index now Hf Ht) as M.
  rewrite Hc in M.
  rewrite (add_record_existing _ _ _ _ _ _ _ _ Hd Ho Hi Hn) in M.
  destruct M as (st' & Hrun & Hfinal).
  set (slots' := Workflow.list_set (Z.to_nat output_index)
                   (JList (slot ++ [connection_record to_node input_type
                                       input_index])) slots) in *.
  set (o' := dict_set output_type (JList slots') o).
  assert (Hsrc : dict_get (Node.name from_node)
                   (Workflow.put_slots d o (Node.name from_node) output_type slots')
                 = Some (JDict o')).
  { apply dict_get_set_same. }
  exists st'. eexists. exists o', slots'.
  split; [exact Hrun|]. split; [exact Hfinal|].
  split.
  { destruct (dict_has (Node.name to_node) _) eqn:E; [exact Hsrc|].
    destruct (String.eqb_spec (Node.name to_node) (Node.name from_node)) as [e|ne].
    - unfold dict_has in E. rewrite e, Hsrc in E. discriminate.
    - rewrite dict_get_set_other by exact ne. exact Hsrc. }
  split; [apply dict_get_set_same|].
  split; [apply nth_error_list_set; exact Hlen|].
  split; [apply length_list_set|].
  split; [intros j Hj; apply nth_error_list_set_other; congruence|].
  split; [intros port Hp; apply dict_get_set_other; congruence|].
  intros k Hk1 Hk2.
  destruct (dict_has (Node.name to_node) _).
  - unfold Workflow.put_slots. apply dict_get_set_other. congruence.
  - rewrite dict_get_set_other by congruence.
    unfold Workflow.put_slots. apply dict_get_set_other. congruence.
Qed.

(** X11. When both nodes are in the workflow, the source has no connection entry
    yet and output_index is negative, connect raises IndexError (no SDK error),
    and it leaves a partial entry behind: connections now maps the source name
    to a dict with the output type mapped to an empty list. Nothing is logged,
    updated_at is not touched and the target gets no entry. *)
Theorem connect_negative_slot_leaves_partial_entry st (d : dict)
    (from_node to_node : Node.t) (output_type input_type : string)
    (output_index input_index : Z) (now : string) :
  Workflow.node_in from_node (Workflow.nodes (Workflow.self st)) = true ->
  Workflow.node_in to_node (Workflow.nodes (Workflow.self st)) = true ->
  Workflow.connections (Workflow.self st) = JDict d ->
  dict_has (Node.name from_node) d = false ->
  output_index < 0 ->
  Workflow.connect from_node to_node output_type input_type output_index
                   input_index now st
  = (Raise (Builtin IndexError),
     obj (Workflow.with_connections
            (JDict (dict_set (Node.name from_node)
                      (JDict [(output_type, JList [])]) d))
            (Workflow.self st))
         (Workflow.logs st) (Workflow.disk st)).
Proof.
  intros Hf Ht Hc Hs Hi.
  unfold Workflow.connect, Workflow.on_connections, Workflow.log_,
    Workflow.update, bind, gets, modify, raise, ret.
  rewrite Hf, Ht. cbn [negb]. fold (connection_record to_node input_type input_index).
  rewrite Hc. rewrite (add_record_negative_fresh _ _ _ _ _ Hs Hi). reflexivity.
Qed.

(** X12. In every outcome of connect, the workflow's id, name, nodes, active
    flag, settings, tags and created_at, and the file system, are unchanged.
    When it returns, updated_at is the current time; when it raises one of the
    SDK's errors the whole workflow is unchanged; when it raises any other
    exception updated_at is unchanged. *)
Theorem connect_touches_connections_and_timestamp_only st st'
    (from_node to_node : Node.t) (output_type input_type : string)
    (output_index input_index : Z) (now : string) (r : outcome unit) :
  Workflow.connect from_node to_node output_type input_type output_index
                   input_index now st = (r, st') ->
  Workflow.id (Workflow.self st') = Workflow.id (Workflow.self st)
  /\ Workflow.name (Workflow.self st') = Workflow.name (Workflow.self st)
  /\ Workflow.nodes (Workflow.self st') = Workflow.nodes (Workflow.self st)
  /\ Workflow.active (Workflow.self st') = Workflow.active (Workflow.self st)
  /\ Workflow.settings (Workflow.self st') = Workflow.settings (Workflow.self st)
  /\ Workflow.tags (Workflow.self st') = Workflow.tags (Workflow.self st)
  /\ Workflow.created_at (Workflow.self st')
     = Workflow.created_at (Workflow.self st)
  /\ Workflow.disk st' = Workflow.disk st
  /\ match r with
     | Return _ => Workflow.updated_at (Workflow.self st') = JStr now
     | Raise (Sdk _ _ _) => Workflow.self st' = Workflow.self st
     | Raise _ =>
         Workflow.updated_at (Workflow.self st')
         = Workflow.updated_at (Workflow.self st)
     end.
Proof.
  unfold Workflow.connect, Workflow.on_connections, Workflow.update,
    Workflow.log_, bind, gets, modify, raise, ret.
  destruct (negb _); [intros [= <- <-]; cbn; repeat split|].
  destruct (negb _); [intros [= <- <-]; cbn; repeat split|].
  destruct (Workflow.add_record _ _ _ _ _) as [[[]|e] c1] eqn:E.
  - cbn [Workflow.self Workflow.connections Workflow.with_connections
         Workflow.with_updated_at Workflow.logs Workflow.disk].
    destruct (add_record_success _ _ _ _ _ _ E)
      as (d & d' & _ & _ & _ & _ & _ & -> & _).
    rewrite seed_target_run. intros [= <- <-]. cbn. repeat split.
  - intros [= <- <-]. cbn. repeat split.
    destruct (add_record_raises _ _ _ _ _ _ _ E) as (b & ->). reflexivity.
Qed.

End ConnectMore.

(** ** What [Workflow.validate] reports *)

Lemma grows_ret {A : Type} (a : A) : grows (ret a).
Proof. intros s r s' [= _ <-]. exists []. symmetry. apply app_nil_r. Qed.

Lemma grows_lift {A : Type} (o : outcome A) : grows (lift_outcome o).
Proof. intros s r s' [= _ <-]. exists []. symmetry. apply app_nil_r. Qed.

Lemma grows_append (m : msg) : grows (Workflow.append_error m).
Proof. intros s r s' [= _ <-]. exists [m]. reflexivity. Qed.

Lemma grows_when (b : bool) (m : M (list msg) unit) :
  grows m -> grows (Workflow.when_ b m).
Proof. intros H. destruct b; [exact H|apply grows_ret]. Qed.

Lemma grows_bind {A B : Type} (m : M (list msg) A) (k : A -> M (list msg) B) :
  grows m -> (forall a, grows (k a)) -> grows (bind m k).
Proof.
  intros Hm Hk s r s'. unfold bind.
  destruct (m s) as [[a|e] s1] eqn:E; destruct (Hm _ _ _ E) as [t ->].
  - intros H. destruct (Hk a _ _ _ H) as [u ->]. exists (t ++ u).
    symmetry. apply app_assoc.
  - intros [= _ <-]. exists t. reflexivity.
Qed.

Lemma grows_for_each {A : Type} (xs : list A) (body : A -> M (list msg) unit) :
  (forall x, grows (body x)) -> grows (for_each xs body).
Proof.
  intros Hb. induction xs as [|x r IH]; cbn [for_each].
  - apply grows_ret.
  - apply grows_bind; [apply Hb|intros _; exact IH].
Qed.

Lemma ensures_const {A : Type} (Q : Prop) (m : M (list msg) A) :
  Q -> ensures (fun _ => Q) m.
Proof. intros H s a s' _. exact H. Qed.

Lemma ensures_bind_l {A B : Type} (Q : list msg -> Prop) (m : M (list msg) A)
    (k : A -> M (list msg) B) :
  lasting Q -> ensures Q m -> (forall a, grows (k a)) -> ensures Q (bind m k).
Proof.
  intros HQ Hm Hk s b s'. unfold bind.
  destruct (m s) as [[a|e] s1] eqn:E; [|discriminate].
  intros H. destruct (Hk a _ _ _ H) as [u ->]. apply HQ. exact (Hm _ _ _ E).
Qed.

Lemma ensures_bind_r {A B : Type} (Q : list msg -> Prop) (m : M (list msg) A)
    (k : A -> M (list msg) B) :
  (forall a, ensures Q (k a)) -> ensures Q (bind m k).
Proof.
  intros Hk s b s'. unfold bind.
  destruct (m s) as [[a|e] s1] eqn:E; [|discriminate].
  intros H. exact (Hk a _ _ _ H).
Qed.

Lemma ensures_lift {A B : Type} (Q : list msg -> Prop) (o : outcome A)
    (k : A -> M (list msg) B) :
  (forall a, o = Return a -> ensures Q (k a)) ->
  ensures Q (bind (lift_outcome o) k).
Proof.
  intros Hk s b s'. unfold bind, lift_outcome.
  destruct o as [a|e]; [|discriminate]. intros H. exact (Hk a eq_refl _ _ _ H).
Qed.

Lemma ensures_for_each {A : Type} (Q : list msg -> Prop) (xs : list A)
    (body : A -> M (list msg) unit) (x : A) :
  lasting Q -> (forall y, grows (body y)) -> In x xs -> ensures Q (body x) ->
  ensures Q (for_each xs body).
Proof.
  intros HQ Hg Hin Hx. induction xs as [|y r IH]; [destruct Hin|].
  cbn [for_each]. destruct Hin as [-> | Hin].
  - apply ensures_bind_l; [exact HQ|exact Hx|].
    intros _. apply grows_for_each. exact Hg.
  - apply ensures_bind_r. intros _. apply IH. exact Hin.
Qed.

Lemma ensures_when (e : msg) (b : bool) :
  ensures (fun errors => b = true -> In e errors)
          (Workflow.when_ b (Workflow.append_error e)).
Proof.
  intros s a s'. destruct b; [|discriminate].
  intros [= _ <-] _. apply in_or_app. right. left. reflexivity.
Qed.

Lemma lasting_in (e : msg) : lasting (In e).
Proof. intros s t H. apply in_or_app. left. exact H. Qed.

Lemma lasting_if (Q : Prop) (e : msg) : lasting (fun errors => Q -> In e errors).
Proof. intros s t H q. apply in_or_app. left. exact (H q). Qed.

Lemma lasting_const (Q : Prop) : lasting (fun _ => Q).
Proof. intros s t H. exact H. Qed.

Lemma lasting_and (Q R : list msg -> Prop) :
  lasting Q -> lasting R -> lasting (fun errors => Q errors /\ R errors).
Proof. intros HQ HR s t [q r]. split; [apply HQ|apply HR]; assumption. Qed.

Lemma ensures_and {A : Type} (Q R : list msg -> Prop) (m : M (list msg) A) :
  ensures Q m -> ensures R m -> ensures (fun errors => Q errors /\ R errors) m.
Proof. intros HQ HR s a s' H. split; [exact (HQ _ _ _ H)|exact (HR _ _ _ H)]. Qed.

Lemma ensures_impl {A : Type} (Q R : list msg -> Prop) (m : M (list msg) A) :
  (forall errors, Q errors -> R errors) -> ensures Q m -> ensures R m.
Proof. intros HQR HQ s a s' H. apply HQR. exact (HQ _ _ _ H). Qed.

Lemma enumerate_nth {A : Type} (xs : list A) :
  forall (k i : nat) (x : A),
    nth_error xs i = Some x -> In ((k + i)%nat, x) (Workflow.enumerate k xs).
Proof.
  induction xs as [|y r IH]; intros k [|i] x H; try discriminate.
  - injection H as ->. left. f_equal. lia.
  - right. replace (k + S i)%nat with (S k + i)%nat by lia. apply IH. exact H.
Qed.

Lemma dedup_length_le (xs : list json) :
  (length (Workflow.dedup xs) <= length xs)%nat.
Proof.
  induction xs as [|x r IH]; cbn [Workflow.dedup length]; [lia|].
  destruct (existsb (py_eq x) r); cbn [length]; lia.
Qed.

Lemma dedup_length_lt (xs : list json) :
  forall (i j : nat) (x y : json),
    (i < j)%nat -> nth_error xs i = Some x -> nth_error xs j = Some y ->
    py_eq x y = true -> (length (Workflow.dedup xs) < length xs)%nat.
Proof.
  induction xs as [|z r IH]; intros [|i] [|j] x y Hij Hi Hj He;
    try discriminate; try lia; cbn [Workflow.dedup length].
  - injection Hi as ->. cbn [nth_error] in Hj.
    assert (Hx : existsb (py_eq x) r = true).
    { apply existsb_exists. exists y. split; [|exact He].
      apply (nth_error_In _ _ Hj). }
    rewrite Hx. pose proof (dedup_length_le r). lia.
  - cbn [nth_error] in Hi, Hj.
    assert (Hlt : (length (Workflow.dedup r) < length r)%nat).
    { apply (IH i j x y); [lia|assumption..]. }
    destruct (existsb (py_eq z) r); cbn [length]; lia.
Qed.

Lemma dedup_length_eq (xs : list json) :
  length (Workflow.dedup xs) = length xs -> Workflow.dedup xs = xs.
Proof.
  induction xs as [|x r IH]; cbn [Workflow.dedup length]; [reflexivity|].
  destruct (existsb (py_eq x) r).
  - pose proof (dedup_length_le r). lia.
  - cbn [length]. intros [= H]. rewrite (IH H). reflexivity.
Qed.

Lemma dedup_fixed_unique (ns : list Node.t) :
  Workflow.dedup (map Node.id ns) = map Node.id ns -> unique_ids ns = true.
Proof.
  induction ns as [|a r IH]; cbn [map Workflow.dedup unique_ids]; [reflexivity|].
  rewrite existsb_over_map.
  destruct (existsb (fun x => py_eq (Node.id a) (Node.id x)) r) eqn:E.
  - intros H. pose proof (dedup_length_le (map Node.id r)) as L.
    rewrite H in L. cbn [length] in L. lia.
  - intros [= H]. rewrite (IH H). reflexivity.
Qed.

Lemma dedup_fixed_nodup (names : list string) :
  Workflow.dedup (map JStr names) = map JStr names -> NoDup names.
Proof.
  induction names as [|a r IH]; cbn [map Workflow.dedup]; [constructor|].
  destruct (existsb (py_eq (JStr a)) (map JStr r)) eqn:E.
  - intros H. pose proof (dedup_length_le (map JStr r)) as L.
    rewrite H in L. cbn [length] in L. lia.
  - intros [= H]. constructor; [|exact (IH H)].
    intros Hin. apply not_true_iff_false in E. apply E.
    apply existsb_exists. exists (JStr a). split; [apply in_map; exact Hin|].
    cbn. apply String.eqb_refl.
Qed.

Section WorkflowValidate.
Context {P : Platform}.

Ltac grows_step :=
  first [ apply grows_ret | apply grows_lift | apply grows_append
        | apply grows_when
        | apply grows_bind; [|intros ?]
        | apply grows_for_each; intros ? ].

Lemma validate_returns (w : Workflow.t) (errors : list msg) :
  Workflow.validate w = Return errors ->
  Workflow.validate_body w [] = (Return tt, errors).
Proof.
  unfold Workflow.validate.
  destruct (Workflow.validate_body w []) as [[[]|e] s]; [|discriminate].
  intros [= ->]. reflexivity.
Qed.

Ltac solve_grows :=
  repeat first
    [ grows_step
    | progress cbv beta zeta
    | match goal with
      | |- grows (let '(_, _) := ?x in _) => destruct x
      | |- grows (match ?c with _ => _ end) => destruct c
      end ].

Ltac skip := apply ensures_bind_r; intros ?; cbv beta zeta.
Ltac here := apply ensures_bind_l; [ | | intros ?; solve_grows].

Lemma ensures_append (e : msg) : ensures (In e) (Workflow.append_error e).
Proof. intros s a s' [= _ <-]. apply in_or_app. right. left. reflexivity. Qed.

Lemma ensures_when_true (e : msg) (b : bool) :
  b = true -> ensures (In e) (Workflow.when_ b (Workflow.append_error e)).
Proof. intros ->. apply ensures_append. Qed.

Lemma body_reports_name (w : Workflow.t) :
  Workflow.name w = "" ->
  ensures (In [Lit "Workflow name is required"]) (Workflow.validate_body w).
Proof.
  intros H. unfold Workflow.validate_body. here; [apply lasting_in|].
  apply ensures_when_true. rewrite H. reflexivity.
Qed.

Lemma body_reports_empty (w : Workflow.t) :
  Workflow.nodes w = [] ->
  ensures (In [Lit "Workflow must contain at least one node"])
          (Workflow.validate_body w).
Proof.
  intros H. unfold Workflow.validate_body. skip. here; [apply lasting_in|].
  apply ensures_when_true. rewrite H. reflexivity.
Qed.

Lemma body_reports_duplicate_ids (w : Workflow.t) (i j : nat) (a b : Node.t) :
  (i < j)%nat ->
  nth_error (Workflow.nodes w) i = Some a ->
  nth_error (Workflow.nodes w) j = Some b ->
  py_eq (Node.id a) (Node.id b) = true ->
  ensures (In [Lit "Duplicate node IDs found"]) (Workflow.validate_body w).
Proof.
  intros Hij Ha Hb He. unfold Workflow.validate_body. skip. skip.
  apply ensures_lift. intros ids Hids. here; [apply lasting_in|].
  apply ensures_when_true. apply negb_true_iff. apply Nat.eqb_neq.
  unfold Workflow.py_set in Hids.
  destruct (forallb hashable _); [|discriminate]. injection Hids as <-.
  assert (L : (length (Workflow.dedup (map Node.id (Workflow.nodes w)))
               < length (map Node.id (Workflow.nodes w)))%nat).
  { apply (dedup_length_lt _ i j (Node.id a) (Node.id b) Hij);
      [apply map_nth_error; exact Ha|apply map_nth_error; exact Hb|exact He]. }
  lia.
Qed.

Lemma body_reports_duplicate_names (w : Workflow.t) (i j : nat) (a b : Node.t) :
  (i < j)%nat ->
  nth_error (Workflow.nodes w) i = Some a ->
  nth_error (Workflow.nodes w) j = Some b ->
  Node.name a = Node.name b ->
  ensures (In [Lit "Duplicate node names found"]) (Workflow.validate_body w).
Proof.
  intros Hij Ha Hb He. unfold Workflow.validate_body. skip. skip. skip. skip.
  here; [apply lasting_in|].
  apply ensures_when_true. apply negb_true_iff. apply Nat.eqb_neq.
  match goal with
  | |- length ?l <> _ =>
      assert (L : (length (Workflow.dedup l) < length l)%nat)
  end.
  { apply (dedup_length_lt _ i j (JStr (Node.name a)) (JStr (Node.name b)) Hij).
    - apply (map_nth_error (fun node => JStr (Node.name node))). exact Ha.
    - apply (map_nth_error (fun node => JStr (Node.name node))). exact Hb.
    - cbn. rewrite He. apply String.eqb_refl. }
  lia.
Qed.

Lemma body_reports_node_error (w : Workflow.t) (i : nat) (node : Node.t)
    (node_errors : list string) (error : string) :
  nth_error (Workflow.nodes w) i = Some node ->
  Node.validate node = Return node_errors -> In error node_errors ->
  ensures (In [Lit "Node "; Val (JInt (Z.of_nat i + 1)); Lit " (";
               Val (JStr (Node.name node)); Lit "): "; Lit error])
          (Workflow.validate_body w).
Proof.
  intros Hn Hv He. unfold Workflow.validate_body. skip. skip. skip. skip. skip.
  here; [apply lasting_in|].
  apply (ensures_for_each _ _ _ (i, node)); [apply lasting_in|..].
  - intros [k n]. solve_grows.
  - apply (enumerate_nth _ 0 i node Hn).
  - cbv beta iota. apply ensures_lift. intros es Hes.
    rewrite Hv in Hes. injection Hes as <-.
    apply (ensures_for_each _ _ _ error); [apply lasting_in| |exact He|].
    + intros e. solve_grows.
    + apply ensures_append.
Qed.

Lemma in_names_spec (v : json) (names : list string) (known : bool) :
  Workflow.in_names v names = Return known ->
  known = true <-> exists s, v = JStr s /\ In s names.
Proof.
  unfold Workflow.in_names. destruct (hashable v); [|discriminate].
  intros [= <-]. split.
  - destruct v; try discriminate. intros H. apply existsb_exists in H.
    destruct H as (x & Hx & E). apply String.eqb_eq in E. subst x.
    eexists; split; [reflexivity|exact Hx].
  - intros (s & -> & Hs). apply existsb_exists. exists s.
    split; [exact Hs|apply String.eqb_refl].
Qed.

Lemma body_reports_source (w : Workflow.t) (items : dict) (source_name : string)
    (outputs : json) :
  Workflow.connections w = JDict items -> In (source_name, outputs) items ->
  ~ In source_name (map Node.name (Workflow.nodes w)) ->
  ensures (In [Lit "Connection source '"; Val (JStr source_name);
               Lit "' does not exist"])
          (Workflow.validate_body w).
Proof.
  intros Hc Hin Hn. unfold Workflow.validate_body. do 6 skip.
  apply ensures_lift. intros its Hits. rewrite Hc in Hits. injection Hits as <-.
  apply (ensures_for_each _ _ _ (source_name, outputs));
    [apply lasting_in| |exact Hin|].
  - intros [s o]. solve_grows.
  - cbv beta iota. here; [apply lasting_in|].
    apply ensures_when_true. apply negb_true_iff. apply not_true_iff_false.
    intros H. apply existsb_exists in H. destruct H as (x & Hx & E).
    apply String.eqb_eq in E. subst x. exact (Hn Hx).
Qed.

Lemma body_reports_target (w : Workflow.t) (items out_items c : dict)
    (source_name output_type : string)
    (output_groups output_group target_name : json) (groups group : list json) :
  Workflow.connections w = JDict items ->
  In (source_name, JDict out_items) items ->
  In (output_type, output_groups) out_items ->
  py_iter output_groups = Return groups -> In output_group groups ->
  py_iter output_group = Return group -> In (JDict c) group ->
  dict_get "node" c = Some target_name ->
  (forall node, In node (Workflow.nodes w) -> target_name <> JStr (Node.name node)) ->
  ensures (In [Lit "Connection target '"; Val target_name;
               Lit "' does not exist"])
          (Workflow.validate_body w).
Proof.
  intros Hc Hs Ho Hgs Hg Hgr Hcn Ht Hn. unfold Workflow.validate_body. do 6 skip.
  apply ensures_lift. intros its Hits. rewrite Hc in Hits. injection Hits as <-.
  apply (ensures_for_each _ _ _ (source_name, JDict out_items));
    [apply lasting_in| |exact Hs|].
  { intros [s o]. solve_grows. }
  cbv beta iota. skip. apply ensures_lift. intros oi [= <-].
  apply (ensures_for_each _ _ _ (output_type, output_groups));
    [apply lasting_in| |exact Ho|].
  { intros [s o]. solve_grows. }
  cbv beta iota. apply ensures_lift. intros gs Hgs'.
  rewrite Hgs in Hgs'. injection Hgs' as <-.
  apply (ensures_for_each _ _ _ output_group); [apply lasting_in| |exact Hg|].
  { intros g. solve_grows. }
  cbv beta. apply ensures_lift. intros gr Hgr'.
  rewrite Hgr in Hgr'. injection Hgr' as <-.
  apply (ensures_for_each _ _ _ (JDict c)); [apply lasting_in| |exact Hcn|].
  { intros g. solve_grows. }
  cbv beta iota. rewrite Ht. apply ensures_lift. intros known Hk.
  apply ensures_when_true. apply negb_true_iff. apply not_true_iff_false.
  intros E. apply (in_names_spec _ _ _ Hk) in E. destruct E as (s & -> & Hs').
  apply in_map_iff in Hs'. destruct Hs' as (node & <- & Hnode).
  exact (Hn node Hnode eq_refl).
Qed.



Lemma body_runs_node_validate (w : Workflow.t) (i : nat) (node : Node.t) :
  nth_error (Workflow.nodes w) i = Some node ->
  ensures (fun _ => exists node_errors, Node.validate node = Return node_errors)
          (Workflow.validate_body w).
Proof.
  intros Hn. unfold Workflow.validate_body. do 5 skip.
  here; [apply lasting_const|].
  apply (ensures_for_each _ _ _ (i, node)); [apply lasting_const|..].
  - intros [k n]. solve_grows.
  - apply (enumerate_nth _ 0 i node Hn).
  - cbv beta iota. apply ensures_lift. intros es Hes.
    apply ensures_const. exists es. exact Hes.
Qed.

Lemma body_needs_connections (w : Workflow.t) :
  ensures (fun _ => exists items, Workflow.connections w = JDict items)
          (Workflow.validate_body w).
Proof.
  unfold Workflow.validate_body. do 6 skip.
  apply ensures_lift. intros its Hits. apply ensures_const.
  destruct (Workflow.connections w); try discriminate.
  eexists. reflexivity.
Qed.

Lemma body_checks_ids (w : Workflow.t) :
  ensures (fun errors => unique_ids (Workflow.nodes w) = false ->
                         In [Lit "Duplicate node IDs found"] errors)
          (Workflow.validate_body w).
Proof.
  unfold Workflow.validate_body. skip. skip.
  apply ensures_lift. intros ids Hids. here; [apply lasting_if|].
  eapply ensures_impl; [|apply ensures_when].
  cbv beta. intros errors H Hu. apply H. apply negb_true_iff. apply Nat.eqb_neq.
  intros L. unfold Workflow.py_set in Hids.
  destruct (forallb hashable _); [|discriminate]. injection Hids as <-.
  symmetry in L. apply dedup_length_eq in L. apply dedup_fixed_unique in L.
  congruence.
Qed.

Lemma body_checks_names (w : Workflow.t) :
  ensures (fun errors => In [Lit "Duplicate node names found"] errors
                         \/ NoDup (map Node.name (Workflow.nodes w)))
          (Workflow.validate_body w).
Proof.
  unfold Workflow.validate_body. do 4 skip.
  match goal with
  | |- ensures _ (bind (Workflow.when_ ?b _) _) => destruct b eqn:E
  end.
  - here; [|].
    + intros s t [H|H]; [left; apply in_or_app; left; exact H|right; exact H].
    + eapply ensures_impl; [|apply ensures_append]. cbv beta. intros; left; assumption.
  - intros s x s' _. right. apply negb_false_iff in E. apply Nat.eqb_eq in E.
    symmetry in E.
    assert (M : map (fun node => JStr (Node.name node)) (Workflow.nodes w)
                = map JStr (map Node.name (Workflow.nodes w)))
      by (symmetry; apply map_map).
    rewrite M in E. apply dedup_length_eq in E. apply dedup_fixed_nodup. exact E.
Qed.

(** X13. Whenever Workflow.validate returns, for every entry of connections: if
    the source name is the name of no node, the list holds the message that the
    connection source does not exist; the entry's value is a dict; and for every
    record found under any output type (not only main), in any slot, whose node
    field is the name of no node, the list holds the message that the connection
    target does not exist. *)
Theorem workflow_validate_reports_unknown_endpoints (w : Workflow.t)
    (errors : list msg) (items : dict) (source_name : string) (outputs : json) :
  Workflow.validate w = Return errors ->
  Workflow.connections w = JDict items -> In (source_name, outputs) items ->
  (~ In source_name (map Node.name (Workflow.nodes w)) ->
   In [Lit "Connection source '"; Val (JStr source_name); Lit "' does not exist"]
      errors)
  /\ exists out_items,
       outputs = JDict out_items
       /\ forall (output_type : string) (output_groups output_group : json)
            (groups group : list json) (c : dict) (target_name : json),
            In (output_type, output_groups) out_items ->
            py_iter output_groups = Return groups -> In output_group groups ->
            py_iter output_group = Return group -> In (JDict c) group ->
            dict_get "node" c = Some target_name ->
            (forall node, In node (Workflow.nodes w) ->
                          target_name <> JStr (Node.name node)) ->
            In [Lit "Connection target '"; Val target_name;
                Lit "' does not exist"] errors.
Proof.
  intros H Hc Hin. apply validate_returns in H. split.
  - intros Hn. exact (body_reports_source w items source_name outputs Hc Hin Hn _ _ _ H).
  - assert (Ho : exists out_items, outputs = JDict out_items).
    { revert H. unfold Workflow.validate_body.
      match goal with
      | |- ?m [] = _ -> ?G => change (m [] = (Return tt, errors) -> (fun _ => G) errors)
      end.
      revert errors. 
      match goal with
      | |- forall errors, ?m [] = _ -> ?Q errors =>
          cut (ensures Q m); [intros E errors H; exact (E _ _ _ H)|]
      end.
      do 6 skip. apply ensures_lift. intros its Hits.
      rewrite Hc in Hits. injection Hits as <-.
      apply (ensures_for_each _ _ _ (source_name, outputs));
        [apply lasting_const| |exact Hin|].
      { intros [s o]. solve_grows. }
      cbv beta iota. skip. apply ensures_lift. intros oi Hoi. apply ensures_const.
      destruct outputs; try discriminate. eexists. reflexivity. }
    destruct Ho as (out_items & ->). exists out_items. split; [reflexivity|].
    intros output_type output_groups output_group groups group c target_name
           Ho Hgs Hg Hgr Hcn Ht Hn.
    exact (body_reports_target w items out_items c source_name output_type
             output_groups output_group target_name groups group
             Hc Hin Ho Hgs Hg Hgr Hcn Ht Hn _ _ _ H).
Qed.

(** X14. Whenever Workflow.validate returns a list: an empty workflow name is
    reported; an empty node list is reported; two nodes at different positions
    with equal ids are reported as duplicate ids, and two with equal names as
    duplicate names; and for the node at each position i (counted from 0),
    Node.validate returned, and each of its messages is in the list prefixed by
    the node's number i+1 and its name. *)
Theorem workflow_validate_reports_node_problems (w : Workflow.t)
    (errors : list msg) :
  Workflow.validate w = Return errors ->
  (Workflow.name w = "" -> In [Lit "Workflow name is required"] errors)
  /\ (Workflow.nodes w = [] ->
      In [Lit "Workflow must contain at least one node"] errors)
  /\ (forall (i j : nat) (a b : Node.t),
        (i < j)%nat -> nth_error (Workflow.nodes w) i = Some a ->
        nth_error (Workflow.nodes w) j = Some b ->
        (py_eq (Node.id a) (Node.id b) = true ->
         In [Lit "Duplicate node IDs found"] errors)
        /\ (Node.name a = Node.name b ->
            In [Lit "Duplicate node names found"] errors))
  /\ forall (i : nat) (node : Node.t),
       nth_error (Workflow.nodes w) i = Some node ->
       exists node_errors,
         Node.validate node = Return node_errors
         /\ forall error, In error node_errors ->
              In [Lit "Node "; Val (JInt (Z.of_nat i + 1)); Lit " (";
                  Val (JStr (Node.name node)); Lit "): "; Lit error] errors.
Proof.
  intros H. apply validate_returns in H.
  split; [intros Hn; exact (body_reports_name w Hn _ _ _ H)|].
  split; [intros Hn; exact (body_reports_empty w Hn _ _ _ H)|].
  split.
  - intros i j a b Hij Ha Hb. split; intros He.
    + exact (body_reports_duplicate_ids w i j a b Hij Ha Hb He _ _ _ H).
    + exact (body_reports_duplicate_names w i j a b Hij Ha Hb He _ _ _ H).
  - intros i node Hn.
    destruct (body_runs_node_validate w i node Hn _ _ _ H) as (es & Hes).
    exists es. split; [exact Hes|]. intros error He.
    exact (body_reports_node_error w i node es error Hn Hes He _ _ _ H).
Qed.

(** X15. If Workflow.validate returns the empty list, then the workflow has a
    non-empty name and at least one node, no two nodes have equal ids, no two
    have the same name, Node.validate returns the empty list for every node,
    connections is a dict, every source name in it is the name of a node, and
    every record under any output type whose node field is present names a node
    of the workflow. *)
Theorem workflow_validate_clean (w : Workflow.t) :
  Workflow.validate w = Return [] ->
  Workflow.name w <> ""
  /\ Workflow.nodes w <> []
  /\ unique_ids (Workflow.nodes w) = true
  /\ NoDup (map Node.name (Workflow.nodes w))
  /\ Forall (fun node => Node.validate node = Return []) (Workflow.nodes w)
  /\ exists items,
       Workflow.connections w = JDict items
       /\ forall (source_name : string) (outputs : json),
            In (source_name, outputs) items ->
            In source_name (map Node.name (Workflow.nodes w))
            /\ forall (out_items : dict) (output_type : string)
                 (output_groups output_group : json)
                 (groups group : list json) (c : dict) (target_name : json),
                 outputs = JDict out_items ->
                 In (output_type, output_groups) out_items ->
                 py_iter output_groups = Return groups -> In output_group groups ->
                 py_iter output_group = Return group -> In (JDict c) group ->
                 dict_get "node" c = Some target_name ->
                 exists node,
                   In node (Workflow.nodes w)
                   /\ target_name = JStr (Node.name node).
Proof.
  intros H. apply validate_returns in H.
  split.
  { intros Hn. exact (body_reports_name w Hn _ _ _ H). }
  split.
  { intros Hn. exact (body_reports_empty w Hn _ _ _ H). }
  split.
  { destruct (unique_ids (Workflow.nodes w)) eqn:E; [reflexivity|].
    destruct (body_checks_ids w _ _ _ H E). }
  split.
  { destruct (body_checks_names w _ _ _ H) as [[]|N]. exact N. }
  split.
  { apply Forall_forall. intros node Hin.
    apply In_nth_error in Hin. destruct Hin as (i & Hi).
    destruct (body_runs_node_validate w i node Hi _ _ _ H) as (es & Hes).
    destruct es as [|e r]; [exact Hes|].
    destruct (body_reports_node_error w i node (e :: r) e Hi Hes
                (or_introl eq_refl) _ _ _ H). }
  destruct (body_needs_connections w _ _ _ H) as (items & Hc).
  exists items. split; [exact Hc|]. intros source_name outputs Hin. split.
  { destruct (in_dec string_dec source_name (map Node.name (Workflow.nodes w)))
      as [Y|N]; [exact Y|].
    destruct (body_reports_source w items source_name outputs Hc Hin N _ _ _ H). }
  intros out_items output_type output_groups output_group groups group c
         target_name -> Ho Hgs Hg Hgr Hcn Ht.
  assert (D : (exists node, In node (Workflow.nodes w)
                            /\ target_name = JStr (Node.name node))
              \/ forall node, In node (Workflow.nodes w) ->
                              target_name <> JStr (Node.name node)).
  { destruct target_name as [| | | |s| |];
      try (right; intros node _; discriminate).
    destruct (in_dec string_dec s (map Node.name (Workflow.nodes w))) as [Y|N].
    - left. apply in_map_iff in Y. destruct Y as (node & <- & Hnode).
      exists node. split; [exact Hnode|reflexivity].
    - right. intros node Hnode [= ->]. apply N. apply in_map. exact Hnode. }
  destruct D as [D|D]; [exact D|].
  destruct (body_reports_target w items out_items c source_name output_type
              output_groups output_group target_name groups group
              Hc Hin Ho Hgs Hg Hgr Hcn Ht D _ _ _ H).
Qed.

Lemma fails_ret {A : Type} (R : exn -> Prop) (a : A) : fails_with R (ret a).
Proof. intros s e s'. discriminate. Qed.

Lemma fails_append (R : exn -> Prop) (m : msg) :
  fails_with R (Workflow.append_error m).
Proof. intros s e s'. discriminate. Qed.

Lemma fails_when (R : exn -> Prop) (b : bool) (m : M (list msg) unit) :
  fails_with R m -> fails_with R (Workflow.when_ b m).
Proof. intros H. destruct b; [exact H|apply fails_ret]. Qed.

Lemma fails_lift {A B : Type} (R : exn -> Prop) (o : outcome A)
    (k : A -> M (list msg) B) :
  (forall e, o = Raise e -> R e) -> (forall a, fails_with R (k a)) ->
  fails_with R (bind (lift_outcome o) k).
Proof.
  intros Ho Hk s e s'. unfold bind, lift_outcome. destruct o as [a|e0].
  - apply Hk.
  - intros [= <- _]. apply Ho. reflexivity.
Qed.

Lemma fails_bind {A B : Type} (R : exn -> Prop) (m : M (list msg) A)
    (k : A -> M (list msg) B) :
  fails_with R m -> (forall a, fails_with R (k a)) -> fails_with R (bind m k).
Proof.
  intros Hm Hk s e s'. unfold bind. destruct (m s) as [[a|e0] s1] eqn:E.
  - apply Hk.
  - intros [= <- _]. exact (Hm _ _ _ E).
Qed.

Lemma fails_for_each {A : Type} (R : exn -> Prop) (xs : list A)
    (body : A -> M (list msg) unit) :
  (forall x, fails_with R (body x)) -> fails_with R (for_each xs body).
Proof.
  intros Hb. induction xs as [|x r IH]; cbn [for_each].
  - apply fails_ret.
  - apply fails_bind; [apply Hb|intros _; exact IH].
Qed.

Lemma node_validate_raise_kind (n : Node.t) (e : exn) :
  Node.validate n = Raise e -> e = Builtin OverflowError.
Proof.
  unfold Node.validate.
  destruct (Node.position n) as [| | | | |[|a [|b [|c r]]]|]; cbn;
    try discriminate.
  destruct (Node.float_ a) as [[]|ea] eqn:Ea; cbn.
  - destruct (Node.float_ b) as [[]|eb] eqn:Eb; cbn; [discriminate|].
    destruct (float_raises _ _ Eb) as [[-> Hb]|[[->|[m ->]] _]];
      cbn; try discriminate.
    intros [= <-]. reflexivity.
  - destruct (float_raises _ _ Ea) as [[-> Ha]|[[->|[m ->]] _]];
      cbn; try discriminate.
    intros [= <-]. reflexivity.
Qed.

Lemma py_iter_raise_kind (j : json) (e : exn) :
  py_iter j = Raise e -> e = Builtin TypeError.
Proof. destruct j; cbn; try discriminate; intros [= <-]; reflexivity. Qed.

Ltac fails_step :=
  first [ apply fails_ret | apply fails_append | apply fails_when
        | apply fails_lift; [intros ? ?|intros ?]
        | apply fails_bind; [|intros ?]
        | apply fails_for_each; intros ? ].

Lemma validate_raise_kinds (w : Workflow.t)
    (e : exn) :
  Workflow.validate w = Raise e -> validate_escape e.
Proof.
  unfold Workflow.validate.
  destruct (Workflow.validate_body w []) as [[[]|e0] s] eqn:E; [discriminate|].
  intros [= <-]. revert E.
  cut (fails_with validate_escape (Workflow.validate_body w));
    [intros F E; exact (F _ _ _ E)|].
  unfold Workflow.validate_body, validate_escape.
  repeat first
    [ fails_step
    | progress cbv beta zeta
    | match goal with
      | |- fails_with _ (let '(_, _) := ?x in _) => destruct x
      | |- fails_with _ (match ?c with _ => _ end) => destruct c
      | H : Workflow.py_set _ = Raise _ |- _ =>
          unfold Workflow.py_set in H; destruct (forallb hashable _) in H;
          [discriminate|injection H as <-; auto]
      | H : Node.validate _ = Raise _ |- _ =>
          apply node_validate_raise_kind in H; subst; auto
      | H : py_iter _ = Raise _ |- _ =>
          apply py_iter_raise_kind in H; subst; auto
      | H : Workflow.py_items ?v = Raise _ |- _ =>
          destruct v; cbn in H; try discriminate; injection H as <-; auto
      | H : Workflow.in_names ?v _ = Raise _ |- _ =>
          unfold Workflow.in_names in H; destruct (hashable v) in H;
          [discriminate|injection H as <-; auto]
      end ].
Qed.

(** X16. Workflow.validate never raises one of the SDK's errors: whenever it
    raises, the exception is TypeError, AttributeError or OverflowError (from an
    unhashable id or target name, a value that cannot be iterated, connections
    or an entry that is no dict, or a coordinate too large for a double). *)
Theorem workflow_validate_raises_interpreter_errors_only (w : Workflow.t)
    (e : exn) :
  Workflow.validate w = Raise e -> validate_escape e.
Proof. exact (validate_raise_kinds w e). Qed.

End WorkflowValidate.

(** ** Export, case by case *)

Section ExportMore.
Context {P : Platform}.

Ltac unfold_export :=
  unfold Workflow.export, Workflow.update, Workflow.log_, try_except, bind,
    gets, modify, raise, ret, lift_outcome;
  cbn [Workflow.self Workflow.logs Workflow.disk].

Lemma nodes_to_dict_raises (ns : list Node.t) (e : exn) :
  Workflow.nodes_to_dict ns = Raise e ->
  e = Builtin TypeError
  /\ exists node, In node ns /\ py_iter (Node.position node) = Raise e.
Proof.
  induction ns as [|n r IH]; [discriminate|]. cbn [Workflow.nodes_to_dict].
  unfold Node.to_dict at 1.
  destruct (py_iter (Node.position n)) as [pos|e0] eqn:Ep; cbn [obind].
  - destruct (truthy (Node.credentials n)); cbn [obind];
      (destruct (Workflow.nodes_to_dict r) as [js|e1]; cbn [obind];
       [discriminate|]; intros [= <-];
       destruct (IH eq_refl) as (K & node & Hin & Hn);
       split; [exact K|]; exists node; split; [right; exact Hin|exact Hn]).
  - intros [= <-]. split; [exact (py_iter_raise_kind _ _ Ep)|].
    exists n. split; [left; reflexivity|exact Ep].
Qed.



(** X18. If validation is not requested, or validate() returns the empty list,
    and the destination has a directory part that can be created, to_dict()
    returns a document and the file can be written, then export returns: the
    file system is the one after creating the directory and writing the document
    (indent 2 when pretty, none otherwise), and the workflow is unchanged but
    for updated_at. With validate=False a workflow that validate() rejects is
    exported all the same. *)
Theorem export_writes_document (w : Workflow.t) (file_path : string)
    (pretty validate_ : bool) (now : string) (lg : Log)
    (fs fs1 fs2 : FileSystem) (doc : json) :
  (validate_ = true -> Workflow.validate w = Return []) ->
  dirname (abspath file_path) <> "" ->
  makedirs (dirname (abspath file_path)) fs = Some fs1 ->
  Workflow.to_dict w = Return doc ->
  write_text file_path (JsonText (if pretty then Some 2%nat else None) doc) fs1
  = Some fs2 ->
  exists lg',
    Workflow.export file_path pretty validate_ now (obj w lg fs)
    = (Return tt, obj (Workflow.with_updated_at (JStr now) w) lg' fs2).
Proof.
  intros Hv Hd Hm Ht Hw. unfold obj. unfold_export.
  rewrite (eqb_empty_false _ Hd). cbn [negb].
  match goal with
  | |- context [makedirs ?a ?b] => change (makedirs a b) with
        (makedirs (dirname (abspath file_path)) fs)
  end.
  rewrite Hm. cbn [Workflow.self Workflow.logs Workflow.disk].
  destruct validate_.
  - rewrite (Hv eq_refl). cbn [Workflow.self Workflow.logs Workflow.disk].
    rewrite Ht. cbn [Workflow.self Workflow.logs Workflow.disk]. rewrite Hw.
    eexists. reflexivity.
  - rewrite Ht. cbn [Workflow.self Workflow.logs Workflow.disk]. rewrite Hw.
    eexists. reflexivity.
Qed.

End ExportMore.

(** ** Reading a workflow from a document *)

Lemma node_from_dict_raises (data : json) (uuid : N) (log log' : Log) (e : exn) :
  Node.from_dict data uuid log = (Raise e, log') ->
  e = Builtin AttributeError
  \/ exists m code,
       e = Sdk NodeError m (Some code)
       /\ (code = ErrorCodes.NODE_INVALID_TYPE
           \/ code = ErrorCodes.NODE_MISSING_REQUIRED_FIELD).
Proof.
  unfold Node.from_dict. destruct data as [| | | | | |d];
    try (intros [= <- _]; left; reflexivity).
  unfold Node.__init__, bind, lift_outcome, ret, raise, logger, modify.
  destruct (required_text (dict_get_default "type" (JStr "") d))
    as [[ty|]|e1] eqn:Et.
  - destruct (required_text (dict_get_default "name" (JStr "") d))
      as [[nm|]|e2] eqn:En.
    + discriminate.
    + intros [= <- _]. right. eauto 6.
    + intros [= <- _]. left. revert En. unfold required_text.
      destruct (negb (truthy _)); [discriminate|].
      destruct (dict_get_default "name" (JStr "") d); try (intros [= <-]; reflexivity).
      destruct (String.eqb _ _); discriminate.
  - intros [= <- _]. right. eauto 6.
  - intros [= <- _]. left. revert Et. unfold required_text.
    destruct (negb (truthy _)); [discriminate|].
    destruct (dict_get_default "type" (JStr "") d); try (intros [= <-]; reflexivity).
    destruct (String.eqb _ _); discriminate.
Qed.

Lemma import_nodes_returns (node_uuid : nat -> N) (nodes_data : list json) :
  forall (i : nat) (acc ns : list Node.t) (log log' : Log),
    Workflow.import_nodes i node_uuid nodes_data acc log = (Return ns, log') ->
    exists new,
      ns = acc ++ new
      /\ length new = length nodes_data
      /\ forall (k : nat) (node_data : json),
           nth_error nodes_data k = Some node_data ->
           exists node lg lg',
             Node.from_dict node_data (node_uuid (i + k)%nat) lg = (Return node, lg')
             /\ nth_error new k = Some node.
Proof.
  induction nodes_data as [|x r IH]; intros i acc ns log log'.
  - intros [= <- _]. exists []. split; [symmetry; apply app_nil_r|].
    split; [reflexivity|]. intros [|k] nd; discriminate.
  - cbn [Workflow.import_nodes]. unfold bind.
    destruct (Node.from_dict x (node_uuid i) log) as [[node|e] lg1] eqn:E;
      [|discriminate].
    intros H. destruct (IH _ _ _ _ _ H) as (new & -> & Hl & Hk).
    exists (node :: new). split; [rewrite <- app_assoc; reflexivity|].
    split; [cbn; rewrite Hl; reflexivity|].
    intros [|k] nd Hnd.
    + injection Hnd as <-. exists node, log, lg1. rewrite Nat.add_0_r.
      split; [exact E|reflexivity].
    + destruct (Hk k nd Hnd) as (n' & lg & lg' & Hf & Hn).
      exists n', lg, lg'. replace (i + S k)%nat with (S i + k)%nat by lia.
      split; [exact Hf|exact Hn].
Qed.

Lemma import_nodes_raises (node_uuid : nat -> N) (nodes_data : list json) :
  forall (i : nat) (acc : list Node.t) (log log' : Log) (e : exn),
    Workflow.import_nodes i node_uuid nodes_data acc log = (Raise e, log') ->
    exists (k : nat) (node_data : json) (lg lg' : Log),
      nth_error nodes_data k = Some node_data
      /\ Node.from_dict node_data (node_uuid (i + k)%nat) lg = (Raise e, lg').
Proof.
  induction nodes_data as [|x r IH]; intros i acc log log' e.
  - discriminate.
  - cbn [Workflow.import_nodes]. unfold bind.
    destruct (Node.from_dict x (node_uuid i) log) as [[node|e0] lg1] eqn:E.
    + intros H. destruct (IH _ _ _ _ _ H) as (k & nd & lg & lg' & Hk & Hf).
      exists (S k), nd, lg, lg'. replace (i + S k)%nat with (S i + k)%nat by lia.
      split; [exact Hk|exact Hf].
    + intros [= <- _]. exists 0%nat, x, log, lg1. rewrite Nat.add_0_r.
      split; [reflexivity|exact E].
Qed.

(** X19. Whenever Workflow.from_dict returns a workflow, the data is a dict; the
    workflow's name is the stripped name field (default Imported Workflow), its
    id the id field or a fresh uuid when that is falsy; connections, active,
    settings, tags and both timestamps are taken from the data as they are, with
    their defaults when absent, without any check; and the nodes are the results
    of Node.from_dict on the items of the nodes field, one per item and in the
    same order, with no test for duplicate ids. *)
Theorem workflow_from_dict_reads_document (data : json) (uuid : N)
    (node_uuid : nat -> N) (now : string) (log log' : Log) (w : Workflow.t) :
  Workflow.from_dict data uuid node_uuid now log = (Return w, log') ->
  exists d nodes_data,
    data = JDict d
    /\ required_text (dict_get_default "name" (JStr "Imported Workflow") d)
       = Return (Some (Workflow.name w))
    /\ Workflow.id w = py_or (dict_get_default "id" JNull d) (JStr (uuid_str uuid))
    /\ Workflow.connections w = dict_get_default "connections" (JDict []) d
    /\ Workflow.active w = dict_get_default "active" (JBool true) d
    /\ Workflow.settings w = dict_get_default "settings" (JDict []) d
    /\ Workflow.tags w = dict_get_default "tags" (JList []) d
    /\ Workflow.created_at w = dict_get_default "createdAt" (JStr now) d
    /\ Workflow.updated_at w = dict_get_default "updatedAt" (JStr now) d
    /\ py_iter (dict_get_default "nodes" (JList []) d) = Return nodes_data
    /\ length (Workflow.nodes w) = length nodes_data
    /\ forall (k : nat) (node_data : json),
         nth_error nodes_data k = Some node_data ->
         exists node lg lg',
           Node.from_dict node_data (node_uuid k) lg = (Return node, lg')
           /\ nth_error (Workflow.nodes w) k = Some node.
Proof.
  unfold Workflow.from_dict. destruct data as [| | | | | |d]; try discriminate.
  unfold Workflow.__init__, bind, lift_outcome, ret, raise, logger, modify.
  destruct (required_text (dict_get_default "name" (JStr "Imported Workflow") d))
    as [[nm|]|e1] eqn:En; try discriminate.
  cbn [Workflow.nodes Workflow.id Workflow.name Workflow.created_at
       Workflow.updated_at].
  destruct (py_iter (dict_get_default "nodes" (JList []) d))
    as [nodes_data|e2] eqn:Ei; [|discriminate].
  destruct (Workflow.import_nodes 0 node_uuid nodes_data [] _)
    as [[ns|e3] lg3] eqn:Em; [|discriminate].
  intros [= <- _]. exists d, nodes_data.
  destruct (import_nodes_returns _ _ _ _ _ _ _ Em) as (new & -> & Hl & Hk).
  cbn [Workflow.nodes Workflow.id Workflow.name Workflow.created_at
       Workflow.updated_at Workflow.connections Workflow.active
       Workflow.settings Workflow.tags app].
  split; [reflexivity|]. split; [exact En|].
  do 7 (split; [reflexivity|]). split; [exact Ei|].
  split; [exact Hl|exact Hk].
Qed.

(** X20. Whenever Workflow.from_dict raises, the exception is AttributeError,
    TypeError, WorkflowError with code WF001, or NodeError with code ND001 or
    ND003; in particular it never raises the duplicate-node error WF003 and
    never a validation error. *)
Theorem workflow_from_dict_failures (data : json) (uuid : N)
    (node_uuid : nat -> N) (now : string) (log log' : Log) (e : exn) :
  Workflow.from_dict data uuid node_uuid now log = (Raise e, log') ->
  e = Builtin AttributeError
  \/ e = Builtin TypeError
  \/ (exists m, e = Sdk WorkflowError m (Some ErrorCodes.WORKFLOW_INVALID_NAME))
  \/ (exists m code,
        e = Sdk NodeError m (Some code)
        /\ (code = ErrorCodes.NODE_INVALID_TYPE
            \/ code = ErrorCodes.NODE_MISSING_REQUIRED_FIELD)).
Proof.
  unfold Workflow.from_dict. destruct data as [| | | | | |d];
    try (intros [= <- _]; left; reflexivity).
  unfold Workflow.__init__, bind, lift_outcome, ret, raise, logger, modify.
  destruct (required_text (dict_get_default "name" (JStr "Imported Workflow") d))
    as [[nm|]|e1] eqn:En.
  - cbn [Workflow.nodes].
    destruct (py_iter (dict_get_default "nodes" (JList []) d))
      as [nodes_data|e2] eqn:Ei.
    + destruct (Workflow.import_nodes 0 node_uuid nodes_data [] _)
        as [[ns|e3] lg3] eqn:Em; [discriminate|].
      intros [= <- _].
      destruct (import_nodes_raises _ _ _ _ _ _ _ Em) as (k & nd & lg & lg' & _ & Hf).
      destruct (node_from_dict_raises _ _ _ _ _ Hf) as [->|H]; [left; reflexivity|].
      right. right. right. exact H.
    + intros [= <- _]. right. left.
      destruct (dict_get_default "nodes" (JList []) d); cbn in Ei;
        try discriminate; injection Ei as <-; reflexivity.
  - intros [= <- _]. right. right. left. eauto.
  - intros [= <- _]. left. revert En. unfold required_text.
    destruct (negb (truthy _)); [discriminate|].
    destruct (dict_get_default "name" (JStr "Imported Workflow") d);
      try (intros [= <-]; reflexivity).
    destruct (String.eqb _ _); discriminate.
Qed.

(** ** What the document checker accepts *)

Lemma ofor_each_returns {A : Type} (body : A -> outcome unit) (xs : list A)
    (u : unit) :
  ofor_each xs body = Return u -> forall x, In x xs -> body x = Return tt.
Proof.
  induction xs as [|y r IH]; intros H x Hin; [destruct Hin|].
  cbn in H. destruct (body y) as [[]|e] eqn:E; [|discriminate].
  destruct Hin as [<-|Hin]; [exact E|]. exact (IH H x Hin).
Qed.

Lemma ofor_each_raise_inv {A : Type} (body : A -> outcome unit) (xs : list A)
    (e : exn) :
  ofor_each xs body = Raise e -> exists x, In x xs /\ body x = Raise e.
Proof.
  induction xs as [|y r IH]; [discriminate|].
  cbn. destruct (body y) as [[]|e'] eqn:E; cbn.
  - intros H. destruct (IH H) as (x & Hin & Hx). exists x.
    split; [right; exact Hin|exact Hx].
  - intros [= <-]. exists y. split; [left; reflexivity|exact E].
Qed.

Lemma enumerate_in {A : Type} (xs : list A) :
  forall (k : nat) (x : A), In x xs -> exists i, In (i, x) (Workflow.enumerate k xs).
Proof.
  induction xs as [|y r IH]; intros k x Hin; [destruct Hin|].
  destruct Hin as [<-|Hin].
  - exists k. left. reflexivity.
  - destruct (IH (S k) x Hin) as (i & Hi). exists i. right. exact Hi.
Qed.

Lemma py_eq_str_r (x : json) (t : string) : py_eq x (JStr t) = true -> x = JStr t.
Proof.
  destruct x as [|b|z|m e|s|l|d]; cbn; try discriminate.
  intros H. apply String.eqb_eq in H. congruence.
Qed.

Lemma dict_has_get (k : string) (d : dict) :
  dict_has k d = true -> exists v, dict_get k d = Some v.
Proof. unfold dict_has. destruct (dict_get k d); [eauto|discriminate]. Qed.

Lemma check_node_returns (i : nat) (node : json) :
  json_parser.check_node i node = Return tt ->
  exists nd id name type x y,
    node = JDict nd
    /\ dict_get "id" nd = Some (JStr id)
    /\ dict_get "name" nd = Some (JStr name)
    /\ dict_get "type" nd = Some (JStr type)
    /\ dict_get "position" nd = Some (JList [x; y]).
Proof.
  unfold json_parser.check_node. destruct node as [| | | | | |nd]; try discriminate.
  unfold json_parser.missing, json_parser.item, dict_get_default, dict_has.
  cbn [filter].
  destruct (dict_get "id" nd) as [id|] eqn:Hi; cbn [negb]; [|discriminate].
  destruct (dict_get "name" nd) as [name|] eqn:Hn; cbn [negb]; [|discriminate].
  destruct (dict_get "type" nd) as [type|] eqn:Ht; cbn [negb]; [|discriminate].
  destruct (dict_get "position" nd) as [position|] eqn:Hp; cbn [negb];
    [|discriminate].
  destruct id; cbn; try discriminate.
  destruct name; cbn; try discriminate.
  destruct type; cbn; try discriminate.
  destruct position as [| | | | |[|x [|y [|z r]]]|]; cbn; try discriminate.
  intros _. exists nd. do 5 eexists.
  split; [reflexivity|]. split; [exact Hi|]. split; [exact Hn|].
  split; [exact Ht|exact Hp].
Qed.

Lemma check_node_raises (i : nat) (node : json) (e : exn) :
  json_parser.check_node i node = Raise e -> exists m, e = ValueError m.
Proof.
  unfold json_parser.check_node. destruct node as [| | | | | |nd];
    try (intros [= <-]; eauto).
  destruct (json_parser.missing _ nd); [|intros [= <-]; eauto].
  repeat (match goal with
          | |- context [if ?b then _ else _] => destruct b
          end; [intros [= <-]; eauto|]).
  discriminate.
Qed.

Lemma check_source_returns (node_names : list json) (source_node : string)
    (connection_data : json) :
  json_parser.check_source node_names (source_node, connection_data) = Return tt ->
  In (JStr source_node) node_names
  /\ exists cd,
       connection_data = JDict cd
       /\ forall main,
            dict_get "main" cd = Some main ->
            exists main_connections,
              main = JList main_connections
              /\ forall conn_group conn,
                   In (JList conn_group) main_connections -> In conn conn_group ->
                   exists c target,
                     conn = JDict c
                     /\ dict_get "node" c = Some target
                     /\ existsb (py_eq target) node_names = true.
Proof.
  unfold json_parser.check_source.
  destruct (existsb (py_eq (JStr source_node)) node_names) eqn:Es;
    cbn [negb]; [|discriminate].
  destruct connection_data as [| | | | | |cd]; try discriminate.
  intros H. split; [apply existsb_py_eq_str; exact Es|].
  exists cd. split; [reflexivity|]. intros main Hm. rewrite Hm in H.
  destruct main as [| | | | |main_connections|]; try discriminate.
  exists main_connections. split; [reflexivity|].
  intros conn_group conn Hg Hc.
  pose proof (ofor_each_returns _ _ _ H _ Hg) as G.
  cbn [json_parser.check_group] in G.
  pose proof (ofor_each_returns _ _ _ G _ Hc) as C.
  unfold json_parser.check_conn in C.
  destruct conn as [| | | | | |c]; try discriminate.
  destruct (dict_get "node" c) as [target|] eqn:Ht; [|discriminate].
  unfold json_parser.in_node_names in C.
  destruct (hashable target); [|discriminate]. cbn [obind] in C.
  destruct (existsb (py_eq target) node_names) eqn:E; [|discriminate].
  exists c, target. split; [reflexivity|]. split; [exact Ht|exact E].
Qed.

Lemma check_source_raises (node_names : list json) (entry : string * json)
    (e : exn) :
  json_parser.check_source node_names entry = Raise e ->
  (exists m, e = ValueError m) \/ e = Builtin TypeError.
Proof.
  destruct entry as [source_node connection_data]. unfold json_parser.check_source.
  destruct (negb _); [intros [= <-]; eauto|].
  destruct connection_data as [| | | | | |cd]; try (intros [= <-]; eauto).
  destruct (dict_get "main" cd) as [[| | | | |main_connections|]|];
    try (intros [= <-]; eauto); try discriminate.
  intros H. apply ofor_each_raise_inv in H. destruct H as (g & _ & H).
  destruct g as [| | | | |group|]; try discriminate.
  cbn [json_parser.check_group] in H.
  apply ofor_each_raise_inv in H. destruct H as (conn & _ & H).
  unfold json_parser.check_conn in H.
  destruct conn as [| | | | | |c]; try (injection H as <-; eauto).
  destruct (dict_get "node" c) as [target|]; [|injection H as <-; eauto].
  unfold json_parser.in_node_names in H.
  destruct (hashable target); [|injection H as <-; right; reflexivity].
  cbn [obind] in H. destruct (negb _); [injection H as <-; eauto|discriminate].
Qed.

Lemma checker_accepts_shape_aux (data : json) (b : bool) :
  json_parser.validate_workflow_structure data = Return b ->
  b = true
  /\ exists d nodes connections,
       data = JDict d
       /\ dict_get "nodes" d = Some (JList nodes) /\ nodes <> []
       /\ dict_get "connections" d = Some (JDict connections)
       /\ (forall node, In node nodes ->
             exists nd id name type x y,
               node = JDict nd
               /\ dict_get "id" nd = Some (JStr id)
               /\ dict_get "name" nd = Some (JStr name)
               /\ dict_get "type" nd = Some (JStr type)
               /\ dict_get "position" nd = Some (JList [x; y]))
       /\ forall source_node connection_data,
            In (source_node, connection_data) connections ->
            In (JStr source_node) (doc_node_names d)
            /\ exists cd,
                 connection_data = JDict cd
                 /\ forall main,
                      dict_get "main" cd = Some main ->
                      exists main_connections,
                        main = JList main_connections
                        /\ forall conn_group conn,
                             In (JList conn_group) main_connections ->
                             In conn conn_group ->
                             exists c target,
                               conn = JDict c
                               /\ dict_get "node" c = Some (JStr target)
                               /\ In (JStr target) (doc_node_names d).
Proof.
  unfold json_parser.validate_workflow_structure.
  destruct data as [| | | | | |d]; try discriminate.
  unfold json_parser.missing, json_parser.item, dict_get_default, dict_has.
  cbn [filter].
  destruct (dict_get "nodes" d) as [nodes_|] eqn:Hnodes; cbn [negb];
    [|destruct (dict_get "connections" d); discriminate].
  destruct (dict_get "connections" d) as [connections_|] eqn:Hconns; cbn [negb];
    [|discriminate].
  destruct nodes_ as [| | | | |nodes|]; try discriminate.
  destruct nodes as [|n0 ns]; [discriminate|].
  destruct (ofor_each (Workflow.enumerate 0 (n0 :: ns)) _) as [[]|e] eqn:En;
    [|discriminate].
  cbn [obind]. destruct connections_ as [| | | | | |connections]; try discriminate.
  destruct (ofor_each connections _) as [[]|e] eqn:Ec; [|discriminate].
  intros [= <-]. split; [reflexivity|].
  assert (Hdn : doc_node_names d = map json_parser.node_name_of (n0 :: ns)).
  { unfold doc_node_names. rewrite Hnodes. reflexivity. }
  exists d, (n0 :: ns), connections. rewrite Hdn.
  split; [reflexivity|]. split; [exact Hnodes|]. split; [discriminate|].
  split; [exact Hconns|]. split.
  - intros node Hin. destruct (enumerate_in _ 0%nat node Hin) as (i & Hi).
    pose proof (ofor_each_returns _ _ _ En _ Hi) as C. cbv beta iota in C.
    exact (check_node_returns _ _ C).
  - intros source_node connection_data Hin.
    pose proof (ofor_each_returns _ _ _ Ec _ Hin) as C.
    destruct (check_source_returns _ _ _ C) as (Hs & cd & -> & Hm).
    split; [exact Hs|]. exists cd. split; [reflexivity|].
    intros main Hmain. destruct (Hm main Hmain) as (mc & -> & Hg).
    exists mc. split; [reflexivity|]. intros conn_group conn Hcg Hcn.
    destruct (Hg conn_group conn Hcg Hcn) as (c & target & -> & Ht & Hk).
    apply existsb_exists in Hk. destruct Hk as (nm & Hnm & Heq).
    apply in_map_iff in Hnm. destruct Hnm as (node & Hname & Hnode).
    destruct (enumerate_in _ 0%nat node Hnode) as (i & Hi).
    pose proof (ofor_each_returns _ _ _ En _ Hi) as C'. cbv beta iota in C'.
    destruct (check_node_returns _ _ C')
      as (nd & id & name & type & x & y & -> & _ & Hn & _).
    unfold json_parser.node_name_of, json_parser.item, dict_get_default in Hname.
    rewrite Hn in Hname. subst nm. apply py_eq_str_r in Heq. subst target.
    exists c, name. split; [reflexivity|]. split; [exact Ht|].
    apply in_map_iff. exists (JDict nd). split; [|exact Hnode].
    unfold json_parser.node_name_of, json_parser.item, dict_get_default.
    rewrite Hn. reflexivity.
Qed.

(** X21. Whenever validate_workflow_structure returns, it returns True and the
    data has this shape: a dict whose nodes field is a non-empty list and whose
    connections field is a dict; every node is a dict with string id, name and
    type and a position that is a list of two items; every connection source is
    the name of a node and its value is a dict; and where that dict has a main
    field, it is a list, and every record in each of its list-valued slots is a
    dict whose node field is a string naming a node of the document. *)
Theorem checker_accepts_only_well_shaped (data : json) (b : bool) :
  json_parser.validate_workflow_structure data = Return b ->
  b = true
  /\ exists d nodes connections,
       data = JDict d
       /\ dict_get "nodes" d = Some (JList nodes) /\ nodes <> []
       /\ dict_get "connections" d = Some (JDict connections)
       /\ (forall node, In node nodes ->
             exists nd id name type x y,
               node = JDict nd
               /\ dict_get "id" nd = Some (JStr id)
               /\ dict_get "name" nd = Some (JStr name)
               /\ dict_get "type" nd = Some (JStr type)
               /\ dict_get "position" nd = Some (JList [x; y]))
       /\ forall source_node connection_data,
            In (source_node, connection_data) connections ->
            In (JStr source_node) (doc_node_names d)
            /\ exists cd,
                 connection_data = JDict cd
                 /\ forall main,
                      dict_get "main" cd = Some main ->
                      exists main_connections,
                        main = JList main_connections
                        /\ forall conn_group conn,
                             In (JList conn_group) main_connections ->
                             In conn conn_group ->
                             exists c target,
                               conn = JDict c
                               /\ dict_get "node" c = Some (JStr target)
                               /\ In (JStr target) (doc_node_names d).
Proof. exact (checker_accepts_shape_aux data b). Qed.

(** X22. Whenever validate_workflow_structure raises, the exception is
    ValueError, or TypeError (from a record whose node field is unhashable); no
    other exception escapes it. *)
Theorem checker_raises_value_or_type_error (data : json) (e : exn) :
  json_parser.validate_workflow_structure data = Raise e ->
  (exists m, e = ValueError m) \/ e = Builtin TypeError.
Proof.
  unfold json_parser.validate_workflow_structure.
  destruct data as [| | | | | |d]; try (intros [= <-]; eauto).
  destruct (json_parser.missing _ d); [|intros [= <-]; eauto].
  destruct (json_parser.item "nodes" d) as [| | | | |nodes|];
    try (intros [= <-]; eauto).
  destruct nodes as [|n0 ns]; [intros [= <-]; eauto|].
  destruct (ofor_each (Workflow.enumerate 0 (n0 :: ns)) _) as [[]|e0] eqn:En;
    cbn [obind].
  - destruct (json_parser.item "connections" d) as [| | | | | |connections];
      try (intros [= <-]; eauto).
    destruct (ofor_each connections _) as [[]|e1] eqn:Ec; cbn [obind];
      [discriminate|].
    intros [= <-]. apply ofor_each_raise_inv in Ec.
    destruct Ec as (entry & _ & H). exact (check_source_raises _ _ _ H).
  - intros [= <-]. apply ofor_each_raise_inv in En.
    destruct En as ([i node] & _ & H). left. exact (check_node_raises _ _ _ H).
Qed.

(** ** From an accepted document to a workflow *)

Lemma node_from_dict_returns (nd : dict) (name type : string) (uuid : N)
    (log : Log) :
  dict_get "name" nd = Some (JStr name) -> strip name <> "" ->
  dict_get "type" nd = Some (JStr type) -> strip type <> "" ->
  exists n log',
    Node.from_dict (JDict nd) uuid log = (Return n, log')
    /\ Node.name n = strip name /\ Node.type n = strip type.
Proof.
  intros Hn Hns Ht Hts.
  unfold Node.from_dict, Node.__init__, bind, lift_outcome, ret, logger, modify,
    dict_get_default.
  rewrite Hn, Ht, (required_text_ok _ Hts), (required_text_ok _ Hns).
  eexists. eexists. split; [reflexivity|]. split; reflexivity.
Qed.

Lemma node_from_dict_text_fields (nd : dict) (name type : string) (uuid : N)
    (log log' : Log) (e : exn) :
  dict_get "name" nd = Some (JStr name) ->
  dict_get "type" nd = Some (JStr type) ->
  Node.from_dict (JDict nd) uuid log = (Raise e, log') ->
  (strip name = "" \/ strip type = "")
  /\ exists m code, e = Sdk NodeError m (Some code).
Proof.
  intros Hn Ht.
  unfold Node.from_dict, Node.__init__, bind, lift_outcome, ret, raise, logger,
    modify, dict_get_default.
  rewrite Hn, Ht.
  destruct (String.eqb_spec (strip type) "") as [Et|Et].
  - unfold required_text at 1. cbn [truthy].
    destruct (String.eqb type ""); cbn [negb].
    + intros [= <- _]. split; [right; exact Et|eauto].
    + rewrite Et. cbn. intros [= <- _]. split; [right; reflexivity|eauto].
  - rewrite (required_text_ok _ Et).
    destruct (String.eqb_spec (strip name) "") as [En|En].
    + unfold required_text. cbn [truthy].
      destruct (String.eqb name ""); cbn [negb].
      * intros [= <- _]. split; [left; exact En|eauto].
      * rewrite En. cbn. intros [= <- _]. split; [left; reflexivity|eauto].
    + rewrite (required_text_ok _ En). discriminate.
Qed.

(** X23. For a document that validate_workflow_structure accepts: if its name
    field (or the default) is a non-blank string and every node has a non-blank
    name and type, Workflow.from_dict returns a workflow with that name, one
    node per node of the document, and the document's connections. And whenever
    Workflow.from_dict raises on an accepted document, the cause is one of
    three: a blank workflow name (WF001), a name field that is no string
    (AttributeError), or a node whose name or type is blank after stripping
    (NodeError); the checker does not rule these out. *)
Theorem checked_document_import (d : dict) (uuid : N) (node_uuid : nat -> N)
    (now : string) (log : Log) :
  json_parser.validate_workflow_structure (JDict d) = Return true ->
  exists nodes connections,
    dict_get "nodes" d = Some (JList nodes)
    /\ dict_get "connections" d = Some (JDict connections)
    /\ (forall workflow_name,
          required_text (dict_get_default "name" (JStr "Imported Workflow") d)
          = Return (Some workflow_name) ->
          (forall nd name type,
             In (JDict nd) nodes -> dict_get "name" nd = Some (JStr name) ->
             dict_get "type" nd = Some (JStr type) ->
             strip name <> "" /\ strip type <> "") ->
          exists w log',
            Workflow.from_dict (JDict d) uuid node_uuid now log = (Return w, log')
            /\ Workflow.name w = workflow_name
            /\ length (Workflow.nodes w) = length nodes
            /\ Workflow.connections w = JDict connections)
    /\ forall e log',
         Workflow.from_dict (JDict d) uuid node_uuid now log = (Raise e, log') ->
         (exists m, e = Sdk WorkflowError m (Some ErrorCodes.WORKFLOW_INVALID_NAME))
         \/ (e = Builtin AttributeError
             /\ exists v, dict_get "name" d = Some v
                          /\ json_parser.is_str v = false)
         \/ (exists m code nd name type,
               e = Sdk NodeError m (Some code)
               /\ In (JDict nd) nodes
               /\ dict_get "name" nd = Some (JStr name)
               /\ dict_get "type" nd = Some (JStr type)
               /\ (strip name = "" \/ strip type = "")).
Proof.
  intros H.
  destruct (checker_accepts_shape_aux _ _ H)
    as (_ & d' & nodes & connections & [= <-] & Hnodes & Hne & Hconns & Hshape & _).
  exists nodes, connections. split; [exact Hnodes|]. split; [exact Hconns|].
  assert (Hiter : py_iter (dict_get_default "nodes" (JList []) d) = Return nodes).
  { unfold dict_get_default. rewrite Hnodes. reflexivity. }
  split.
  - intros workflow_name Hname Htext.
    assert (Himp : forall i acc lg, exists ns lg',
               Workflow.import_nodes i node_uuid nodes acc lg = (Return ns, lg')).
    { clear Hiter Hnodes Hne. induction nodes as [|x r IH]; intros i acc lg.
      - eexists. eexists. reflexivity.
      - destruct (Hshape x (or_introl eq_refl))
          as (nd & id & name & type & a & b & -> & _ & Hn & Ht & _).
        destruct (Htext nd name type (or_introl eq_refl) Hn Ht) as (Hns & Hts).
        destruct (node_from_dict_returns nd name type (node_uuid i) lg Hn Hns Ht Hts)
          as (n & lg1 & Hf & _).
        destruct (IH (fun y Hy => Hshape y (or_intror Hy))
                     (fun nd' nm' ty' Hy => Htext nd' nm' ty' (or_intror Hy))
                     (S i) (acc ++ [n]) lg1) as (ns & lg' & Hi).
        exists ns, lg'. cbn [Workflow.import_nodes]. unfold bind.
        rewrite Hf. exact Hi. }
    unfold Workflow.from_dict, Workflow.__init__, bind, lift_outcome, ret,
      logger, modify.
    rewrite Hname, Hiter. cbn [Workflow.nodes].
    match goal with
    | |- context [Workflow.import_nodes 0 node_uuid nodes [] ?lg] =>
        destruct (Himp 0%nat [] lg) as (ns & lg' & Hi);
        pose proof (import_nodes_returns _ _ _ _ _ _ _ Hi) as (new & -> & Hl & _);
        rewrite Hi
    end.
    eexists. eexists. split; [reflexivity|].
    cbn [Workflow.name Workflow.nodes Workflow.connections app].
    split; [reflexivity|]. split; [exact Hl|].
    unfold dict_get_default. rewrite Hconns. reflexivity.
  - intros e log'.
    unfold Workflow.from_dict, Workflow.__init__, bind, lift_outcome, ret, raise,
      logger, modify.
    destruct (required_text (dict_get_default "name" (JStr "Imported Workflow") d))
      as [[nm|]|e1] eqn:En.
    + rewrite Hiter. cbn [Workflow.nodes].
      destruct (Workflow.import_nodes 0 node_uuid nodes [] _)
        as [[ns|e3] lg3] eqn:Em; [discriminate|].
      intros [= <- _]. right. right.
      destruct (import_nodes_raises _ _ _ _ _ _ _ Em)
        as (k & node_data & lg & lg' & Hk & Hf).
      apply nth_error_In in Hk.
      destruct (Hshape node_data Hk)
        as (nd & id & name & type & a & b & -> & _ & Hn & Ht & _).
      destruct (node_from_dict_text_fields _ _ _ _ _ _ _ Hn Ht Hf)
        as (Hb & m & code & ->).
      exists m, code, nd, name, type. repeat split; assumption.
    + intros [= <- _]. left. eauto.
    + intros [= <- _]. right. left. revert En.
      unfold required_text, dict_get_default.
      destruct (dict_get "name" d) as [v|] eqn:Ev; [|discriminate].
      destruct (negb (truthy v)); [discriminate|].
      destruct v; try (intros [= <-]; split; [reflexivity|eexists; split; reflexivity]).
      destruct (String.eqb _ _); discriminate.
Qed.

(** ** The shape of the connections, and what it gives [connect] *)

Lemma forallb_dict_set (f : json -> bool) (k : string) (v : json) (d : dict) :
  forallb (fun entry => f (snd entry)) d = true -> f v = true ->
  forallb (fun entry => f (snd entry)) (dict_set k v d) = true.
Proof.
  intros Hd Hv. induction d as [|[k' v'] r IH]; cbn [dict_set forallb snd].
  - rewrite Hv. reflexivity.
  - cbn [forallb snd] in Hd. apply andb_true_iff in Hd. destruct Hd as [H1 H2].
    destruct (String.eqb k k'); cbn [forallb snd].
    + rewrite Hv, H2. reflexivity.
    + rewrite H1, (IH H2). reflexivity.
Qed.

Lemma forallb_dict_get (f : json -> bool) (k : string) (v : json) (d : dict) :
  forallb (fun entry => f (snd entry)) d = true -> dict_get k d = Some v ->
  f v = true.
Proof.
  induction d as [|[k' v'] r IH]; cbn [dict_get forallb snd]; [discriminate|].
  intros Hd. apply andb_true_iff in Hd. destruct Hd as [H1 H2].
  destruct (String.eqb k k'); [intros [= <-]; exact H1|apply IH; exact H2].
Qed.

Lemma ensure_slots_ok (slots : list json) (i : Z) :
  forallb slot_ok slots = true ->
  forallb slot_ok (Workflow.ensure_slots slots i) = true
  /\ (0 <= i -> i < Z.of_nat (length (Workflow.ensure_slots slots i))).
Proof.
  intros H. unfold Workflow.ensure_slots. rewrite grow_spec. split.
  - rewrite forallb_app, H. cbn [andb].
    induction (Z.to_nat _) as [|n IH]; [reflexivity|exact IH].
  - intros Hi. rewrite length_app, repeat_length. lia.
Qed.

Lemma list_set_ok (i : nat) (v : json) (l : list json) :
  forallb slot_ok l = true -> slot_ok v = true ->
  forallb slot_ok (Workflow.list_set i v l) = true.
Proof.
  intros Hl Hv. revert i. induction l as [|x r IH]; intros [|i];
    cbn [Workflow.list_set forallb]; try reflexivity;
    cbn [forallb] in Hl; apply andb_true_iff in Hl; destruct Hl as [H1 H2].
  - rewrite Hv, H2. reflexivity.
  - rewrite H1, (IH H2). reflexivity.
Qed.

Lemma nth_error_is_list (l : list json) (i : nat) :
  forallb slot_ok l = true -> (i < length l)%nat ->
  exists slot, nth_error l i = Some (JList slot)
               /\ forallb record_ok slot = true.
Proof.
  intros Hl Hi. destruct (nth_error l i) as [x|] eqn:E.
  - rewrite forallb_forall in Hl. pose proof (Hl x (nth_error_In _ _ E)) as Hx.
    destruct x; try discriminate. eauto.
  - apply nth_error_None in E. lia.
Qed.

Lemma add_record_on_shape (source_name output_type : string) (output_index : Z)
    (connection c c' : json) (r : outcome unit) :
  conns_ok c = true -> record_ok connection = true ->
  Workflow.add_record source_name output_type output_index connection c = (r, c') ->
  conns_ok c' = true
  /\ (r = Return tt \/ (r = Raise (Builtin IndexError) /\ output_index < 0)).
Proof.
  intros Hc Hrec. destruct c as [| | | | | |d]; try discriminate.
  cbn [conns_ok] in Hc.
  unfold Workflow.add_record, bind, gets, modify, raise, ret.
  set (d1 := if dict_has source_name d then d
             else dict_set source_name (JDict []) d).
  assert (Hd1 : forallb (fun entry => outputs_ok (snd entry)) d1 = true).
  { unfold d1. destruct (dict_has source_name d); [exact Hc|].
    apply forallb_dict_set; [exact Hc|reflexivity]. }
  assert (Hs : exists o, dict_get source_name d1 = Some (JDict o)).
  { unfold d1. destruct (dict_has source_name d) eqn:E.
    - unfold dict_has in E. destruct (dict_get source_name d) as [v|] eqn:G;
        [|discriminate].
      pose proof (forallb_dict_get _ _ _ _ Hc G) as Hv.
      destruct v; try discriminate. eauto.
    - exists []. apply dict_get_set_same. }
  destruct Hs as (o & Ho). cbv beta iota zeta. rewrite Ho.
  pose proof (forallb_dict_get _ _ _ _ Hd1 Ho) as Hoo. cbn [outputs_ok] in Hoo.
  set (o1 := if dict_has output_type o then o
             else dict_set output_type (JList []) o).
  assert (Ho1 : forallb (fun entry => slots_ok (snd entry)) o1 = true).
  { unfold o1. destruct (dict_has output_type o); [exact Hoo|].
    apply forallb_dict_set; [exact Hoo|reflexivity]. }
  assert (Ht : exists slots, dict_get output_type o1 = Some (JList slots)).
  { unfold o1. destruct (dict_has output_type o) eqn:E.
    - unfold dict_has in E. destruct (dict_get output_type o) as [v|] eqn:G;
        [|discriminate].
      pose proof (forallb_dict_get _ _ _ _ Hoo G) as Hv.
      destruct v; try discriminate. eauto.
    - exists []. apply dict_get_set_same. }
  destruct Ht as (slots & Hslots). rewrite Hslots.
  pose proof (forallb_dict_get _ _ _ _ Ho1 Hslots) as Hsl. cbn [slots_ok] in Hsl.
  destruct (ensure_slots_ok slots output_index Hsl) as (He & Hlen).
  set (slots1 := Workflow.ensure_slots slots output_index) in *.
  assert (Put : forall s, forallb slot_ok s = true ->
            conns_ok (JDict (Workflow.put_slots d1 o1 source_name output_type s))
            = true).
  { intros s Hs'. cbn [conns_ok]. unfold Workflow.put_slots.
    apply forallb_dict_set; [exact Hd1|]. cbn [outputs_ok].
    apply forallb_dict_set; [exact Ho1|exact Hs']. }
  destruct (Workflow.py_index (length slots1) output_index) as [i|] eqn:Ei.
  - destruct (nth_error_is_list slots1 i He (py_index_bound _ _ _ Ei))
      as (slot & Hn & Hslot).
    rewrite Hn. intros [= <- <-]. split; [|left; reflexivity].
    apply Put. apply list_set_ok; [exact He|]. cbn [slot_ok].
    rewrite forallb_app, Hslot. cbn [forallb]. rewrite Hrec. reflexivity.
  - intros [= <- <-]. split; [apply Put; exact He|]. right.
    split; [reflexivity|].
    destruct (Z.ltb_spec output_index 0) as [L|L]; [exact L|].
    specialize (Hlen L). rewrite py_index_nonneg in Ei by lia. discriminate.
Qed.

Lemma seed_target_on_shape (target_name : string) (c c' : json)
    (r : outcome unit) :
  conns_ok c = true -> Workflow.seed_target target_name c = (r, c') ->
  conns_ok c' = true /\ r = Return tt.
Proof.
  intros Hc. destruct c as [| | | | | |d]; try discriminate.
  rewrite seed_target_run. intros [= <- <-]. split; [|reflexivity].
  cbn [conns_ok] in *. destruct (dict_has target_name d); [exact Hc|].
  apply forallb_dict_set; [exact Hc|reflexivity].
Qed.

Section ConnectOnShape.
Variable FS : Type.

Lemma connect_on_shape (from_node to_node : Node.t)
    (output_type input_type : string) (output_index input_index : Z)
    (now : string) (st st' : Workflow.Obj FS) (r : outcome unit) :
  conns_ok (Workflow.connections (Workflow.self st)) = true ->
  Workflow.connect from_node to_node output_type input_type output_index
                   input_index now st = (r, st') ->
  conns_ok (Workflow.connections (Workflow.self st')) = true
  /\ (r = Return tt
      \/ (exists m,
            r = Raise (Sdk WorkflowError m
                         (Some ErrorCodes.CONNECTION_SOURCE_NOT_FOUND))
            /\ Workflow.node_in from_node (Workflow.nodes (Workflow.self st))
               = false)
      \/ (exists m,
            r = Raise (Sdk WorkflowError m
                         (Some ErrorCodes.CONNECTION_TARGET_NOT_FOUND))
            /\ Workflow.node_in to_node (Workflow.nodes (Workflow.self st))
               = false)
      \/ (r = Raise (Builtin IndexError) /\ output_index < 0)).
Proof.
  intros Hc.
  unfold Workflow.connect, Workflow.on_connections, Workflow.update,
    Workflow.log_, bind, gets, modify, raise, ret.
  destruct (Workflow.node_in from_node _) eqn:Ef; cbn [negb];
    [|intros [= <- <-]; split; [exact Hc|]; right; left; eauto].
  destruct (Workflow.node_in to_node _) eqn:Et; cbn [negb];
    [|intros [= <- <-]; split; [exact Hc|]; right; right; left; eauto].
  destruct (Workflow.add_record _ _ _ _ _) as [r1 c1] eqn:Ea.
  assert (Hrec : record_ok (JDict [("node", JStr (Node.name to_node));
                                   ("type", JStr input_type);
                                   ("index", JInt input_index)]) = true)
    by reflexivity.
  destruct (add_record_on_shape _ _ _ _ _ _ _ Hc Hrec Ea)
    as (H1 & [->|[-> Hneg]]).
  - cbn [Workflow.self Workflow.connections Workflow.with_connections
         Workflow.with_updated_at].
    destruct (Workflow.seed_target _ c1) as [r2 c2] eqn:Es.
    destruct (seed_target_on_shape _ _ _ _ H1 Es) as (H2 & ->).
    intros [= <- <-]. split; [exact H2|left; reflexivity].
  - intros [= <- <-]. split; [exact H1|]. right; right; right.
    split; [reflexivity|exact Hneg].
Qed.

End ConnectOnShape.

Section BuiltWorkflows.
Context {P : Platform}.

Lemma api_workflow_shape (w : Workflow.t) :
  api_workflow w -> conns_ok (Workflow.connections w) = true.
Proof.
  induction 1 as [name workflow_id uuid now log log' w H
                 | w node now lg fs r st' _ IH Hn H
                 | w f t ot it oi ii now lg fs r st' _ IH H
                 | w path pretty v now lg fs r st' _ IH H
                 | w active settings tags _ IH].
  - revert H. unfold Workflow.__init__, bind, lift_outcome, ret, raise, logger, modify.
    destruct (required_text (JStr name)) as [[nm|]|] eqn:En; try discriminate.
    intros [= <- _]. reflexivity.
  - destruct (add_node_self _ _ _ _ _ _ H) as [-> | ->]; exact IH.
  - exact (proj1 (connect_on_shape _ f t ot it oi ii now (obj w lg fs) st' r IH H)).
  - destruct (export_self _ _ _ _ _ _ _ H) as [-> | ->]; exact IH.
  - exact IH.
Qed.

(** X24. On every workflow built through the constructor, the methods add_node
    (with nodes from the Node constructor), connect and export, whether they
    returned or raised, and assignments to active, settings and tags: connect
    between two nodes that are in the workflow returns whenever output_index is
    non-negative; and whenever connect raises, it is WorkflowError CN001 for a
    source that is not in the workflow, CN002 for a target that is not, or
    IndexError for a negative output_index. No other exception is possible
    there. *)
Theorem connect_on_built_workflows (w : Workflow.t) (from_node to_node : Node.t)
    (output_type input_type : string) (output_index input_index : Z)
    (now : string) (lg : Log) (fs : FileSystem) (r : outcome unit)
    (st' : Workflow.Obj FileSystem) :
  api_workflow w ->
  Workflow.connect from_node to_node output_type input_type output_index
                   input_index now (obj w lg fs) = (r, st') ->
  (Workflow.node_in from_node (Workflow.nodes w) = true ->
   Workflow.node_in to_node (Workflow.nodes w) = true ->
   0 <= output_index -> r = Return tt)
  /\ forall e,
       r = Raise e ->
       (exists m,
          e = Sdk WorkflowError m (Some ErrorCodes.CONNECTION_SOURCE_NOT_FOUND)
          /\ Workflow.node_in from_node (Workflow.nodes w) = false)
       \/ (exists m,
             e = Sdk WorkflowError m (Some ErrorCodes.CONNECTION_TARGET_NOT_FOUND)
             /\ Workflow.node_in to_node (Workflow.nodes w) = false)
       \/ (e = Builtin IndexError /\ output_index < 0).
Proof.
  intros Hw H.
  destruct (connect_on_shape _ _ _ _ _ _ _ _ _ _ _
              (api_workflow_shape w Hw : conns_ok (Workflow.connections
                 (Workflow.self (obj w lg fs))) = true) H)
    as (_ & [->|[(m & -> & Hf)|[(m & -> & Ht)|(-> & Hneg)]]]).
  - split; [reflexivity|discriminate].
  - cbn [obj Workflow.self] in Hf. split; [congruence|].
    intros e [= <-]. left. eauto.
  - cbn [obj Workflow.self] in Ht. split; [congruence|].
    intros e [= <-]. right. left. eauto.
  - split; [lia|]. intros e [= <-]. right. right. split; [reflexivity|exact Hneg].
Qed.

End BuiltWorkflows.

(** ** [Workflow.validate] on built workflows *)

Lemma returns_ret : returns (ret tt).
Proof. intros s. eexists. reflexivity. Qed.

Lemma returns_append (m : msg) : returns (Workflow.append_error m).
Proof. intros s. eexists. reflexivity. Qed.

Lemma returns_when (b : bool) (m : M (list msg) unit) :
  returns m -> returns (Workflow.when_ b m).
Proof. intros H. destruct b; [exact H|apply returns_ret]. Qed.

Lemma returns_bind (m k : M (list msg) unit) :
  returns m -> returns k -> returns (bind m (fun _ => k)).
Proof.
  intros Hm Hk s. unfold bind. destruct (Hm s) as (s1 & ->). apply Hk.
Qed.

Lemma returns_lift {A : Type} (o : outcome A) (a : A)
    (k : A -> M (list msg) unit) :
  o = Return a -> returns (k a) -> returns (bind (lift_outcome o) k).
Proof. intros -> Hk s. unfold bind, lift_outcome. apply Hk. Qed.

Lemma returns_for_each {A : Type} (xs : list A) (body : A -> M (list msg) unit) :
  (forall x, In x xs -> returns (body x)) -> returns (for_each xs body).
Proof.
  induction xs as [|x r IH]; intros Hb; cbn [for_each].
  - apply returns_ret.
  - apply returns_bind; [apply Hb; left; reflexivity|].
    apply IH. intros y Hy. apply Hb. right. exact Hy.
Qed.

Lemma forallb_in {A : Type} (f : A -> bool) (l : list A) (x : A) :
  forallb f l = true -> In x l -> f x = true.
Proof. intros H. apply (proj1 (forallb_forall f l) H). Qed.

Lemma enumerate_snd {A : Type} (xs : list A) :
  forall (k i : nat) (x : A), In (i, x) (Workflow.enumerate k xs) -> In x xs.
Proof.
  induction xs as [|y r IH]; intros k i x Hin; [destruct Hin|].
  destruct Hin as [[= _ <-]|Hin]; [left; reflexivity|].
  right. exact (IH _ _ _ Hin).
Qed.

Section ValidateOnBuilt.
Context {P : Platform}.

Lemma validate_body_returns (w : Workflow.t) :
  forallb hashable (map Node.id (Workflow.nodes w)) = true ->
  Forall (fun node => exists node_errors, Node.validate node = Return node_errors)
         (Workflow.nodes w) ->
  conns_ok (Workflow.connections w) = true ->
  returns (Workflow.validate_body w).
Proof.
  intros Hids Hnodes Hc. unfold Workflow.validate_body.
  apply returns_bind; [apply returns_when, returns_append|].
  apply returns_bind; [apply returns_when, returns_append|].
  cbv zeta.
  apply (returns_lift _ (Workflow.dedup (map Node.id (Workflow.nodes w)))).
  { unfold Workflow.py_set. rewrite Hids. reflexivity. }
  apply returns_bind; [apply returns_when, returns_append|].
  apply returns_bind; [apply returns_when, returns_append|].
  apply returns_bind.
  { apply returns_for_each. intros [i node] Hin.
    apply enumerate_snd in Hin.
    destruct (proj1 (Forall_forall _ _) Hnodes node Hin) as (es & Hes).
    apply (returns_lift _ es); [exact Hes|].
    apply returns_for_each. intros e _. apply returns_append. }
  destruct (Workflow.connections w) as [| | | | | |d]; try discriminate.
  cbn [conns_ok] in Hc.
  apply (returns_lift _ d); [reflexivity|].
  apply returns_for_each. intros [source_name outputs] Hs.
  pose proof (forallb_in _ _ _ Hc Hs) as Ho. cbn [snd] in Ho.
  destruct outputs as [| | | | | |o]; try discriminate. cbn [outputs_ok] in Ho.
  apply returns_bind; [apply returns_when, returns_append|].
  apply (returns_lift _ o); [reflexivity|].
  apply returns_for_each. intros [output_type output_groups] Hg.
  pose proof (forallb_in _ _ _ Ho Hg) as Hsl. cbn [snd] in Hsl.
  destruct output_groups as [| | | | |slots|]; try discriminate.
  cbn [slots_ok] in Hsl.
  apply (returns_lift _ slots); [reflexivity|].
  apply returns_for_each. intros g Hgin.
  pose proof (forallb_in _ _ _ Hsl Hgin) as Hslot.
  destruct g as [| | | | |records|]; try discriminate. cbn [slot_ok] in Hslot.
  apply (returns_lift _ records); [reflexivity|].
  apply returns_for_each. intros c Hcin.
  pose proof (forallb_in _ _ _ Hslot Hcin) as Hrec.
  destruct c as [| | | | | |c]; try apply returns_ret.
  cbn [record_ok] in Hrec.
  destruct (dict_get "node" c) as [target_name|]; [|apply returns_ret].
  eapply returns_lift.
  { unfold Workflow.in_names. rewrite Hrec. reflexivity. }
  apply returns_when, returns_append.
Qed.

(** X25. On every workflow built through the constructor and the methods
    add_node, connect and export and assignments to active, settings and tags,
    from nodes built by the Node constructor: if Node.validate returns for each
    node (no coordinate overflows), then Workflow.validate returns a list; it
    cannot raise on the connections connect has built. *)
Theorem validate_returns_on_built_workflows (w : Workflow.t) :
  api_workflow w ->
  Forall (fun node => exists node_errors, Node.validate node = Return node_errors)
         (Workflow.nodes w) ->
  exists errors, Workflow.validate w = Return errors.
Proof.
  intros Hw Hnodes.
  assert (Hids : forallb hashable (map Node.id (Workflow.nodes w)) = true).
  { destruct (api_workflow_ok w Hw) as [_ _ Hok].
    apply forallb_forall. intros x Hx. apply in_map_iff in Hx.
    destruct Hx as (n & <- & Hn).
    destruct (proj1 (Forall_forall _ _) Hok n Hn) as [(s & -> & _) _ _ _ _ _].
    reflexivity. }
  destruct (validate_body_returns w Hids Hnodes (api_workflow_shape w Hw) [])
    as (errors & H).
  exists errors. unfold Workflow.validate. rewrite H. reflexivity.
Qed.

End ValidateOnBuilt.

(** ** The node flavours *)

Section Flavours.
Context {P : Platform}.

Lemma well_formed_by_position (n : Node.t) :
  truthy (Node.id n) = true -> Node.name n <> "" -> Node.type n <> "" ->
  Node.is_number (Node.type_version n) = true ->
  is_dict (Node.parameters n) = true -> is_dict (Node.credentials n) = true ->
  well_formed n = position_ok (Node.position n).
Proof.
  intros Hi Hn Ht Hv Hp Hc. unfold well_formed, position_ok.
  rewrite Hi, (eqb_empty_false _ Hn), (eqb_empty_false _ Ht), Hv, Hp, Hc.
  cbn [negb andb]. rewrite !andb_true_r. reflexivity.
Qed.

Lemma flavour_init (node_type : string) (name node_id type_version position
    credentials : json) (parameters : dict) (uuid : N) (log log' : Log)
    (n : Node.t) :
  Node.__init__ (JStr node_type) name node_id type_version (JDict parameters)
    (py_or position (JList [JInt 0; JInt 0])) credentials uuid log
  = (Return n, log') ->
  Node.is_number type_version = true ->
  is_dict (py_or credentials (JDict [])) = true ->
  Node.type n = strip node_type
  /\ Node.type_version n = type_version
  /\ Node.parameters n = JDict parameters
  /\ Node.credentials n = py_or credentials (JDict [])
  /\ Node.position n = py_or position (JList [JInt 0; JInt 0])
  /\ well_formed n = position_ok (py_or position (JList [JInt 0; JInt 0])).
Proof.
  intros H Hv Hc.
  pose proof (node_init_post _ _ _ _ _ _ _ _ _ _ _ H)
    as (Hid & (Hn & _) & (Ht & _) & Htv & _).
  revert H. unfold Node.__init__, bind, lift_outcome, ret, raise, logger, modify.
  destruct (required_text (JStr node_type)) as [[ty|]|] eqn:Et; try discriminate.
  destruct (required_text name) as [[nm|]|] eqn:En; try discriminate.
  intros [= <- _].
  assert (Hty : ty = strip node_type).
  { revert Et. unfold required_text. destruct (negb _); [discriminate|].
    destruct (String.eqb _ _); [discriminate|]. intros [= <-]. reflexivity. }
  assert (Hpa : py_or (JDict parameters) (JDict []) = JDict parameters)
    by (destruct parameters; reflexivity).
  assert (Hpos : py_or (py_or position (JList [JInt 0; JInt 0]))
                       (JList [JInt 0; JInt 0])
                 = py_or position (JList [JInt 0; JInt 0])) by apply py_or_idem.
  cbn [Node.id Node.name Node.type Node.type_version Node.position
       Node.parameters Node.credentials] in *.
  rewrite Hpa, Hpos.
  split; [exact Hty|]. do 4 (split; [reflexivity|]).
  match goal with
  | |- well_formed ?n = _ => rewrite (well_formed_by_position n)
  end; cbn [Node.id Node.name Node.type Node.type_version Node.position
            Node.parameters Node.credentials];
    try assumption; try reflexivity.
Qed.

(** X26. Every node that ManualTriggerNode, HTTPRequestNode or GoogleSheetsNode
    constructs has the flavour's fixed type and version (1, 4.2, 4.7),
    parameters that are the dict the constructor built, credentials that are a
    dict (empty for the first two), and Node.validate returns the empty list on
    it exactly when the position given (or the default [0, 0]) is a list of two
    values that float() accepts. *)
Theorem flavour_nodes_pass_all_checks_but_position :
  (forall name node_id position uuid log log' n,
     ManualTriggerNode.__init__ name node_id position uuid log = (Return n, log') ->
     Node.type n = "n8n-nodes-base.manualTrigger"
     /\ Node.type_version n = JInt 1
     /\ Node.parameters n = JDict [] /\ Node.credentials n = JDict []
     /\ (Node.validate n = Return []
         <-> position_ok (py_or position (JList [JInt 0; JInt 0])) = true))
  /\ (forall name url method node_id authentication headers query_parameters
        body_content_type body response_format options position uuid log log' n,
        HTTPRequestNode.__init__ name url method node_id authentication headers
          query_parameters body_content_type body response_format options
          position uuid log = (Return n, log') ->
        Node.type n = "n8n-nodes-base.httpRequest"
        /\ Node.type_version n = float_4_2
        /\ HTTPRequestNode.build_parameters url method authentication headers
             query_parameters body_content_type body response_format options
           = Return (match Node.parameters n with JDict p => p | _ => [] end)
        /\ is_dict (Node.parameters n) = true
        /\ Node.credentials n = JDict []
        /\ (Node.validate n = Return []
            <-> position_ok (py_or position (JList [JInt 0; JInt 0])) = true))
  /\ (forall name operation document_id sheet_name columns options credential_id
        credential_name node_id position uuid log log' n,
        GoogleSheetsNode.__init__ name operation document_id sheet_name columns
          options credential_id credential_name node_id position uuid log
        = (Return n, log') ->
        Node.type n = "n8n-nodes-base.googleSheets"
        /\ Node.type_version n = float_4_7
        /\ Node.parameters n
           = JDict (GoogleSheetsNode.build_parameters operation document_id
                      sheet_name columns options)
        /\ Node.credentials n
           = JDict (GoogleSheetsNode.build_credentials credential_id
                      credential_name)
        /\ (Node.validate n = Return []
            <-> position_ok (py_or position (JList [JInt 0; JInt 0])) = true)).
Proof.
  split; [|split].
  - intros name node_id position uuid log log' n H.
    destruct (flavour_init _ _ _ _ _ _ _ _ _ _ _ H eq_refl eq_refl)
      as (Ht & Hv & Hp & Hc & _ & Hw).
    split; [exact Ht|]. split; [exact Hv|]. split; [exact Hp|].
    split; [exact Hc|]. rewrite <- Hw. apply node_validate_empty_iff.
  - intros name url method node_id authentication headers query_parameters
           body_content_type body response_format options position uuid log
           log' n H.
    unfold HTTPRequestNode.__init__, bind, lift_outcome in H.
    destruct (HTTPRequestNode.build_parameters url method authentication headers
                query_parameters body_content_type body response_format options)
      as [p|e]; [|discriminate].
    destruct (flavour_init _ _ _ _ _ _ _ _ _ _ _ H eq_refl eq_refl)
      as (Ht & Hv & Hp & Hc & _ & Hw).
    split; [exact Ht|]. split; [exact Hv|]. rewrite Hp.
    split; [reflexivity|]. split; [reflexivity|].
    split; [exact Hc|]. rewrite <- Hw. apply node_validate_empty_iff.
  - intros name operation document_id sheet_name columns options credential_id
           credential_name node_id position uuid log log' n H.
    assert (Hcd : py_or (JDict (GoogleSheetsNode.build_credentials credential_id
                                  credential_name)) (JDict [])
                  = JDict (GoogleSheetsNode.build_credentials credential_id
                             credential_name)).
    { destruct (GoogleSheetsNode.build_credentials _ _); reflexivity. }
    destruct (flavour_init _ _ _ _ _ _ _ _ _ _ _ H eq_refl
                ltac:(rewrite Hcd; reflexivity))
      as (Ht & Hv & Hp & Hc & _ & Hw).
    split; [exact Ht|]. split; [exact Hv|]. split; [exact Hp|].
    split; [rewrite Hc; exact Hcd|]. rewrite <- Hw. apply node_validate_empty_iff.
Qed.

End Flavours.

(** ** The parameters the flavours build *)

Lemma dict_get_set_eq (k k' : string) (v : json) (d : dict) :
  dict_get k (dict_set k' v d) = if String.eqb k k' then Some v else dict_get k d.
Proof.
  destruct (String.eqb_spec k k') as [->|N].
  - apply dict_get_set_same.
  - apply dict_get_set_other. intros E. apply N. symmetry. exact E.
Qed.

Lemma dict_get_if (b : bool) (k : string) (d1 d2 : dict) :
  dict_get k (if b then d1 else d2) = if b then dict_get k d1 else dict_get k d2.
Proof. destruct b; reflexivity. Qed.

Lemma if_same {A : Type} (b : bool) (x : A) : (if b then x else x) = x.
Proof. destruct b; reflexivity. Qed.

Lemma py_items_cases (v : json) :
  (exists d, v = JDict d /\ Workflow.py_items v = Return d)
  \/ (is_dict v = false /\ Workflow.py_items v = Raise (Builtin AttributeError)).
Proof. destruct v; cbn; eauto. Qed.

(** X27. The parameters HTTPRequestNode builds, for all arguments: url and
    options are always present; method is present exactly when it differs from
    GET, authentication exactly when it differs from none, responseFormat
    exactly when it differs from json; headers and qs are present exactly when
    the argument is truthy, as a list of name/value pairs; sendBody is present
    exactly when a body is given; a dict body with content type json is not
    stored at all (no body and no bodyParameters key, only jsonParameters True).
    Building the parameters fails exactly when headers or query_parameters is
    truthy and no dict, and then with AttributeError. *)
Theorem http_request_parameters (url method authentication headers
    query_parameters body_content_type body response_format options : json) :
  match HTTPRequestNode.build_parameters url method authentication headers
          query_parameters body_content_type body response_format options with
  | Return p =>
      dict_get "url" p = Some url
      /\ dict_get "options" p = Some (py_or options (JDict []))
      /\ dict_get "method" p
         = (if py_eq method (JStr "GET") then None else Some method)
      /\ dict_get "authentication" p
         = (if py_eq authentication (JStr "none") then None
            else Some authentication)
      /\ dict_get "responseFormat" p
         = (if py_eq response_format (JStr "json") then None
            else Some response_format)
      /\ dict_get "headers" p
         = (if truthy headers
            then Some (JDict [("parameters", name_value_list (items_of headers))])
            else None)
      /\ dict_get "qs" p
         = (if truthy query_parameters
            then Some (JDict [("parameters",
                               name_value_list (items_of query_parameters))])
            else None)
      /\ dict_has "sendBody" p = negb (is_none body)
      /\ (is_dict body = true -> py_eq body_content_type (JStr "json") = true ->
          dict_get "body" p = None /\ dict_get "bodyParameters" p = None
          /\ dict_get "jsonParameters" p = Some (JBool true))
      /\ (truthy headers = false \/ is_dict headers = true)
      /\ (truthy query_parameters = false \/ is_dict query_parameters = true)
  | Raise e =>
      e = Builtin AttributeError
      /\ ((truthy headers = true /\ is_dict headers = false)
          \/ (truthy query_parameters = true /\ is_dict query_parameters = false))
  end.
Proof.
  destruct (HTTPRequestNode.build_parameters url method authentication headers
              query_parameters body_content_type body response_format options)
    as [p|e] eqn:E; revert E; unfold HTTPRequestNode.build_parameters;
    generalize (py_or options (JDict [])); intros options';
    generalize (py_eq method (JStr "GET")),
      (py_eq authentication (JStr "none")),
      (py_eq response_format (JStr "json")),
      (py_eq body_content_type (JStr "json")),
      (py_eq body_content_type (JStr "form"));
    intros bm ba br bj bf;
    (destruct (truthy headers) eqn:Th;
     [destruct (py_items_cases headers) as [(hd & -> & ->)|(Hh & ->)]|];
     cbn [obind]; [| |]);
    try (intros [= <-]; split; [reflexivity|left; split; [reflexivity|exact Hh]]);
    try discriminate;
    (destruct (truthy query_parameters) eqn:Tq;
     [destruct (py_items_cases query_parameters) as [(qd & -> & ->)|(Hq & ->)]|];
     cbn [obind]);
    try (intros [= <-]; split; [reflexivity|right; split; [reflexivity|exact Hq]]);
    try discriminate.
  all: destruct bm, ba, br; cbn [negb].
  all: destruct body; [|destruct bj; [|destruct bf]..].
  all: cbv; intros [= <-].
  all: repeat split; try reflexivity; try (intros; discriminate);
    try (left; reflexivity); try (right; reflexivity).
Qed.

Lemma dict_has_set_eq (k k' : string) (v : json) (d : dict) :
  dict_has k (dict_set k' v d) = (String.eqb k k' || dict_has k d)%bool.
Proof.
  unfold dict_has. rewrite dict_get_set_eq. destruct (String.eqb k k'); reflexivity.
Qed.

(** X28. GoogleSheetsNode.append_or_update always passes a columns dict on,
    never None: every entry of the caller's columns dict is kept (a columns
    argument that is no dict counts as empty), mappingMode is the caller's or
    defineBelow, matchingColumns is the caller's entry or else the
    matching_columns argument when that is truthy, and the node's parameters
    always have the columns key. *)
Theorem append_or_update_columns (columns matching_columns : json) :
  exists c,
    GoogleSheetsNode.columns_config columns matching_columns = JDict c
    /\ (forall k v, dict_get k (items_of columns) = Some v -> dict_get k c = Some v)
    /\ dict_get "mappingMode" c
       = Some (dict_get_default "mappingMode" (JStr "defineBelow")
                 (items_of columns))
    /\ dict_get "matchingColumns" c
       = match dict_get "matchingColumns" (items_of columns) with
         | Some given => Some given
         | None => if truthy matching_columns then Some matching_columns else None
         end
    /\ forall operation document_id sheet_name options,
         dict_get "columns"
           (GoogleSheetsNode.build_parameters operation document_id sheet_name
              (JDict c) options)
         = Some (JDict c).
Proof.
  unfold GoogleSheetsNode.columns_config.
  assert (E : match py_or columns (JDict []) with JDict d => d | _ => [] end
              = items_of columns).
  { unfold py_or. destruct columns as [| | | | | |[|x r]]; cbn; try reflexivity;
      repeat match goal with |- context [if ?b then _ else _] => destruct b end;
      reflexivity. }
  rewrite E. set (d := items_of columns).
  set (c1 := if negb (dict_has "mappingMode" d)
             then dict_set "mappingMode" (JStr "defineBelow") d else d).
  set (c2 := if truthy matching_columns && negb (dict_has "matchingColumns" c1)
             then dict_set "matchingColumns" matching_columns c1 else c1).
  assert (H1 : forall k v, dict_get k d = Some v -> dict_get k c1 = Some v).
  { intros k v Hk. unfold c1, dict_has.
    destruct (dict_get "mappingMode" d) eqn:Em; cbn [negb]; [exact Hk|].
    rewrite dict_get_set_eq. destruct (String.eqb_spec k "mappingMode") as [->|N];
      [congruence|exact Hk]. }
  assert (M1 : dict_get "mappingMode" c1
               = Some (dict_get_default "mappingMode" (JStr "defineBelow") d)).
  { unfold c1, dict_has, dict_get_default.
    destruct (dict_get "mappingMode" d) eqn:Em; cbn [negb]; [exact Em|].
    apply dict_get_set_same. }
  assert (G1 : dict_get "matchingColumns" c1 = dict_get "matchingColumns" d).
  { unfold c1. destruct (negb _); [|reflexivity].
    rewrite dict_get_set_eq. reflexivity. }
  assert (H2 : forall k v, dict_get k c1 = Some v -> dict_get k c2 = Some v).
  { intros k v Hk. unfold c2, dict_has.
    destruct (truthy matching_columns); cbn [andb]; [|exact Hk].
    destruct (dict_get "matchingColumns" c1) eqn:Em; cbn [negb]; [exact Hk|].
    rewrite dict_get_set_eq.
    destruct (String.eqb_spec k "matchingColumns") as [->|N];
      [congruence|exact Hk]. }
  assert (T : truthy (JDict c2) = true).
  { pose proof (H2 _ _ M1) as M2. destruct c2; [discriminate M2|reflexivity]. }
  rewrite T. exists c2. split; [reflexivity|].
  split; [intros k v Hk; apply H2, H1, Hk|].
  split; [apply H2, M1|].
  split.
  - unfold c2, dict_has.
    destruct (dict_get "matchingColumns" d) eqn:Em; rewrite G1; cbn [negb].
    + rewrite andb_false_r. exact G1.
    + rewrite andb_true_r. destruct (truthy matching_columns).
      * apply dict_get_set_same.
      * exact G1.
  - intros operation document_id sheet_name options.
    unfold GoogleSheetsNode.build_parameters. apply dict_get_set_same.
Qed.

Section FlavourDocuments.
Context {P : Platform}.

Lemma to_dict_credentials_key (n : Node.t) (doc : json) :
  Node.to_dict n = Return doc ->
  exists d,
    doc = JDict d
    /\ dict_has "credentials" d = truthy (Node.credentials n)
    /\ dict_get "type" d = Some (JStr (Node.type n))
    /\ dict_get "typeVersion" d = Some (Node.type_version n)
    /\ dict_get "parameters" d = Some (Node.parameters n).
Proof.
  unfold Node.to_dict. destruct (py_iter (Node.position n)) as [pos|e];
    [|discriminate]. cbn [obind].
  destruct (truthy (Node.credentials n)); intros [= <-]; eexists;
    (split; [reflexivity|]); repeat split; reflexivity.
Qed.

(** X29. Whenever to_dict returns for a node built by a flavour constructor, the
    document carries the flavour's type and version and the parameters the
    constructor built; the documents of manual trigger and HTTP request nodes
    never have a credentials key, and the document of a Google Sheets node has
    one exactly when both credential_id and credential_name are truthy (one of
    them alone is dropped silently). *)
Theorem flavour_documents :
  (forall name node_id position uuid log log' n doc,
     ManualTriggerNode.__init__ name node_id position uuid log = (Return n, log') ->
     Node.to_dict n = Return doc ->
     exists d,
       doc = JDict d /\ dict_has "credentials" d = false
       /\ dict_get "type" d = Some (JStr "n8n-nodes-base.manualTrigger")
       /\ dict_get "typeVersion" d = Some (JInt 1)
       /\ dict_get "parameters" d = Some (JDict []))
  /\ (forall name url method node_id authentication headers query_parameters
        body_content_type body response_format options position uuid log log' n
        doc,
        HTTPRequestNode.__init__ name url method node_id authentication headers
          query_parameters body_content_type body response_format options
          position uuid log = (Return n, log') ->
        Node.to_dict n = Return doc ->
        exists d p,
          doc = JDict d /\ dict_has "credentials" d = false
          /\ dict_get "type" d = Some (JStr "n8n-nodes-base.httpRequest")
          /\ dict_get "typeVersion" d = Some float_4_2
          /\ dict_get "parameters" d = Some (JDict p)
          /\ HTTPRequestNode.build_parameters url method authentication headers
               query_parameters body_content_type body response_format options
             = Return p)
  /\ (forall name operation document_id sheet_name columns options credential_id
        credential_name node_id position uuid log log' n doc,
        GoogleSheetsNode.__init__ name operation document_id sheet_name columns
          options credential_id credential_name node_id position uuid log
        = (Return n, log') ->
        Node.to_dict n = Return doc ->
        exists d,
          doc = JDict d
          /\ dict_has "credentials" d
             = (truthy credential_id && truthy credential_name)%bool
          /\ dict_get "type" d = Some (JStr "n8n-nodes-base.googleSheets")
          /\ dict_get "typeVersion" d = Some float_4_7
          /\ dict_get "parameters" d
             = Some (JDict (GoogleSheetsNode.build_parameters operation
                              document_id sheet_name columns options))).
Proof.
  split; [|split].
  - intros name node_id position uuid log log' n doc H Hd.
    destruct (flavour_init _ _ _ _ _ _ _ _ _ _ _ H eq_refl eq_refl)
      as (Ht & Hv & Hp & Hc & _).
    destruct (to_dict_credentials_key _ _ Hd) as (d & -> & K & T & V & Pa).
    exists d. rewrite K, T, V, Pa, Hc, Ht, Hv, Hp. repeat split; reflexivity.
  - intros name url method node_id authentication headers query_parameters
           body_content_type body response_format options position uuid log
           log' n doc H Hd.
    unfold HTTPRequestNode.__init__, bind, lift_outcome in H.
    destruct (HTTPRequestNode.build_parameters url method authentication headers
                query_parameters body_content_type body response_format options)
      as [p|e]; [|discriminate].
    destruct (flavour_init _ _ _ _ _ _ _ _ _ _ _ H eq_refl eq_refl)
      as (Ht & Hv & Hp & Hc & _).
    destruct (to_dict_credentials_key _ _ Hd) as (d & -> & K & T & V & Pa).
    exists d, p. rewrite K, T, V, Pa, Hc, Ht, Hv, Hp. repeat split; reflexivity.
  - intros name operation document_id sheet_name columns options credential_id
           credential_name node_id position uuid log log' n doc H Hd.
    assert (Hcd : py_or (JDict (GoogleSheetsNode.build_credentials credential_id
                                  credential_name)) (JDict [])
                  = JDict (GoogleSheetsNode.build_credentials credential_id
                             credential_name)).
    { destruct (GoogleSheetsNode.build_credentials _ _); reflexivity. }
    destruct (flavour_init _ _ _ _ _ _ _ _ _ _ _ H eq_refl
                ltac:(rewrite Hcd; reflexivity))
      as (Ht & Hv & Hp & Hc & _).
    destruct (to_dict_credentials_key _ _ Hd) as (d & -> & K & T & V & Pa).
    exists d. rewrite K, T, V, Pa, Hc, Ht, Hv, Hp, Hcd.
    split; [reflexivity|]. split; [|repeat split; reflexivity].
    unfold GoogleSheetsNode.build_credentials.
    destruct (truthy credential_id && truthy credential_name); reflexivity.
Qed.

End FlavourDocuments.

(** ** The workflow's document *)

Lemma nodes_to_dict_returns (ns : list Node.t) (docs : list json) :
  Workflow.nodes_to_dict ns = Return docs ->
  Forall2 (fun node doc => Node.to_dict node = Return doc) ns docs.
Proof.
  revert docs. induction ns as [|n r IH]; intros docs.
  - intros [= <-]. constructor.
  - cbn [Workflow.nodes_to_dict].
    destruct (Node.to_dict n) as [j|e] eqn:E; cbn [obind]; [|discriminate].
    destruct (Workflow.nodes_to_dict r) as [js|e] eqn:Er; cbn [obind];
      [|discriminate].
    intros [= <-]. constructor; [exact E|apply IH; reflexivity].
Qed.

Lemma nodes_to_dict_first_failure (ns : list Node.t) (e : exn) :
  Workflow.nodes_to_dict ns = Raise e ->
  exists before node after docs,
    ns = before ++ node :: after
    /\ Workflow.nodes_to_dict before = Return docs
    /\ Node.to_dict node = Raise e.
Proof.
  induction ns as [|n r IH]; [discriminate|]. cbn [Workflow.nodes_to_dict].
  destruct (Node.to_dict n) as [j|e0] eqn:E; cbn [obind].
  - destruct (Workflow.nodes_to_dict r) as [js|e1] eqn:Er; cbn [obind];
      [discriminate|].
    intros [= <-]. destruct (IH eq_refl) as (b & x & a & docs & -> & Hb & Hx).
    exists (n :: b), x, a, (j :: docs). split; [reflexivity|].
    split; [|exact Hx]. cbn [Workflow.nodes_to_dict]. rewrite E, Hb. reflexivity.
  - intros [= <-]. exists [], n, r, []. repeat split. exact E.
Qed.

(** X30. For every workflow, Workflow.to_dict either returns a dict with the
    eleven keys id, name, nodes, connections, active, settings, tags, createdAt,
    updatedAt, pinData, meta in that order, in which nodes holds the documents
    of the workflow's nodes, one per node and in order, connections is the
    mapping as it stands, pinData is empty and meta.instanceId is the workflow's
    id; or it raises TypeError, and then some node's position cannot be
    iterated: the first such node is the one whose to_dict raised, after the
    documents of all nodes before it were built. *)
Theorem workflow_to_dict_outcome (w : Workflow.t) :
  match Workflow.to_dict w with
  | Return doc =>
      exists d docs,
        doc = JDict d
        /\ dict_keys d
           = ["id"; "name"; "nodes"; "connections"; "active"; "settings"; "tags";
              "createdAt"; "updatedAt"; "pinData"; "meta"]
        /\ dict_get "nodes" d = Some (JList docs)
        /\ Forall2 (fun node doc => Node.to_dict node = Return doc)
                   (Workflow.nodes w) docs
        /\ dict_get "connections" d = Some (Workflow.connections w)
        /\ dict_get "pinData" d = Some (JDict [])
        /\ dict_get "meta" d = Some (JDict [("instanceId", Workflow.id w)])
  | Raise e =>
      e = Builtin TypeError
      /\ exists before node after docs,
           Workflow.nodes w = before ++ node :: after
           /\ Workflow.nodes_to_dict before = Return docs
           /\ Node.to_dict node = Raise e
           /\ py_iter (Node.position node) = Raise e
  end.
Proof.
  unfold Workflow.to_dict.
  destruct (Workflow.nodes_to_dict (Workflow.nodes w)) as [docs|e] eqn:E;
    cbn [obind].
  - eexists. exists docs. split; [reflexivity|]. split; [reflexivity|].
    split; [reflexivity|]. split; [exact (nodes_to_dict_returns _ _ E)|].
    repeat split.
  - split; [exact (proj1 (nodes_to_dict_raises _ _ E))|].
    destruct (nodes_to_dict_first_failure _ _ E) as (b & x & a & docs & H1 & H2 & H3).
    exists b, x, a, docs. split; [exact H1|]. split; [exact H2|].
    split; [exact H3|]. revert H3. unfold Node.to_dict.
    destruct (py_iter (Node.position x)) as [pos|e0]; cbn [obind].
    + destruct (truthy (Node.credentials x)); discriminate.
    + intros [= <-]. reflexivity.
Qed.

Lemma workflow_to_dict_outcome_witness :
  exists d docs,
    Workflow.to_dict Sample.pipeline = Return (JDict d)
    /\ dict_get "nodes" d = Some (JList docs)
    /\ length docs = 2%nat
    /\ dict_get "meta" d
       = Some (JDict [("instanceId", JStr "00000000-0000-0000-0000-000000000005")]).
Proof.
  pose proof (workflow_to_dict_outcome Sample.pipeline) as H.
  destruct (Workflow.to_dict Sample.pipeline) as [doc|e] eqn:E; [|discriminate E].
  destruct H as (d & docs & -> & _ & Hn & Hf & _ & _ & Hm).
  exists d, docs. split; [reflexivity|]. split; [exact Hn|].
  split; [|exact Hm].
  apply Forall2_length in Hf. rewrite <- Hf. reflexivity.
Defined.

(** ** The properties at sample inputs *)

Lemma node_validate_empty_iff_well_formed_witness :
  @well_formed Demo.platform Sample.fetch = true
  /\ @Node.validate Demo.platform Sample.fetch = Return []
  /\ @Node.is_valid Demo.platform Sample.fetch = Return true
  /\ @well_formed Demo.platform Cases.unversioned = false
  /\ @Node.validate Demo.platform Cases.unversioned <> Return [].
Proof.
  pose proof (@node_validate_empty_iff_well_formed Demo.platform Sample.fetch)
    as (V & I).
  pose proof (@node_validate_empty_iff_well_formed Demo.platform Cases.unversioned)
    as (V' & _).
  split; [reflexivity|]. split; [apply V; reflexivity|].
  split; [apply I; reflexivity|]. split; [reflexivity|].
  intros H. apply V' in H. discriminate H.
Defined.

Lemma node_validate_raises_only_on_overflow_witness :
  @Node.validate Demo.platform Cases.far_node = Raise (Builtin OverflowError)
  /\ exists a b,
       Node.position Cases.far_node = JList [a; b]
       /\ (overflows a = true
           \/ (@floatable Demo.platform a = true /\ overflows b = true)).
Proof.
  assert (H : @Node.validate Demo.platform Cases.far_node
              = Raise (Builtin OverflowError)) by (vm_compute; reflexivity).
  split; [exact H|].
  exact (proj2 (@node_validate_raises_only_on_overflow Demo.platform
                  Cases.far_node (Builtin OverflowError) H)).
Defined.

Lemma node_document_round_trip_witness :
  let n := {| Node.id := JStr "00000000-0000-0000-0000-000000000003";
              Node.type := "t"; Node.name := "N"; Node.type_version := JInt 1;
              Node.parameters := JDict [];
              Node.position := JList [JInt 0; JInt 0];
              Node.credentials := JDict [] |} in
  fst (Node.__init__ (JStr " t ") (JStr "N") (JStr "") (JInt 1) JNull (JList [])
         JNull 3 []) = Return n
  /\ Node.position n = JList [JInt 0; JInt 0]
  /\ exists doc ev,
       Node.to_dict n = Return doc
       /\ Node.from_dict doc 8 [] = (Return n, [ev]).
Proof.
  intros n.
  assert (H : fst (Node.__init__ (JStr " t ") (JStr "N") (JStr "") (JInt 1) JNull
                     (JList []) JNull 3 []) = Return n) by reflexivity.
  split; [exact H|]. split; [reflexivity|].
  destruct (node_document_round_trip (JStr " t ") (JStr "N") (JStr "") (JInt 1)
              JNull (JList []) JNull 3%N [] _ n [JInt 0; JInt 0]
              (run_eq _ _ _ H) eq_refl) as (doc & Hto & Hfrom).
  destruct (Hfrom 8%N []) as (ev & Hev).
  exists doc, ev. split; [exact Hto|exact Hev].
Defined.

Lemma node_to_dict_keys_witness :
  exists d,
    Node.to_dict Sample.fetch = Return (JDict d)
    /\ dict_keys d
       = ["id"; "name"; "type"; "typeVersion"; "position"; "parameters"].
Proof.
  pose proof (node_to_dict_keys Sample.fetch) as H.
  destruct (Node.to_dict Sample.fetch) as [doc|e] eqn:E; [|discriminate E].
  destruct H as (d & -> & Hk & _). exists d. split; [reflexivity|exact Hk].
Defined.

Lemma workflow_init_cases_witness :
  blank (JStr "  ") = true
  /\ @Workflow.__init__ (JStr "  ") JNull 5 "t0" []
     = (Raise (Sdk WorkflowError [Lit "Workflow name cannot be empty"]
                   (Some ErrorCodes.WORKFLOW_INVALID_NAME)), [])
  /\ exists w log',
       Workflow.__init__ (JStr "Pipeline") JNull 5 "t0" [] = (Return w, log')
       /\ Workflow.nodes w = []
       /\ @Workflow.validate Demo.platform w
          = Return [[Lit "Workflow must contain at least one node"]].
Proof.
  assert (B : blank (JStr "  ") = true) by reflexivity.
  split; [exact B|].
  split.
  - exact (proj1 (@workflow_init_cases Demo.platform (JStr "  ") JNull 5%N "t0" [])
             B).
  - destruct (Workflow.__init__ (JStr "Pipeline") JNull 5 "t0" [])
      as [[w|e] log'] eqn:E; [|discriminate E].
    destruct (proj2 (@workflow_init_cases Demo.platform (JStr "Pipeline") JNull
                       5%N "t0" []) w log' E)
      as (_ & _ & Hn & _ & _ & _ & _ & _ & _ & _ & Hv).
    exists w, log'. split; [reflexivity|]. split; [exact Hn|exact Hv].
Defined.

Lemma add_node_outcomes_witness :
  (exists m lg',
     Workflow.add_node (Node.OValue (JStr "node")) "t1" (obj Sample.w_ab [] tt)
     = (Raise (Sdk WorkflowError m (Some ErrorCodes.NODE_INVALID_TYPE)),
        obj Sample.w_ab lg' tt))
  /\ exists lg',
       Workflow.add_node (Node.ONode Sample.namesake) "t1" (obj Sample.w_ab [] tt)
       = (Return tt,
          obj (Workflow.with_updated_at (JStr "t1")
                 (Workflow.with_nodes [Sample.node_a; Sample.node_b; Sample.namesake]
                    Sample.w_ab)) lg' tt).
Proof.
  split.
  - exact (add_node_outcomes unit (Node.OValue (JStr "node")) "t1"
             (obj Sample.w_ab [] tt)).
  - destruct (add_node_outcomes unit (Node.ONode Sample.namesake) "t1"
                (obj Sample.w_ab [] tt)) as (lg' & H & _).
    exists lg'. exact H.
Defined.

Lemma add_nodes_keeps_ids_unique_witness :
  unique_ids (Workflow.nodes Sample.w_empty) = true
  /\ exists r st',
       Workflow.add_nodes Cases.batch (obj Sample.w_empty [] tt) = (r, st')
       /\ unique_ids (Workflow.nodes (Workflow.self st')) = true.
Proof.
  split; [reflexivity|].
  destruct (Workflow.add_nodes Cases.batch (obj Sample.w_empty [] tt))
    as [r st'] eqn:E.
  exists r, st'. split; [reflexivity|].
  exact (proj1 (add_nodes_keeps_ids_unique unit Cases.batch
                  (obj Sample.w_empty [] tt) st' r eq_refl E)).
Defined.

Lemma add_nodes_no_rollback_witness :
  exists r st' added rest,
    Workflow.add_nodes Cases.batch (obj Sample.w_empty [] tt) = (r, st')
    /\ Cases.batch = added ++ rest
    /\ Workflow.nodes (Workflow.self st') = nodes_of added.
Proof.
  destruct (Workflow.add_nodes Cases.batch (obj Sample.w_empty [] tt))
    as [r st'] eqn:E.
  destruct (add_nodes_no_rollback unit Cases.batch (obj Sample.w_empty [] tt)
              st' r E) as (added & rest & H1 & H2 & _).
  exists r, st', added, rest. split; [reflexivity|]. split; [exact H1|exact H2].
Defined.

Lemma connect_appends_to_slot_witness :
  let first := connection_record Sample.fetch "main" 0 in
  let second := connection_record Sample.fetch "main" 1 in
  exists st' d' o' slots',
    Workflow.connect Sample.start Sample.fetch "main" "main" 0 1 "t4"
      (obj Sample.pipeline [] tt) = (Return tt, st')
    /\ Workflow.connections (Workflow.self st') = JDict d'
    /\ dict_get "Start" d' = Some (JDict o')
    /\ dict_get "main" o' = Some (JList slots')
    /\ nth_error slots' 0 = Some (JList [first; second])
    /\ length slots' = 1%nat.
Proof.
  intros first second.
  destruct (connect_appends_to_slot unit (obj Sample.pipeline [] tt)
              [("Start", JDict [("main", JList [JList [first]])]);
               ("Fetch", placeholder)]
              [("main", JList [JList [first]])] [JList [first]] [first]
              Sample.start Sample.fetch "main" "main" 0 1 "t4"
              eq_refl eq_refl eq_refl eq_refl eq_refl ltac:(lia) eq_refl)
    as (st' & d' & o' & slots' & H1 & H2 & H3 & H4 & H5 & H6 & _).
  exists st', d', o', slots'. repeat split; assumption.
Defined.

Lemma connect_negative_slot_leaves_partial_entry_witness :
  dict_has "A" [] = false /\ -1 < 0
  /\ Workflow.connect Sample.node_a Sample.node_b "main" "main" (-1) 0 "t1"
       (obj Sample.w_ab [] tt)
     = (Raise (Builtin IndexError),
        obj (Workflow.with_connections (JDict [("A", JDict [("main", JList [])])])
               Sample.w_ab) [] tt).
Proof.
  split; [reflexivity|]. split; [lia|].
  exact (connect_negative_slot_leaves_partial_entry unit (obj Sample.w_ab [] tt) []
           Sample.node_a Sample.node_b "main" "main" (-1) 0 "t1"
           eq_refl eq_refl eq_refl eq_refl ltac:(lia)).
Defined.

Lemma connect_touches_connections_and_timestamp_only_witness :
  exists st',
    Workflow.connect Sample.node_a Sample.node_b "main" "main" 0 0 "t1"
      (obj Sample.w_ab [] tt) = (Return tt, st')
    /\ Workflow.nodes (Workflow.self st') = [Sample.node_a; Sample.node_b]
    /\ Workflow.created_at (Workflow.self st') = JStr "2024-01-01T00:00:00"
    /\ Workflow.updated_at (Workflow.self st') = JStr "t1".
Proof.
  destruct (Workflow.connect Sample.node_a Sample.node_b "main" "main" 0 0 "t1"
              (obj Sample.w_ab [] tt)) as [r st'] eqn:E.
  assert (Hr : r = Return tt).
  { revert E. vm_compute. intros [= <- _]. reflexivity. }
  subst r.
  destruct (connect_touches_connections_and_timestamp_only unit
              (obj Sample.w_ab [] tt) st' Sample.node_a Sample.node_b
              "main" "main" 0 0 "t1" (Return tt) E)
    as (_ & _ & Hn & _ & _ & _ & Hc & _ & Hu).
  exists st'. split; [reflexivity|]. split; [exact Hn|].
  split; [exact Hc|exact Hu].
Defined.


Lemma export_writes_document_witness :
  @Workflow.validate Demo.platform Sample.w_empty <> Return []
  /\ exists doc fs2 lg',
       Workflow.to_dict Sample.w_empty = Return doc
       /\ @Workflow.export Demo.platform "/tmp/out/wf.json" false false "t1"
            (obj Sample.w_empty [] Demo.empty_fs)
          = (Return tt,
             obj (Workflow.with_updated_at (JStr "t1") Sample.w_empty) lg' fs2)
       /\ Demo.files fs2 = [("/tmp/out/wf.json", JsonText None doc)].
Proof.
  split; [discriminate|].
  destruct (Workflow.to_dict Sample.w_empty) as [doc|e] eqn:Et;
    [|discriminate Et].
  set (fs1 := {| Demo.dirs := ["/"; "/tmp/out"]; Demo.files := [] |}).
  set (fs2 := {| Demo.dirs := ["/"; "/tmp/out"];
                 Demo.files := [("/tmp/out/wf.json", JsonText None doc)] |}).
  destruct (@export_writes_document Demo.platform Sample.w_empty
              "/tmp/out/wf.json" false false "t1" [] Demo.empty_fs fs1 fs2 doc)
    as (lg' & H).
  - discriminate.
  - discriminate.
  - reflexivity.
  - exact Et.
  - reflexivity.
  - exists doc, fs2, lg'. split; [reflexivity|]. split; [exact H|reflexivity].
Defined.

Lemma workflow_validate_reports_unknown_endpoints_witness :
  exists errors,
    @Workflow.validate Demo.platform Cases.w_off_main = Return errors
    /\ In [Lit "Connection source '"; Val (JStr "Nobody"); Lit "' does not exist"]
          errors
    /\ In [Lit "Connection target '"; Val (JStr "Ghost"); Lit "' does not exist"]
          errors.
Proof.
  destruct (@Workflow.validate Demo.platform Cases.w_off_main)
    as [errors|e] eqn:E; [|discriminate E].
  destruct (@workflow_validate_reports_unknown_endpoints Demo.platform
              Cases.w_off_main errors Cases.off_main "Nobody"
              (JDict [("ai_tool", JList [JList [JDict Sample.ghost_record]])])
              E eq_refl (or_introl eq_refl))
    as (Hs & out_items & [= <-] & Ht).
  exists errors. split; [reflexivity|]. split.
  - apply Hs. intros [H|[]]. discriminate H.
  - apply (Ht "ai_tool" (JList [JList [JDict Sample.ghost_record]])
              (JList [JDict Sample.ghost_record])
              [JList [JDict Sample.ghost_record]] [JDict Sample.ghost_record]
              Sample.ghost_record (JStr "Ghost")
              (or_introl eq_refl) eq_refl (or_introl eq_refl) eq_refl
              (or_introl eq_refl) eq_refl).
    intros node [<-|[]]. discriminate.
Defined.

Lemma workflow_validate_reports_node_problems_witness :
  exists errors,
    @Workflow.validate Demo.platform Cases.w_twins = Return errors
    /\ In [Lit "Duplicate node IDs found"] errors
    /\ In [Lit "Duplicate node names found"] errors
    /\ In [Lit "Node "; Val (JInt 4); Lit " ("; Val (JStr "U"); Lit "): ";
           Lit "Type version must be numeric"] errors.
Proof.
  destruct (@Workflow.validate Demo.platform Cases.w_twins)
    as [errors|e] eqn:E; [|discriminate E].
  destruct (@workflow_validate_reports_node_problems Demo.platform Cases.w_twins
              errors E) as (_ & _ & Hd & Hn).
  exists errors. split; [reflexivity|]. split; [|split].
  - apply (proj1 (Hd 0%nat 2%nat Sample.node_a Sample.impostor
                    ltac:(lia) eq_refl eq_refl)).
    reflexivity.
  - apply (proj2 (Hd 0%nat 1%nat Sample.node_a Sample.namesake
                    ltac:(lia) eq_refl eq_refl)).
    reflexivity.
  - destruct (Hn 3%nat Cases.unversioned eq_refl) as (es & Hes & Hin).
    apply (Hin "Type version must be numeric").
    revert Hes. vm_compute. intros [= <-]. left. reflexivity.
Defined.

Lemma workflow_validate_clean_witness :
  @Workflow.validate Demo.platform Sample.pipeline = Return []
  /\ unique_ids (Workflow.nodes Sample.pipeline) = true
  /\ NoDup (map Node.name (Workflow.nodes Sample.pipeline)).
Proof.
  assert (H : @Workflow.validate Demo.platform Sample.pipeline = Return [])
    by (vm_compute; reflexivity).
  destruct (@workflow_validate_clean Demo.platform Sample.pipeline H)
    as (_ & _ & Hu & Hn & _).
  split; [exact H|]. split; [exact Hu|exact Hn].
Defined.

Lemma workflow_validate_raises_interpreter_errors_only_witness :
  @Workflow.validate Demo.platform Cases.w_listed = Raise (Builtin AttributeError)
  /\ validate_escape (Builtin AttributeError).
Proof.
  assert (H : @Workflow.validate Demo.platform Cases.w_listed
              = Raise (Builtin AttributeError)) by (vm_compute; reflexivity).
  split; [exact H|].
  exact (@workflow_validate_raises_interpreter_errors_only Demo.platform
           Cases.w_listed (Builtin AttributeError) H).
Defined.

Lemma workflow_from_dict_reads_document_witness :
  exists w log',
    Workflow.from_dict (JDict Cases.doc_twice) 1 (fun k => N.of_nat k) "t0" []
    = (Return w, log')
    /\ Workflow.connections w = JDict Cases.off_main
    /\ length (Workflow.nodes w) = 2%nat
    /\ Workflow.created_at w = JStr "t0".
Proof.
  destruct (Workflow.from_dict (JDict Cases.doc_twice) 1 (fun k => N.of_nat k)
              "t0" []) as [[w|e] log'] eqn:E;
    [|revert E; vm_compute; discriminate].
  destruct (workflow_from_dict_reads_document _ _ _ _ _ _ _ E)
    as (d & nodes_data & [= <-] & _ & _ & Hc & _ & _ & _ & Hcr & _ & Hi & Hl & _).
  exists w, log'. split; [reflexivity|]. split; [exact Hc|].
  split; [|exact Hcr].
  rewrite Hl. revert Hi. vm_compute. intros [= <-]. reflexivity.
Defined.

Lemma workflow_from_dict_failures_witness :
  exists e log',
    Workflow.from_dict (JDict Cases.doc_blank_name) 1 (fun k => N.of_nat k) "t0" []
    = (Raise e, log')
    /\ (e = Builtin AttributeError
        \/ e = Builtin TypeError
        \/ (exists m, e = Sdk WorkflowError m (Some ErrorCodes.WORKFLOW_INVALID_NAME))
        \/ (exists m code,
              e = Sdk NodeError m (Some code)
              /\ (code = ErrorCodes.NODE_INVALID_TYPE
                  \/ code = ErrorCodes.NODE_MISSING_REQUIRED_FIELD))).
Proof.
  destruct (Workflow.from_dict (JDict Cases.doc_blank_name) 1
              (fun k => N.of_nat k) "t0" []) as [[w|e] log'] eqn:E;
    [revert E; vm_compute; discriminate|].
  exists e, log'. split; [reflexivity|].
  exact (workflow_from_dict_failures _ _ _ _ _ _ _ E).
Defined.

Lemma checker_accepts_only_well_shaped_witness :
  json_parser.validate_workflow_structure (JDict Cases.doc_blank_name)
  = Return true
  /\ exists nodes,
       dict_get "nodes" Cases.doc_blank_name = Some (JList nodes) /\ nodes <> [].
Proof.
  assert (H : json_parser.validate_workflow_structure (JDict Cases.doc_blank_name)
              = Return true) by reflexivity.
  split; [exact H|].
  destruct (checker_accepts_only_well_shaped _ _ H)
    as (_ & d & nodes & connections & [= <-] & Hn & Hne & _).
  exists nodes. split; [exact Hn|exact Hne].
Defined.

Lemma checker_raises_value_or_type_error_witness :
  exists e,
    json_parser.validate_workflow_structure (JDict (Sample.doc_ghost "main"))
    = Raise e
    /\ ((exists m, e = ValueError m) \/ e = Builtin TypeError).
Proof.
  destruct (json_parser.validate_workflow_structure
              (JDict (Sample.doc_ghost "main"))) as [b|e] eqn:E;
    [revert E; vm_compute; discriminate|].
  exists e. split; [reflexivity|].
  exact (checker_raises_value_or_type_error _ _ E).
Defined.

Lemma checked_document_import_witness :
  json_parser.validate_workflow_structure (JDict Cases.doc_single) = Return true
  /\ (exists w log',
        Workflow.from_dict (JDict Cases.doc_single) 1 (fun k => N.of_nat k) "t0" []
        = (Return w, log')
        /\ Workflow.name w = "Imported Workflow"
        /\ length (Workflow.nodes w) = 1%nat)
  /\ json_parser.validate_workflow_structure (JDict Cases.doc_blank_name)
     = Return true
  /\ exists e log',
       Workflow.from_dict (JDict Cases.doc_blank_name) 1 (fun k => N.of_nat k)
         "t0" [] = (Raise e, log')
       /\ exists m code, e = Sdk NodeError m (Some code).
Proof.
  assert (H1 : json_parser.validate_workflow_structure (JDict Cases.doc_single)
               = Return true) by reflexivity.
  assert (H2 : json_parser.validate_workflow_structure
                 (JDict Cases.doc_blank_name) = Return true) by reflexivity.
  split; [exact H1|]. split; [|split; [exact H2|]].
  - destruct (checked_document_import Cases.doc_single 1 (fun k => N.of_nat k)
                "t0" [] H1) as (nodes & connections & Hn & _ & Hload & _).
    injection Hn as <-.
    destruct (Hload "Imported Workflow" eq_refl) as (w & log' & Hf & Hname & Hl & _).
    + intros nd name type [H|[]]. cbv [Sample.node_doc] in H.
      injection H as <-. intros [= <-] [= <-]. split; discriminate.
    + exists w, log'. split; [exact Hf|]. split; [exact Hname|exact Hl].
  - destruct (checked_document_import Cases.doc_blank_name 1
                (fun k => N.of_nat k) "t0" [] H2)
      as (nodes & connections & _ & _ & _ & Hfail).
    destruct (Workflow.from_dict (JDict Cases.doc_blank_name) 1
                (fun k => N.of_nat k) "t0" []) as [[w|e] log'] eqn:E;
      [revert E; vm_compute; discriminate|].
    exists e, log'. split; [reflexivity|].
    destruct (Hfail e log' eq_refl)
      as [(m & ->)|[(-> & v & Hv & _)|(m & code & _ & _ & _ & -> & _)]].
    + revert E. vm_compute. discriminate.
    + discriminate Hv.
    + exists m, code. reflexivity.
Defined.

Lemma connect_on_built_workflows_witness :
  @api_workflow Demo.platform Sample.pipeline
  /\ exists st',
       Workflow.connect Sample.fetch Sample.start "main" "main" 3 0 "t5"
         (obj Sample.pipeline [] Demo.empty_fs) = (Return tt, st').
Proof.
  split; [exact sample_pipeline_built|].
  destruct (Workflow.connect Sample.fetch Sample.start "main" "main" 3 0 "t5"
              (obj Sample.pipeline [] Demo.empty_fs)) as [r st'] eqn:E.
  exists st'.
  rewrite (proj1 (@connect_on_built_workflows Demo.platform Sample.pipeline
                    Sample.fetch Sample.start "main" "main" 3 0 "t5" []
                    Demo.empty_fs r st' sample_pipeline_built E)
             eq_refl eq_refl ltac:(lia)).
  reflexivity.
Defined.

Lemma validate_returns_on_built_workflows_witness :
  @api_workflow Demo.platform Sample.pipeline
  /\ exists errors, @Workflow.validate Demo.platform Sample.pipeline = Return errors.
Proof.
  split; [exact sample_pipeline_built|].
  apply (@validate_returns_on_built_workflows Demo.platform Sample.pipeline
           sample_pipeline_built).
  repeat constructor; eexists; vm_compute; reflexivity.
Defined.

Lemma flavour_nodes_pass_all_checks_but_position_witness :
  exists n log',
    ManualTriggerNode.__init__ ManualTriggerNode.default_name JNull JNull 7 []
    = (Return n, log')
    /\ Node.type n = "n8n-nodes-base.manualTrigger"
    /\ @Node.validate Demo.platform n = Return [].
Proof.
  destruct (ManualTriggerNode.__init__ ManualTriggerNode.default_name JNull JNull
              7 []) as [[n|e] log'] eqn:E; [|discriminate E].
  destruct (proj1 (@flavour_nodes_pass_all_checks_but_position Demo.platform)
              _ _ _ _ _ _ _ E) as (Ht & _ & _ & _ & Hv).
  exists n, log'. split; [reflexivity|]. split; [exact Ht|].
  apply Hv. reflexivity.
Defined.

Lemma http_request_parameters_witness :
  exists p,
    HTTPRequestNode.build_parameters (JStr "https://example.org") (JStr "POST")
      (JStr "none") JNull JNull (JStr "json") (JDict [("a", JInt 1)]) (JStr "json")
      JNull = Return p
    /\ dict_get "method" p = Some (JStr "POST")
    /\ dict_get "body" p = None
    /\ dict_get "jsonParameters" p = Some (JBool true).
Proof.
  pose proof (http_request_parameters (JStr "https://example.org") (JStr "POST")
                (JStr "none") JNull JNull (JStr "json") (JDict [("a", JInt 1)])
                (JStr "json") JNull) as H.
  destruct (HTTPRequestNode.build_parameters _ _ _ _ _ _ _ _ _) as [p|e] eqn:E;
    [|discriminate E].
  destruct H as (_ & _ & Hm & _ & _ & _ & _ & _ & Hb & _).
  destruct (Hb eq_refl eq_refl) as (B1 & _ & B3).
  exists p. split; [reflexivity|]. split; [exact Hm|]. split; [exact B1|exact B3].
Defined.

Lemma append_or_update_columns_witness :
  exists c,
    GoogleSheetsNode.columns_config (JList [JStr "x"]) (JList [JStr "id"])
    = JDict c
    /\ dict_get "mappingMode" c = Some (JStr "defineBelow")
    /\ dict_get "matchingColumns" c = Some (JList [JStr "id"]).
Proof.
  destruct (append_or_update_columns (JList [JStr "x"]) (JList [JStr "id"]))
    as (c & Hc & _ & Hm & Hmc & _).
  exists c. split; [exact Hc|]. split; [exact Hm|exact Hmc].
Defined.

Lemma flavour_documents_witness :
  exists n log' d,
    GoogleSheetsNode.__init__ (JStr "Sheet") (JStr "read") (JStr "doc-1") JNull
      JNull JNull (JStr "cred-1") JNull JNull JNull 7 [] = (Return n, log')
    /\ Node.to_dict n = Return (JDict d)
    /\ dict_has "credentials" d = false
    /\ dict_get "typeVersion" d = Some float_4_7.
Proof.
  destruct (GoogleSheetsNode.__init__ (JStr "Sheet") (JStr "read") (JStr "doc-1")
              JNull JNull JNull (JStr "cred-1") JNull JNull JNull 7 [])
    as [[n|e] log'] eqn:E; [|discriminate E].
  destruct (Node.to_dict n) as [doc|e] eqn:Ed;
    [|revert Ed; injection E as <- _; discriminate].
  destruct (proj2 (proj2 (@flavour_documents Demo.platform))
              _ _ _ _ _ _ _ _ _ _ _ _ _ _ _ E Ed)
    as (d & -> & Hc & _ & Hv & _).
  exists n, log', d. split; [reflexivity|]. split; [exact Ed|].
  split; [exact Hc|exact Hv].
Defined.
